(** * FMI-BACKEND: ownership-transfer settlement and portfolio analytics

    A shallow embedding of the investment core of the repository
    (investments/models.py, investments/signals.py, investments/views.py,
    investments/serializers.py, investments/utils.py) together with the
    properties its specification states about it.

    Conventions of the embedding:
    - Money is [decimal.Decimal] in the source.  It is a signed
      coefficient with a power-of-ten exponent here, with the arithmetic
      of the default context (28 significant digits, round-half-even)
      and the two-decimal-place quantisation that Django applies to a
      [DecimalField(max_digits=15, decimal_places=2)] when it writes a
      row (the backend of the default [DATABASES] setting).
    - The database is a record of tables, each a list of rows in
      insertion order; a write is [UPDATE ... WHERE id = pk] or an
      [INSERT], and [transaction.atomic()] is the choice between the
      database a block has built and the one it started from.
    - Fallible code returns a [result]: [Ok] or the exception raised.
    - [instance.investment] is the row the foreign key names, and one
      run of a receiver or a view reads the clock once.
    - Floats, NumPy and SciPy stay abstract behind the [Numeric]
      class, and so does [aggregate(Sum(...))]: the database adds the
      column up, in floating point on the backend of the default
      [DATABASES] setting. *)

From Stdlib Require Import ZArith List String Bool Lia Permutation Sorted.
Import ListNotations.

Local Open Scope Z_scope.

(** ** Decimal arithmetic *)

Module Dec.

(** [value = coef * 10 ^ expo].  *)
Record Decimal : Type := mk { coef : Z; expo : Z }.

(** The default context precision, [getcontext().prec]. *)
Definition prec : Z := 28.

Definition of_Z (n : Z) : Decimal := mk n 0.

(** A value written with two decimal places, [Decimal('12.34')]. *)
Definition of_cents (c : Z) : Decimal := mk c (-2).

(** [Decimal('0.00')], [Decimal('0.0')], [Decimal('0.01')],
    [Decimal('0.025')]. *)
Definition zero2 : Decimal := of_cents 0.
Definition zero1 : Decimal := mk 0 (-1).
Definition one_cent : Decimal := of_cents 1.
Definition fee_rate : Decimal := mk 25 (-3).

(** Number of decimal digits of a non-negative integer,
    [len(str(n))]. *)
Fixpoint digits_fuel (fuel : nat) (n : Z) : Z :=
  match fuel with
  | O => 1
  | S f => if n <? 10 then 1 else 1 + digits_fuel f (n / 10)
  end.

Definition digits (n : Z) : Z :=
  digits_fuel (S (Z.to_nat (Z.log2 (Z.abs n)))) (Z.abs n).

(** Round [n / d] (for [0 < d]) to the nearest integer, ties to the
    even neighbour: [ROUND_HALF_EVEN]. *)
Definition div_half_even (n d : Z) : Z :=
  let q := n / d in
  let r := n mod d in
  match 2 * r ?= d with
  | Lt => q
  | Gt => q + 1
  | Eq => if Z.even q then q else q + 1
  end.

(** [Decimal._fix]: round the coefficient to the context precision. *)
Definition fix_ (d : Decimal) : Decimal :=
  if Z.abs (coef d) <? 10 ^ prec then d
  else
    let k := digits (coef d) - prec in
    let c := div_half_even (coef d) (10 ^ k) in
    if Z.abs c <? 10 ^ prec then mk c (expo d + k)
    else mk (c / 10) (expo d + k + 1).

(** Both coefficients written at the smaller of the two exponents. *)
Definition align (a b : Decimal) : Z * Z * Z :=
  let e := Z.min (expo a) (expo b) in
  (coef a * 10 ^ (expo a - e), coef b * 10 ^ (expo b - e), e).

Definition neg (a : Decimal) : Decimal := mk (- coef a) (expo a).
Definition abs (a : Decimal) : Decimal := mk (Z.abs (coef a)) (expo a).

Definition add (a b : Decimal) : Decimal :=
  let '(ca, cb, e) := align a b in fix_ (mk (ca + cb) e).

Definition sub (a b : Decimal) : Decimal := add a (neg b).

Definition mul (a b : Decimal) : Decimal :=
  fix_ (mk (coef a * coef b) (expo a + expo b)).

(** Exact quotients are brought as close to the ideal exponent as
    their trailing zeros allow. *)
Fixpoint strip (fuel : nat) (c e ideal : Z) : Z * Z :=
  match fuel with
  | O => (c, e)
  | S f =>
      if (e <? ideal) && (c mod 10 =? 0) then strip f (c / 10) (e + 1) ideal
      else (c, e)
  end.

(** [Decimal.__truediv__]; [None] stands for the [DivisionByZero] /
    [InvalidOperation] signals. *)
Definition div (a b : Decimal) : option Decimal :=
  if coef b =? 0 then None
  else if coef a =? 0 then Some (fix_ (mk 0 (expo a - expo b)))
  else
    let sign := Z.sgn (coef a) * Z.sgn (coef b) in
    let n1 := Z.abs (coef a) in
    let n2 := Z.abs (coef b) in
    let shift := digits n2 - digits n1 + prec + 1 in
    let e := expo a - expo b - shift in
    let '(q, r) :=
      if 0 <=? shift then Z.div_eucl (n1 * 10 ^ shift) n2
      else Z.div_eucl n1 (n2 * 10 ^ (- shift)) in
    let '(c, e') :=
      if r =? 0 then strip (Z.to_nat shift) q e (expo a - expo b)
      else ((if q mod 5 =? 0 then q + 1 else q), e) in
    Some (fix_ (mk (sign * c) e')).

(** Comparisons are by numeric value. *)
Definition ltb (a b : Decimal) : bool :=
  let '(ca, cb, _) := align a b in ca <? cb.
Definition leb (a b : Decimal) : bool :=
  let '(ca, cb, _) := align a b in ca <=? cb.
Definition eqb (a b : Decimal) : bool :=
  let '(ca, cb, _) := align a b in ca =? cb.

(** Truth value of a [Decimal]: zero is falsy. *)
Definition truthy (a : Decimal) : bool := negb (coef a =? 0).

(** What a [DecimalField(max_digits, decimal_places=2)] column stores:
    the value quantised to two places in a context of precision
    [max_digits]; [None] is the [InvalidOperation] raised when the
    result needs more digits than that. *)
Definition quantize2 (max_digits : Z) (a : Decimal) : option Decimal :=
  let c :=
    if -2 <=? expo a then coef a * 10 ^ (expo a + 2)
    else div_half_even (coef a) (10 ^ (-2 - expo a)) in
  if Z.abs c <? 10 ^ max_digits then Some (of_cents c) else None.

(** [round(x, 2)] on a [Decimal]: the same rounding without the digit
    limit. *)
Definition round2 (a : Decimal) : Decimal :=
  of_cents
    (if -2 <=? expo a then coef a * 10 ^ (expo a + 2)
     else div_half_even (coef a) (10 ^ (-2 - expo a))).

End Dec.

Abbreviation Decimal := Dec.Decimal.

(** ** Strings *)

Local Open Scope string_scope.

Definition digit_char (d : Z) : string :=
  match d with
  | 0 => "0" | 1 => "1" | 2 => "2" | 3 => "3" | 4 => "4"
  | 5 => "5" | 6 => "6" | 7 => "7" | 8 => "8" | _ => "9"
  end%Z.

(** The decimal digits of a non-negative integer, most significant
    first. *)
Fixpoint str_nat_fuel (fuel : nat) (n : Z) (acc : string) : string :=
  match fuel with
  | O => acc
  | S f =>
      let acc' := digit_char (n mod 10) ++ acc in
      if (n <? 10)%Z then acc' else str_nat_fuel f (n / 10)%Z acc'
  end.

Definition str_nat (n : Z) : string :=
  str_nat_fuel (S (Z.to_nat (Z.log2 n))) n "".

(** [str(n)] for an [int]. *)
Definition str_int (n : Z) : string :=
  if (n <? 0)%Z then "-" ++ str_nat (- n) else str_nat n.

Fixpoint zeros (n : nat) : string :=
  match n with O => "" | S k => "0" ++ zeros k end.

(** [str(d)] for a [Decimal], the scientific-string conversion of
    [Decimal.__str__]. *)
Definition str_decimal (d : Decimal) : string :=
  let sign := if (Dec.coef d <? 0)%Z then "-" else "" in
  let int_ := str_nat (Z.abs (Dec.coef d)) in
  let len := Z.of_nat (String.length int_) in
  let leftdigits := (Dec.expo d + len)%Z in
  let dotplace :=
    if (Dec.expo d <=? 0)%Z && (-6 <? leftdigits)%Z then leftdigits else 1%Z in
  let body :=
    if (dotplace <=? 0)%Z then "0." ++ zeros (Z.to_nat (- dotplace)) ++ int_
    else if (len <=? dotplace)%Z then int_ ++ zeros (Z.to_nat (dotplace - len))
    else substring 0 (Z.to_nat dotplace) int_ ++ "."
         ++ substring (Z.to_nat dotplace) (Z.to_nat (len - dotplace)) int_ in
  let exp :=
    if (leftdigits =? dotplace)%Z then ""
    else "E" ++ (if (0 <=? leftdigits - dotplace)%Z then "+" else "")
         ++ str_int (leftdigits - dotplace) in
  sign ++ body ++ exp.

(** ** Data model (investments/models.py, accounts/models.py) *)

Inductive InvestmentStatus := ACTIVE | UNDERPERFORMING | EXITED.

Inductive Sector :=
  | TECHNOLOGY | HEALTHCARE | REAL_ESTATE | FINTECH | AGRICULTURE
  | ENERGY | CONSUMER | INDUSTRIAL | OTHER.

Inductive ActivityType :=
  | INITIAL_INVESTMENT | CAPITAL_CALL | DISTRIBUTION | PARTIAL_EXIT.

Inductive TransferType := FULL | PARTIAL.

Inductive TransferStatus :=
  | DRAFT | PENDING | APPROVED | COMPLETED | CANCELLED | REJECTED.

Definition InvestmentStatus_eqb (a b : InvestmentStatus) : bool :=
  match a, b with
  | ACTIVE, ACTIVE | UNDERPERFORMING, UNDERPERFORMING | EXITED, EXITED => true
  | _, _ => false
  end.

Definition TransferType_eqb (a b : TransferType) : bool :=
  match a, b with
  | FULL, FULL | PARTIAL, PARTIAL => true
  | _, _ => false
  end.

Definition TransferStatus_eqb (a b : TransferStatus) : bool :=
  match a, b with
  | DRAFT, DRAFT | PENDING, PENDING | APPROVED, APPROVED
  | COMPLETED, COMPLETED | CANCELLED, CANCELLED | REJECTED, REJECTED => true
  | _, _ => false
  end.

(** The stored spelling of a transfer status ([STATUS_CHOICES]). *)
Definition TransferStatus_name (s : TransferStatus) : string :=
  match s with
  | DRAFT => "DRAFT" | PENDING => "PENDING" | APPROVED => "APPROVED"
  | COMPLETED => "COMPLETED" | CANCELLED => "CANCELLED"
  | REJECTED => "REJECTED"
  end.

(** Instants are seconds since the epoch, dates are day numbers. *)
Definition datetime := Z.
Definition date := Z.

(** [timezone.now().date()]. *)
Definition date_of (now : datetime) : date := (now / 86400)%Z.

(** [timedelta(days=n)] added to an instant. *)
Definition add_days (t : datetime) (n : Z) : datetime := (t + n * 86400)%Z.

Module User.
Record t := mk { id : Z; email : string; is_staff : bool }.
End User.

Module Investment.
Record t := mk {
  id : Z;
  user : Z;
  name : string;
  status : InvestmentStatus;
  sector : Sector;
  total_invested : Decimal;
  current_value : Decimal;
  fund_size : option Decimal;
  unfunded_commitment : Decimal;
  manager : string;
  investment_date : date;
  expected_horizon_years : option Z;
  fund_vintage : option Z;
  progress_percentage : Decimal;
  created_at : datetime;
  updated_at : datetime
}.

Definition set_status (v : InvestmentStatus) (i : t) : t :=
  mk (id i) (user i) (name i) v (sector i) (total_invested i)
     (current_value i) (fund_size i) (unfunded_commitment i) (manager i)
     (investment_date i) (expected_horizon_years i) (fund_vintage i)
     (progress_percentage i) (created_at i) (updated_at i).

Definition set_total_invested (v : Decimal) (i : t) : t :=
  mk (id i) (user i) (name i) (status i) (sector i) v
     (current_value i) (fund_size i) (unfunded_commitment i) (manager i)
     (investment_date i) (expected_horizon_years i) (fund_vintage i)
     (progress_percentage i) (created_at i) (updated_at i).

Definition set_current_value (v : Decimal) (i : t) : t :=
  mk (id i) (user i) (name i) (status i) (sector i) (total_invested i)
     v (fund_size i) (unfunded_commitment i) (manager i)
     (investment_date i) (expected_horizon_years i) (fund_vintage i)
     (progress_percentage i) (created_at i) (updated_at i).
End Investment.

Module CapitalActivity.
Record t := mk {
  id : Z;
  investment : Z;
  activity_type : ActivityType;
  amount : Decimal;
  date_ : date;
  details : string;
  created_at : datetime
}.
End CapitalActivity.

Module PerformanceSnapshot.
Record t := mk {
  id : Z;
  investment : Z;
  date_ : date;
  value : Decimal;
  created_at : datetime
}.
End PerformanceSnapshot.

Module OwnershipTransfer.
Record t := mk {
  id : Z;
  investment : Z;
  from_user : User.t;
  to_user : option User.t;
  to_email : string;
  to_name : string;
  transfer_type : TransferType;
  percentage : option Decimal;
  transfer_amount : Decimal;
  transfer_fee : Decimal;
  net_amount : Decimal;
  reason : string;
  status : TransferStatus;
  is_processed : bool;
  initiated_date : datetime;
  completion_date : option datetime;
  estimated_completion_date : option datetime;
  created_at : datetime;
  updated_at : datetime
}.

Definition set_status (v : TransferStatus) (x : t) : t :=
  mk (id x) (investment x) (from_user x) (to_user x) (to_email x)
     (to_name x) (transfer_type x) (percentage x) (transfer_amount x)
     (transfer_fee x) (net_amount x) (reason x) v (is_processed x)
     (initiated_date x) (completion_date x) (estimated_completion_date x)
     (created_at x) (updated_at x).

Definition set_fees (fee net : Decimal) (x : t) : t :=
  mk (id x) (investment x) (from_user x) (to_user x) (to_email x)
     (to_name x) (transfer_type x) (percentage x) (transfer_amount x)
     fee net (reason x) (status x) (is_processed x)
     (initiated_date x) (completion_date x) (estimated_completion_date x)
     (created_at x) (updated_at x).

Definition set_estimated_completion_date (v : option datetime) (x : t) : t :=
  mk (id x) (investment x) (from_user x) (to_user x) (to_email x)
     (to_name x) (transfer_type x) (percentage x) (transfer_amount x)
     (transfer_fee x) (net_amount x) (reason x) (status x) (is_processed x)
     (initiated_date x) (completion_date x) v
     (created_at x) (updated_at x).

Definition set_processed (p : bool) (c : option datetime) (x : t) : t :=
  mk (id x) (investment x) (from_user x) (to_user x) (to_email x)
     (to_name x) (transfer_type x) (percentage x) (transfer_amount x)
     (transfer_fee x) (net_amount x) (reason x) (status x) p
     (initiated_date x) c (estimated_completion_date x)
     (created_at x) (updated_at x).
End OwnershipTransfer.

Inductive JsonValue := JInt (n : Z) | JStr (s : string).

Module UserActivity.
Record t := mk {
  user : Z;
  activity_type : string;
  description : string;
  metadata : list (string * JsonValue);
  created_at : datetime
}.
End UserActivity.

(** The tables the core reads and writes. *)
Record Database := mkDatabase {
  investments : list Investment.t;
  capital_activities : list CapitalActivity.t;
  performance_snapshots : list PerformanceSnapshot.t;
  ownership_transfers : list OwnershipTransfer.t;
  user_activities : list UserActivity.t
}.

Definition set_investments (v : list Investment.t) (db : Database) :=
  mkDatabase v (capital_activities db) (performance_snapshots db)
             (ownership_transfers db) (user_activities db).

Definition set_capital_activities (v : list CapitalActivity.t) (db : Database) :=
  mkDatabase (investments db) v (performance_snapshots db)
             (ownership_transfers db) (user_activities db).

Definition set_performance_snapshots (v : list PerformanceSnapshot.t)
    (db : Database) :=
  mkDatabase (investments db) (capital_activities db) v
             (ownership_transfers db) (user_activities db).

Definition set_ownership_transfers (v : list OwnershipTransfer.t)
    (db : Database) :=
  mkDatabase (investments db) (capital_activities db)
             (performance_snapshots db) v (user_activities db).

Definition set_user_activities (v : list UserActivity.t) (db : Database) :=
  mkDatabase (investments db) (capital_activities db)
             (performance_snapshots db) (ownership_transfers db) v.

(** The next value of an auto-increment primary key. *)
Definition next_id (ids : list Z) : Z := (1 + fold_right Z.max 0 ids)%Z.

(** ** Exceptions *)

Inductive Exn :=
  | InvalidOperation
  | MultipleObjectsReturned
  | DoesNotExist
  | DatabaseError
  | ValueError
  | TypeError
  | ZeroDivisionError
  | OverflowError
  | RuntimeError.

Inductive result (A : Type) : Type :=
  | Ok (a : A)
  | Raise (e : Exn).

Arguments Ok {A} a.
Arguments Raise {A} e.

Definition bind {A B} (r : result A) (k : A -> result B) : result B :=
  match r with
  | Ok a => k a
  | Raise e => Raise e
  end.

Notation "x <- e ;; k" := (bind e (fun x => k))
  (at level 61, e at next level, right associativity).

(** A column write: the quantised value, or [InvalidOperation]. *)
Definition to_column (max_digits : Z) (d : Decimal) : result Decimal :=
  match Dec.quantize2 max_digits d with
  | Some q => Ok q
  | None => Raise InvalidOperation
  end.

Definition to_column_opt (max_digits : Z) (d : option Decimal)
  : result (option Decimal) :=
  match d with
  | None => Ok None
  | Some v => q <- to_column max_digits v ;; Ok (Some q)
  end.

(** ** Persistence of the ledger entities *)

(** [UPDATE ... WHERE id = pk], and [INSERT] when no row has that key:
    what [Model.save()] does for an instance whose key is set. *)
Definition has_pk {A} (pk_of : A -> Z) (pk : Z) (rows : list A) : bool :=
  existsb (fun r => pk_of r =? pk)%Z rows.

Definition update_row {A} (pk_of : A -> Z) (pk : Z) (f : A -> A)
    (rows : list A) : list A :=
  map (fun r => if (pk_of r =? pk)%Z then f r else r) rows.

Definition write_row {A} (pk_of : A -> Z) (row : A) (rows : list A) : list A :=
  if has_pk pk_of (pk_of row) rows
  then update_row pk_of (pk_of row) (fun _ => row) rows
  else (rows ++ [row])%list.

(** [Model.objects.get(pk=...)]. *)
Definition get_by_pk {A} (pk_of : A -> Z) (pk : Z) (rows : list A)
  : result A :=
  match filter (fun r => pk_of r =? pk)%Z rows with
  | [] => Raise DoesNotExist
  | [r] => Ok r
  | _ => Raise MultipleObjectsReturned
  end.

(** The row written for an investment: every decimal column quantised,
    [updated_at] refreshed ([auto_now]). *)
Definition Investment_to_row (now : datetime) (i : Investment.t)
  : result Investment.t :=
  ti <- to_column 15 (Investment.total_invested i) ;;
  cv <- to_column 15 (Investment.current_value i) ;;
  fs <- to_column_opt 15 (Investment.fund_size i) ;;
  uc <- to_column 15 (Investment.unfunded_commitment i) ;;
  pp <- to_column 5 (Investment.progress_percentage i) ;;
  Ok (Investment.mk (Investment.id i) (Investment.user i) (Investment.name i)
        (Investment.status i) (Investment.sector i) ti cv fs uc
        (Investment.manager i) (Investment.investment_date i)
        (Investment.expected_horizon_years i) (Investment.fund_vintage i)
        pp (Investment.created_at i) now).

(** signals.py, [create_performance_snapshot]: the [post_save] receiver
    of [Investment]. *)
Definition create_performance_snapshot (now : datetime) (db : Database)
    (instance : Investment.t) : result Database :=
  if Dec.truthy (Investment.current_value instance)
     && Dec.ltb (Dec.of_Z 0) (Investment.current_value instance)
  then
    let today := date_of now in
    let existing :=
      existsb (fun s =>
                 (PerformanceSnapshot.investment s =? Investment.id instance)%Z
                 && (PerformanceSnapshot.date_ s =? today)%Z)
              (performance_snapshots db) in
    if negb existing then
      v <- to_column 15 (Investment.current_value instance) ;;
      Ok (set_performance_snapshots
            (performance_snapshots db ++
             [PerformanceSnapshot.mk
                (next_id (map PerformanceSnapshot.id (performance_snapshots db)))
                (Investment.id instance) today v now])%list
            db)
    else Ok db
  else Ok db.

(** [Investment.save()]: write the row, then fire [post_save]. *)
Definition Investment_save (now : datetime) (db : Database)
    (instance : Investment.t) : result Database :=
  row <- Investment_to_row now instance ;;
  create_performance_snapshot now
    (set_investments (write_row Investment.id row (investments db)) db)
    instance.

(** [Investment.objects.get_or_create(user=..., name=..., defaults=...)].
    [params] carries the lookup values and the defaults; its key is
    assigned on insertion. *)
Definition Investment_get_or_create (now : datetime) (db : Database)
    (params : Investment.t) : result (Investment.t * bool * Database) :=
  match
    filter (fun i =>
              (Investment.user i =? Investment.user params)%Z
              && String.eqb (Investment.name i) (Investment.name params))
           (investments db)
  with
  | [] =>
      let obj :=
        Investment.mk (next_id (map Investment.id (investments db)))
          (Investment.user params) (Investment.name params)
          (Investment.status params) (Investment.sector params)
          (Investment.total_invested params) (Investment.current_value params)
          (Investment.fund_size params) (Investment.unfunded_commitment params)
          (Investment.manager params) (Investment.investment_date params)
          (Investment.expected_horizon_years params)
          (Investment.fund_vintage params)
          (Investment.progress_percentage params) now now in
      db' <- Investment_save now db obj ;;
      Ok (obj, true, db')
  | [obj] => Ok (obj, false, db)
  | _ => Raise MultipleObjectsReturned
  end.

(** [CapitalActivity.objects.create(...)]. *)
Definition CapitalActivity_create (now : datetime) (db : Database)
    (investment : Z) (activity_type : ActivityType) (amount : Decimal)
    (date_ : date) (details : string) : result Database :=
  a <- to_column 15 amount ;;
  Ok (set_capital_activities
        (capital_activities db ++
         [CapitalActivity.mk
            (next_id (map CapitalActivity.id (capital_activities db)))
            investment activity_type a date_ details now])%list
        db).

(** accounts/models.py, [UserActivity.log_activity]. *)
Definition log_activity (now : datetime) (db : Database) (user : User.t)
    (activity_type description : string)
    (metadata : list (string * JsonValue)) : Database :=
  set_user_activities
    (user_activities db ++
     [UserActivity.mk (User.id user) activity_type description metadata now])%list
    db.

(** models.py, [OwnershipTransfer.save], the part before
    [super().save()]: fee, net amount and estimated completion date. *)
Definition OwnershipTransfer_pre_save (now : datetime)
    (self : OwnershipTransfer.t) : OwnershipTransfer.t :=
  let transfer_fee :=
    Dec.mul (OwnershipTransfer.transfer_amount self) Dec.fee_rate in
  let net_amount :=
    Dec.sub (OwnershipTransfer.transfer_amount self) transfer_fee in
  let self := OwnershipTransfer.set_fees transfer_fee net_amount self in
  match OwnershipTransfer.estimated_completion_date self,
        OwnershipTransfer.status self with
  | None, PENDING =>
      OwnershipTransfer.set_estimated_completion_date
        (Some (add_days now 10)) self
  | _, _ => self
  end.

(** The row written for a transfer by a full save. *)
Definition OwnershipTransfer_to_row (now : datetime)
    (x : OwnershipTransfer.t) : result OwnershipTransfer.t :=
  pc <- to_column_opt 5 (OwnershipTransfer.percentage x) ;;
  am <- to_column 15 (OwnershipTransfer.transfer_amount x) ;;
  fee <- to_column 15 (OwnershipTransfer.transfer_fee x) ;;
  net <- to_column 15 (OwnershipTransfer.net_amount x) ;;
  Ok (OwnershipTransfer.mk (OwnershipTransfer.id x)
        (OwnershipTransfer.investment x) (OwnershipTransfer.from_user x)
        (OwnershipTransfer.to_user x) (OwnershipTransfer.to_email x)
        (OwnershipTransfer.to_name x) (OwnershipTransfer.transfer_type x)
        pc am fee net (OwnershipTransfer.reason x)
        (OwnershipTransfer.status x) (OwnershipTransfer.is_processed x)
        (OwnershipTransfer.initiated_date x)
        (OwnershipTransfer.completion_date x)
        (OwnershipTransfer.estimated_completion_date x)
        (OwnershipTransfer.created_at x) now).

(** [self.save(update_fields=['is_processed', 'completion_date'])]: the
    fee fields are recomputed on the instance, only the two named columns
    of the existing row are written, and a missing row is an error. *)
Definition OwnershipTransfer_save_processed (now : datetime) (db : Database)
    (self : OwnershipTransfer.t) : OwnershipTransfer.t * result Database :=
  let self := OwnershipTransfer_pre_save now self in
  (self,
   if has_pk OwnershipTransfer.id (OwnershipTransfer.id self)
        (ownership_transfers db)
   then
     Ok (set_ownership_transfers
           (update_row OwnershipTransfer.id (OwnershipTransfer.id self)
              (OwnershipTransfer.set_processed
                 (OwnershipTransfer.is_processed self)
                 (OwnershipTransfer.completion_date self))
              (ownership_transfers db))
           db)
   else Raise DatabaseError).

Notation "' p <- e ;; k" := (bind e (fun p => k))
  (at level 61, p pattern, e at next level, right associativity).

(** ** The settlement executor (investments/signals.py) *)

(** How one run of the receiver ended; each constructor is one of its
    exits. *)
Inductive Outcome :=
  | Skipped              (* not COMPLETED, or already processed *)
  | NoBuyer              (* no recipient user: warning, return *)
  | AmountExceedsValue   (* validation failed: error logged, return *)
  | Processed            (* the atomic block committed *)
  | Failed (e : Exn).    (* the atomic block raised and was rolled back *)

(** Lines 74-89: the seller's investment after the transfer, still in
    memory. *)
Definition seller_after_transfer (instance : OwnershipTransfer.t)
    (seller_investment : Investment.t) : result Investment.t :=
  let amount := OwnershipTransfer.transfer_amount instance in
  transfer_ratio <-
    (if Dec.ltb (Dec.of_Z 0) (Investment.current_value seller_investment)
     then match Dec.div amount (Investment.current_value seller_investment) with
          | Some r => Ok r
          | None => Raise InvalidOperation
          end
     else Ok Dec.zero1) ;;
  let cost_basis_deduction :=
    Dec.mul (Investment.total_invested seller_investment) transfer_ratio in
  let s :=
    Investment.set_current_value
      (Dec.sub (Investment.current_value seller_investment) amount)
      seller_investment in
  let s :=
    Investment.set_total_invested
      (Dec.sub (Investment.total_invested s) cost_basis_deduction) s in
  Ok (if TransferType_eqb (OwnershipTransfer.transfer_type instance) FULL
         || Dec.ltb (Investment.current_value s) Dec.one_cent
      then
        Investment.set_total_invested Dec.zero2
          (Investment.set_current_value Dec.zero2
             (Investment.set_status EXITED s))
      else s).

(** The buyer's investment as [get_or_create] would insert it. *)
Definition buyer_defaults (now : datetime) (buyer : User.t)
    (seller_investment : Investment.t) : Investment.t :=
  Investment.mk 0 (User.id buyer) (Investment.name seller_investment)
    ACTIVE (Investment.sector seller_investment) Dec.zero2 Dec.zero2
    None Dec.zero2 (Investment.manager seller_investment) (date_of now)
    None (Investment.fund_vintage seller_investment) Dec.zero2 now now.

(** Lines 117-119: the credit on the buyer's investment. *)
Definition buyer_after_transfer (instance : OwnershipTransfer.t)
    (buyer_investment : Investment.t) : Investment.t :=
  let amount := OwnershipTransfer.transfer_amount instance in
  let b :=
    Investment.set_total_invested
      (Dec.add (Investment.total_invested buyer_investment) amount)
      buyer_investment in
  Investment.set_current_value (Dec.add (Investment.current_value b) amount) b.

(** Lines 74-129: the four ledger writes. *)
Definition settle_ledger (now : datetime) (db : Database)
    (instance : OwnershipTransfer.t) (buyer : User.t)
    (seller_investment : Investment.t) : result Database :=
  let amount := OwnershipTransfer.transfer_amount instance in
  seller_investment <- seller_after_transfer instance seller_investment ;;
  db <- Investment_save now db seller_investment ;;
  db <- CapitalActivity_create now db (Investment.id seller_investment)
          (if TransferType_eqb (OwnershipTransfer.transfer_type instance) PARTIAL
           then PARTIAL_EXIT else DISTRIBUTION)
          amount (date_of now)
          ("Ownership transfer to " ++ User.email buyer ++ " (Transfer #"
           ++ str_int (OwnershipTransfer.id instance) ++ ")") ;;
  ' (buyer_investment, created_inv, db) <-
      Investment_get_or_create now db
        (buyer_defaults now buyer seller_investment) ;;
  let buyer_investment := buyer_after_transfer instance buyer_investment in
  db <- Investment_save now db buyer_investment ;;
  CapitalActivity_create now db (Investment.id buyer_investment)
    INITIAL_INVESTMENT (Dec.fix_ (Dec.neg amount)) (date_of now)
    ("Ownership transfer from "
     ++ User.email (OwnershipTransfer.from_user instance)
     ++ " (Transfer #" ++ str_int (OwnershipTransfer.id instance) ++ ")").

(** Lines 131-150: the processed flag, the completion date and the two
    audit records.  The [post_save] that the flag write fires re-enters
    the receiver with [is_processed] set, where it returns at once
    (lemma [handler_skips_processed] below), so that nested call is not
    unfolded here. *)
Definition mark_processed (now : datetime) (db : Database)
    (instance : OwnershipTransfer.t) (buyer : User.t)
  : OwnershipTransfer.t * result Database :=
  let instance :=
    OwnershipTransfer.set_processed true
      (match OwnershipTransfer.completion_date instance with
       | None => Some now
       | Some c => Some c
       end) instance in
  let '(instance, saved) := OwnershipTransfer_save_processed now db instance in
  (instance,
   db <- saved ;;
   let db :=
     log_activity now db (OwnershipTransfer.from_user instance)
       "PORTFOLIO_UPDATE"
       ("Transfer of $"
        ++ str_decimal (OwnershipTransfer.transfer_amount instance)
        ++ " completed")
       [("transfer_id", JInt (OwnershipTransfer.id instance));
        ("type", JStr "seller")] in
   Ok (log_activity now db buyer "PORTFOLIO_UPDATE"
         ("Received $"
          ++ str_decimal (OwnershipTransfer.transfer_amount instance)
          ++ " via transfer")
         [("transfer_id", JInt (OwnershipTransfer.id instance));
          ("type", JStr "buyer")])).

(** [handle_transfer_completion], the [post_save] receiver of
    [OwnershipTransfer].  [instance.investment] is the row the foreign
    key names; the outer [Raise] is that lookup failing, the only step
    outside the [try].  A failure inside the atomic block restores the
    database and leaves what the instance had been assigned in memory. *)
Definition handle_transfer_completion (now : datetime) (db : Database)
    (instance : OwnershipTransfer.t)
  : result (Outcome * Database * OwnershipTransfer.t) :=
  if negb (TransferStatus_eqb (OwnershipTransfer.status instance) COMPLETED)
     || OwnershipTransfer.is_processed instance
  then Ok (Skipped, db, instance)
  else
    match OwnershipTransfer.to_user instance with
    | None => Ok (NoBuyer, db, instance)
    | Some buyer =>
        seller_investment <-
          get_by_pk Investment.id (OwnershipTransfer.investment instance)
            (investments db) ;;
        if Dec.ltb (Investment.current_value seller_investment)
             (OwnershipTransfer.transfer_amount instance)
        then Ok (AmountExceedsValue, db, instance)
        else
          match settle_ledger now db instance buyer seller_investment with
          | Raise e => Ok (Failed e, db, instance)
          | Ok db1 =>
              match mark_processed now db1 instance buyer with
              | (instance1, Raise e) => Ok (Failed e, db, instance1)
              | (instance1, Ok db2) => Ok (Processed, db2, instance1)
              end
          end
    end.

(** [OwnershipTransfer.save()]: recompute the derived fields, write the
    whole row, fire [post_save]. *)
Definition OwnershipTransfer_save (now : datetime) (db : Database)
    (self : OwnershipTransfer.t) : result (Database * OwnershipTransfer.t) :=
  let self := OwnershipTransfer_pre_save now self in
  row <- OwnershipTransfer_to_row now self ;;
  let db :=
    set_ownership_transfers
      (write_row OwnershipTransfer.id row (ownership_transfers db)) db in
  ' (_, db, self) <- handle_transfer_completion now db self ;;
  Ok (db, self).

(** Running the receiver again and again on what the previous run left,
    one clock reading per run. *)
Fixpoint run_handler (clock : list datetime) (db : Database)
    (instance : OwnershipTransfer.t)
  : result (Database * OwnershipTransfer.t) :=
  match clock with
  | [] => Ok (db, instance)
  | now :: rest =>
      ' (_, db, instance) <- handle_transfer_completion now db instance ;;
      run_handler rest db instance
  end.

(** ** The transfer state machine (investments/views.py) *)

Record Request := mkRequest {
  request_user : option User.t;          (* [None]: not authenticated *)
  param_status : option string;          (* [?status=] *)
  param_direction : option string        (* [?direction=] *)
}.

Inductive Response :=
  | Response_ok (message : string) (transfer : OwnershipTransfer.t)
  | Response_error (error : string) (status : Z)
  | PermissionDenied                     (* 401 / 403 from the permission classes *)
  | NotFound                             (* 404 from [get_object] *)
  | ValidationError (detail : string).   (* 400 raised by [perform_destroy] *)

Definition HTTP_400_BAD_REQUEST : Z := 400.
Definition HTTP_403_FORBIDDEN : Z := 403.

(** [permissions.IsAuthenticated] and [permissions.IsAdminUser]. *)
Definition IsAuthenticated (request : Request) : bool :=
  match request_user request with Some _ => true | None => false end.

Definition IsAdminUser (request : Request) : bool :=
  match request_user request with
  | Some u => User.is_staff u
  | None => false
  end.

Definition is_user (u : User.t) (v : User.t) : bool :=
  (User.id u =? User.id v)%Z.

Definition is_to_user (u : User.t) (x : OwnershipTransfer.t) : bool :=
  match OwnershipTransfer.to_user x with
  | Some v => is_user u v
  | None => false
  end.

(** [OwnershipTransferViewSet.get_queryset]: the caller's outgoing and
    incoming transfers, joined with their investment, narrowed by the
    query parameters.  (The ordering does not matter to a lookup by
    key.) *)
Definition get_queryset (request : Request) (db : Database)
  : list OwnershipTransfer.t :=
  match request_user request with
  | None => []
  | Some user =>
      let queryset :=
        filter (fun x =>
                  (is_user user (OwnershipTransfer.from_user x)
                   || is_to_user user x)
                  && has_pk Investment.id (OwnershipTransfer.investment x)
                       (investments db))
               (ownership_transfers db) in
      let queryset :=
        match param_status request with
        | Some s =>
            if String.eqb s "" then queryset
            else filter (fun x =>
                           String.eqb
                             (TransferStatus_name (OwnershipTransfer.status x)) s)
                        queryset
        | None => queryset
        end in
      match param_direction request with
      | Some d =>
          if String.eqb d "outgoing"
          then filter (fun x => is_user user (OwnershipTransfer.from_user x))
                      queryset
          else if String.eqb d "incoming"
          then filter (is_to_user user) queryset
          else queryset
      | None => queryset
      end
  end.

(** [self.get_object()]. *)
Definition get_object (request : Request) (db : Database) (pk : Z)
  : result OwnershipTransfer.t :=
  get_by_pk OwnershipTransfer.id pk (get_queryset request db).

(** A view either answers, with the database it leaves, or lets an
    exception through. *)
Definition view := result (Response * Database).

(** [submit]: DRAFT to PENDING, by the owner. *)
Definition submit (now : datetime) (request : Request) (db : Database)
    (pk : Z) : view :=
  match request_user request with
  | None => Ok (PermissionDenied, db)
  | Some user =>
      match get_object request db pk with
      | Raise DoesNotExist => Ok (NotFound, db)
      | Raise e => Raise e
      | Ok transfer =>
          if negb (is_user user (OwnershipTransfer.from_user transfer))
          then Ok (Response_error "You can only submit your own transfers."
                     HTTP_403_FORBIDDEN, db)
          else if negb (TransferStatus_eqb (OwnershipTransfer.status transfer)
                          DRAFT)
          then Ok (Response_error "Only draft transfers can be submitted."
                     HTTP_400_BAD_REQUEST, db)
          else
            let transfer := OwnershipTransfer.set_status PENDING transfer in
            let transfer :=
              OwnershipTransfer.set_estimated_completion_date
                (Some (add_days now 10)) transfer in
            ' (db, transfer) <- OwnershipTransfer_save now db transfer ;;
            Ok (Response_ok "Transfer submitted successfully." transfer, db)
      end
  end.

(** [approve]: PENDING to APPROVED, staff only. *)
Definition approve (now : datetime) (request : Request) (db : Database)
    (pk : Z) : view :=
  if negb (IsAdminUser request) then Ok (PermissionDenied, db)
  else
    match get_object request db pk with
    | Raise DoesNotExist => Ok (NotFound, db)
    | Raise e => Raise e
    | Ok transfer =>
        if negb (TransferStatus_eqb (OwnershipTransfer.status transfer) PENDING)
        then Ok (Response_error "Only pending transfers can be approved."
                   HTTP_400_BAD_REQUEST, db)
        else
          let transfer := OwnershipTransfer.set_status APPROVED transfer in
          ' (db, transfer) <- OwnershipTransfer_save now db transfer ;;
          Ok (Response_ok "Transfer approved successfully." transfer, db)
    end.

(** [complete]: APPROVED to COMPLETED, staff only; the save fires the
    settlement. *)
Definition complete (now : datetime) (request : Request) (db : Database)
    (pk : Z) : view :=
  if negb (IsAdminUser request) then Ok (PermissionDenied, db)
  else
    match get_object request db pk with
    | Raise DoesNotExist => Ok (NotFound, db)
    | Raise e => Raise e
    | Ok transfer =>
        if negb (TransferStatus_eqb (OwnershipTransfer.status transfer) APPROVED)
        then Ok (Response_error "Only approved transfers can be completed."
                   HTTP_400_BAD_REQUEST, db)
        else
          let transfer := OwnershipTransfer.set_status COMPLETED transfer in
          ' (db, transfer) <- OwnershipTransfer_save now db transfer ;;
          Ok (Response_ok "Transfer completed successfully." transfer, db)
    end.

(** [perform_destroy]: the owner cancels a DRAFT or PENDING transfer. *)
Definition perform_destroy (now : datetime) (request : Request)
    (db : Database) (instance : OwnershipTransfer.t)
  : result (option Response * Database) :=
  match request_user request with
  | None => Ok (Some PermissionDenied, db)
  | Some user =>
      if negb (is_user user (OwnershipTransfer.from_user instance))
      then Ok (Some PermissionDenied, db)
      else
        match OwnershipTransfer.status instance with
        | DRAFT | PENDING =>
            let instance := OwnershipTransfer.set_status CANCELLED instance in
            ' (db, _) <- OwnershipTransfer_save now db instance ;;
            Ok (None, db)
        | _ =>
            Ok (Some (ValidationError
                        "Can only cancel draft or pending transfers."), db)
        end
  end.

(** The status column of the transfer with key [pk]. *)
Definition status_of (db : Database) (pk : Z) : option TransferStatus :=
  match get_by_pk OwnershipTransfer.id pk (ownership_transfers db) with
  | Ok x => Some (OwnershipTransfer.status x)
  | Raise _ => None
  end.

(** ** More of the transfer endpoints (investments/views.py) *)

(** [order_by(...)]: a stable sort.  [before a b] says that [a] comes
    strictly before [b] in the requested order; rows that the order
    does not separate stay in table order. *)
Fixpoint insert_sorted {A} (before : A -> A -> bool) (a : A) (l : list A)
  : list A :=
  match l with
  | [] => [a]
  | b :: rest =>
      if before a b then a :: b :: rest
      else b :: insert_sorted before a rest
  end.

Definition order_by {A} (before : A -> A -> bool) (l : list A) : list A :=
  fold_left (fun acc a => insert_sorted before a acc) l [].

(** [order_by('-created_at')]. *)
Definition newest_first (a b : OwnershipTransfer.t) : bool :=
  (OwnershipTransfer.created_at b <? OwnershipTransfer.created_at a)%Z.

(** [order_by('-completion_date', '-created_at')]; a missing completion
    date sorts as the smallest value, so last. *)
Definition latest_completion_first (a b : OwnershipTransfer.t) : bool :=
  match OwnershipTransfer.completion_date a,
        OwnershipTransfer.completion_date b with
  | Some x, Some y => (y <? x)%Z || ((y =? x)%Z && newest_first a b)
  | Some _, None => true
  | None, Some _ => false
  | None, None => newest_first a b
  end.

(** [Q(from_user=user) | Q(to_user=user)]. *)
Definition is_party (user : User.t) (x : OwnershipTransfer.t) : bool :=
  is_user user (OwnershipTransfer.from_user x) || is_to_user user x.

(** What a list endpoint answers: the serialised rows and
    [total_count], or the refusal of the permission class. *)
Inductive Listing :=
  | Listing_ok (transfers : list OwnershipTransfer.t) (total_count : Z)
  | Listing_denied.

(** The rows of the caller with one of the given statuses, joined with
    their investment. *)
Definition transfers_with_status (user : User.t)
    (statuses : list TransferStatus) (db : Database)
  : list OwnershipTransfer.t :=
  filter (fun x =>
            is_party user x
            && existsb (TransferStatus_eqb (OwnershipTransfer.status x)) statuses
            && has_pk Investment.id (OwnershipTransfer.investment x)
                 (investments db))
         (ownership_transfers db).

(** [pending]: the caller's PENDING and APPROVED transfers. *)
Definition pending (request : Request) (db : Database) : Listing :=
  match request_user request with
  | None => Listing_denied
  | Some user =>
      let transfers :=
        order_by newest_first
          (transfers_with_status user [PENDING; APPROVED] db) in
      Listing_ok transfers (Z.of_nat (List.length transfers))
  end.

(** [history]: the caller's COMPLETED, CANCELLED and REJECTED
    transfers. *)
Definition history (request : Request) (db : Database) : Listing :=
  match request_user request with
  | None => Listing_denied
  | Some user =>
      let transfers :=
        order_by latest_completion_first
          (transfers_with_status user [COMPLETED; CANCELLED; REJECTED] db) in
      Listing_ok transfers (Z.of_nat (List.length transfers))
  end.

(** The rows of a listing. *)
Definition listed (l : Listing) : list OwnershipTransfer.t :=
  match l with
  | Listing_ok transfers _ => transfers
  | Listing_denied => []
  end.

(** The moves the four status operations can make. *)
Inductive transition : TransferStatus -> TransferStatus -> Prop :=
  | transition_submit : transition DRAFT PENDING
  | transition_approve : transition PENDING APPROVED
  | transition_complete : transition APPROVED COMPLETED
  | transition_cancel_draft : transition DRAFT CANCELLED
  | transition_cancel_pending : transition PENDING CANCELLED.

(** Between two databases only the transfer [pk] may have changed its
    status, and only along a [transition]. *)
Definition status_step (db db' : Database) (pk : Z) : Prop :=
  forall pk',
    status_of db' pk' = status_of db pk'
    \/ (pk' = pk
        /\ exists s s',
             status_of db pk = Some s /\ status_of db' pk = Some s'
             /\ transition s s').

(** The tables that hold money and its audit trail. *)
Definition same_ledger (db db' : Database) : Prop :=
  investments db' = investments db
  /\ capital_activities db' = capital_activities db
  /\ performance_snapshots db' = performance_snapshots db
  /\ user_activities db' = user_activities db.

(** [a] may stand before [b] in the order of [history]: its completion
    date is not the earlier one, and a missing date comes last. *)
Definition completion_not_after (a b : OwnershipTransfer.t) : Prop :=
  match OwnershipTransfer.completion_date a,
        OwnershipTransfer.completion_date b with
  | Some x, Some y => (y <= x)%Z
  | None, Some _ => False
  | _, _ => True
  end.

(** ** Portfolio analytics (investments/utils.py) *)

(** The analytics run on Python floats, NumPy and SciPy.  Their
    arithmetic is kept abstract: a type of numbers with the operations
    the code applies to them, each free to raise where Python's can. *)
Class Numeric := {
  number : Type;
  (** [float(d)] for a [Decimal] and for an [int] *)
  float_of_decimal : Decimal -> number;
  float_of_int : Z -> number;
  (** the literals [0.1] and [365.0] *)
  float_tenth : number;
  float_365 : number;
  num_add : number -> number -> number;
  num_mul : number -> number -> number;
  num_div : number -> number -> result number;
  num_pow : number -> number -> result number;
  (** [scipy.optimize.newton(func, x0, maxiter=...)] *)
  newton : (number -> result number) -> number -> Z -> result number;
  (** [np.average(values, weights=weights)] *)
  np_average : list number -> list number -> result number;
  (** [Decimal(str(round(x, 2)))] *)
  decimal_of_rounded : number -> result Decimal;
  (** [SUM(column)] over at least one row, as the query returns it.
      SQLite, the backend of the default [DATABASES] setting, adds the
      stored values up in floating point, and Django's converter for
      decimal expressions,
      [Context(prec=15).create_decimal_from_float], makes the result a
      [Decimal] of at most 15 significant digits *)
  sql_sum : list Decimal -> result Decimal
}.

Section Analytics.

Context {N : Numeric}.

(** [min(dates)]: an empty sequence is a [ValueError]. *)
Definition min_date (dates : list date) : result date :=
  match dates with
  | [] => Raise ValueError
  | d :: rest => Ok (fold_left Z.min rest d)
  end.

(** One term of [xnpv], [cf / (1 + rate) ** (day / 365.0)]. *)
Definition xnpv_term (rate : number) (day : Z) (cf : number)
  : result number :=
  t <- num_div (float_of_int day) float_365 ;;
  p <- num_pow (num_add (float_of_int 1) rate) t ;;
  num_div cf p.

Fixpoint xnpv_terms (rate : number) (flows : list (Z * number))
  : result (list number) :=
  match flows with
  | [] => Ok []
  | (day, cf) :: rest =>
      x <- xnpv_term rate day cf ;;
      xs <- xnpv_terms rate rest ;;
      Ok (x :: xs)
  end.

(** [xnpv]: the sum of the terms over [zip(days, cash_flows)]. *)
Definition xnpv (rate : number) (days : list Z) (cash_flows : list number)
  : result number :=
  terms <- xnpv_terms rate (combine days cash_flows) ;;
  Ok (fold_left num_add terms (float_of_int 0)).

(** [xirr(dates, cash_flows, guess)]; [Ok None] is the [None] the
    function returns, [Raise] an exception leaving it. *)
Definition xirr (dates : list date) (cash_flows : list number)
    (guess : number) : result (option number) :=
  if negb (List.length dates =? List.length cash_flows)%nat then Ok None
  else if (List.length dates <? 2)%nat then Ok None
  else
    first_date <- min_date dates ;;
    let days := map (fun d => d - first_date)%Z dates in
    match newton (fun r => xnpv r days cash_flows) guess 100 with
    | Ok result => Ok (Some result)
    | Raise _ => Ok None
    end.

(** [order_by('date')]: a stable sort of the rows by date. *)
Fixpoint insert_by_date (a : CapitalActivity.t)
    (l : list CapitalActivity.t) : list CapitalActivity.t :=
  match l with
  | [] => [a]
  | b :: rest =>
      if (CapitalActivity.date_ a <? CapitalActivity.date_ b)%Z
      then a :: b :: rest
      else b :: insert_by_date a rest
  end.

Definition order_by_date (l : list CapitalActivity.t)
  : list CapitalActivity.t :=
  fold_left (fun acc a => insert_by_date a acc) l [].

(** [investment.capital_activities.order_by('date')]. *)
Definition capital_activities_of (db : Database) (investment : Investment.t)
  : list CapitalActivity.t :=
  order_by_date
    (filter (fun a =>
               (CapitalActivity.investment a =? Investment.id investment)%Z)
            (capital_activities db)).

(** Lines 41-44: the cash flow an activity contributes. *)
Definition cash_flow_of (activity : CapitalActivity.t) : number :=
  match CapitalActivity.activity_type activity with
  | INITIAL_INVESTMENT | CAPITAL_CALL =>
      float_of_decimal
        (Dec.fix_ (Dec.neg (Dec.fix_ (Dec.abs (CapitalActivity.amount activity)))))
  | DISTRIBUTION | PARTIAL_EXIT =>
      float_of_decimal (Dec.fix_ (Dec.abs (CapitalActivity.amount activity)))
  end.

(** Lines 35-49: the dated series handed to [xirr]. *)
Definition cash_flow_series (today : date) (investment : Investment.t)
    (activities : list CapitalActivity.t) : list date * list number :=
  ((map CapitalActivity.date_ activities ++ [today])%list,
   (map cash_flow_of activities
    ++ [float_of_decimal (Investment.current_value investment)])%list).

(** [calculate_investment_irr]: any exception is logged and becomes
    [Decimal('0.00')]. *)
Definition calculate_investment_irr (now : datetime) (db : Database)
    (investment : Investment.t) : Decimal :=
  let activities := capital_activities_of db investment in
  match activities with
  | [] => Dec.zero2
  | _ =>
      let '(dates, cash_flows) :=
        cash_flow_series (date_of now) investment activities in
      match
        (irr <- xirr dates cash_flows float_tenth ;;
         match irr with
         | Some irr => decimal_of_rounded (num_mul irr (float_of_int 100))
         | None => Ok Dec.zero2
         end)
      with
      | Ok d => d
      | Raise _ => Dec.zero2
      end
  end.

Record Metrics := mkMetrics {
  total_value : Decimal;
  total_invested : Decimal;
  unrealized_gains : Decimal;
  unrealized_gains_percentage : Decimal;
  average_irr : Decimal;
  num_investments : Z
}.

(** [aggregate(Sum(column))]: [None] over no rows, what the database
    computes otherwise. *)
Definition Sum (values : list Decimal) : result (option Decimal) :=
  match values with
  | [] => Ok None
  | _ => total <- sql_sum values ;; Ok (Some total)
  end.

(** [x or Decimal('0.00')]. *)
Definition or_zero (x : option Decimal) : Decimal :=
  match x with
  | Some v => if Dec.truthy v then v else Dec.zero2
  | None => Dec.zero2
  end.

(** The loop of lines 131-135: the non-zero IRRs and their weights. *)
Fixpoint irr_values_and_weights (now : datetime) (db : Database)
    (l : list Investment.t) : list number * list number :=
  match l with
  | [] => ([], [])
  | investment :: rest =>
      let '(irr_values, weights) := irr_values_and_weights now db rest in
      let irr := calculate_investment_irr now db investment in
      if negb (Dec.eqb irr Dec.zero2)
      then (float_of_decimal irr :: irr_values,
            float_of_decimal (Investment.total_invested investment) :: weights)
      else (irr_values, weights)
  end.

(** [calculate_portfolio_metrics(user)]. *)
Definition calculate_portfolio_metrics (now : datetime) (db : Database)
    (user : User.t) : result Metrics :=
  let investments_ :=
    filter (fun i =>
              (Investment.user i =? User.id user)%Z
              && (InvestmentStatus_eqb (Investment.status i) ACTIVE
                  || InvestmentStatus_eqb (Investment.status i) UNDERPERFORMING))
           (investments db) in
  match investments_ with
  | [] =>
      Ok (mkMetrics Dec.zero2 Dec.zero2 Dec.zero2 Dec.zero2 Dec.zero2 0)
  | _ =>
      current_value__sum <-
        Sum (map Investment.current_value investments_) ;;
      let total_value := or_zero current_value__sum in
      total_invested__sum <-
        Sum (map Investment.total_invested investments_) ;;
      let total_invested := or_zero total_invested__sum in
      let unrealized_gains := Dec.sub total_value total_invested in
      unrealized_gains_percentage <-
        (if Dec.ltb (Dec.of_Z 0) total_invested
         then match Dec.div unrealized_gains total_invested with
              | Some q => Ok (Dec.mul q (Dec.of_Z 100))
              | None => Raise InvalidOperation
              end
         else Ok Dec.zero2) ;;
      let '(irr_values, weights) :=
        irr_values_and_weights now db investments_ in
      average_irr <-
        (match irr_values with
         | [] => Ok Dec.zero2
         | _ => avg <- np_average irr_values weights ;; decimal_of_rounded avg
         end) ;;
      Ok (mkMetrics total_value total_invested unrealized_gains
            unrealized_gains_percentage average_irr
            (Z.of_nat (List.length investments_)))
  end.

End Analytics.

(** ** Derived figures of an investment (investments/models.py) *)

(** [Investment.unrealized_gain].  (The balances of a row are never
    [None].) *)
Definition Investment_unrealized_gain (self : Investment.t) : Decimal :=
  Dec.sub (Investment.current_value self) (Investment.total_invested self).

(** [Investment.unrealized_gain_percentage]. *)
Definition Investment_unrealized_gain_percentage (self : Investment.t)
  : result Decimal :=
  if Dec.truthy (Investment.total_invested self)
     && Dec.ltb (Dec.of_Z 0) (Investment.total_invested self)
  then
    let gain := Investment_unrealized_gain self in
    match Dec.div gain (Investment.total_invested self) with
    | Some q => Ok (Dec.mul q (Dec.of_Z 100))
    | None => Raise InvalidOperation
    end
  else Ok Dec.zero2.

(** [Investment.moic]. *)
Definition Investment_moic (self : Investment.t) : result Decimal :=
  if Dec.truthy (Investment.total_invested self)
     && Dec.ltb (Dec.of_Z 0) (Investment.total_invested self)
  then
    match Dec.div (Investment.current_value self)
                  (Investment.total_invested self) with
    | Some q => Ok q
    | None => Raise InvalidOperation
    end
  else Ok Dec.zero2.

(** [Investment.expected_end_date]: years of 365 days. *)
Definition Investment_expected_end_date (self : Investment.t) : option date :=
  match Investment.expected_horizon_years self with
  | Some years =>
      if (years =? 0)%Z then None
      else Some (Investment.investment_date self + 365 * years)%Z
  | None => None
  end.

(** [Investment.get_performance_history(days)]: the snapshots of the
    investment since [days] days ago, oldest first. *)
Definition Investment_get_performance_history (now : datetime) (db : Database)
    (self : Investment.t) (days : Z) : list PerformanceSnapshot.t :=
  let start_date := (date_of now - days)%Z in
  order_by
    (fun a b => (PerformanceSnapshot.date_ a <? PerformanceSnapshot.date_ b)%Z)
    (filter (fun s =>
               (PerformanceSnapshot.investment s =? Investment.id self)%Z
               && (start_date <=? PerformanceSnapshot.date_ s)%Z)
            (performance_snapshots db)).

(** ** More portfolio analytics (investments/utils.py) *)

(** The holdings of the user that an activity is joined with by
    [investment__user=user]. *)
Definition joined_rows (db : Database) (user : User.t) (a : CapitalActivity.t)
  : list Investment.t :=
  filter (fun i =>
            (Investment.id i =? CapitalActivity.investment a)%Z
            && (Investment.user i =? User.id user)%Z)
         (investments db).

(** [CapitalActivity.objects.filter(investment__user=user)]: the
    activities joined with the investments of the user, a row for every
    matching pair. *)
Definition activities_of_user (db : Database) (user : User.t)
  : list (CapitalActivity.t * Investment.t) :=
  flat_map (fun a => map (pair a) (joined_rows db user a))
    (capital_activities db).

(** [activity_type__in=['DISTRIBUTION', 'PARTIAL_EXIT']]. *)
Definition is_distribution (a : CapitalActivity.t) : bool :=
  match CapitalActivity.activity_type a with
  | DISTRIBUTION | PARTIAL_EXIT => true
  | INITIAL_INVESTMENT | CAPITAL_CALL => false
  end.

(** The distributions of the user, with their investments. *)
Definition distributions_of_user (db : Database) (user : User.t)
  : list (CapitalActivity.t * Investment.t) :=
  filter (fun p => is_distribution (fst p)) (activities_of_user db user).

(** The display name of an activity type
    ([get_activity_type_display]). *)
Definition ActivityType_display (a : ActivityType) : string :=
  match a with
  | INITIAL_INVESTMENT => "Initial Investment"
  | CAPITAL_CALL => "Capital Call"
  | DISTRIBUTION => "Distribution"
  | PARTIAL_EXIT => "Partial Exit"
  end.

Module Distribution.
Record t := mk {
  id : Z;
  investment_id : Z;
  investment_name : string;
  amount : Decimal;
  date_ : date;
  details : string;
  activity_type : ActivityType;
  activity_type_display : string
}.
End Distribution.

(** The dictionary built for one distribution of the history. *)
Definition distribution_entry (dist : CapitalActivity.t)
    (investment : Investment.t) : Distribution.t :=
  Distribution.mk (CapitalActivity.id dist) (Investment.id investment)
    (Investment.name investment) (CapitalActivity.amount dist)
    (CapitalActivity.date_ dist) (CapitalActivity.details dist)
    (CapitalActivity.activity_type dist)
    (ActivityType_display (CapitalActivity.activity_type dist)).

(** [get_distribution_history(user)]: the user's distributions, latest
    first. *)
Definition get_distribution_history (db : Database) (user : User.t)
  : list Distribution.t :=
  map (fun p => distribution_entry (fst p) (snd p))
      (order_by
         (fun p q => (CapitalActivity.date_ (fst q)
                      <? CapitalActivity.date_ (fst p))%Z)
         (distributions_of_user db user)).

(** ** Revaluation (investments/serializers.py, investments/views.py) *)

(** The writable fields of [InvestmentCreateUpdateSerializer]; [None]
    is a field the request leaves out. *)
Record InvestmentAttrs := mkAttrs {
  attr_name : option string;
  attr_status : option InvestmentStatus;
  attr_sector : option Sector;
  attr_total_invested : option Decimal;
  attr_current_value : option Decimal;
  attr_fund_size : option (option Decimal);
  attr_unfunded_commitment : option Decimal;
  attr_manager : option string;
  attr_investment_date : option date;
  attr_expected_horizon_years : option (option Z);
  attr_fund_vintage : option (option Z);
  attr_progress_percentage : option Decimal
}.

Inductive validation (A : Type) : Type :=
  | Valid (a : A)
  | Invalid (field message : string).

Arguments Valid {A} a.
Arguments Invalid {A} field message.

(** [attrs.get(key)] is truthy: the field is present and not zero. *)
Definition given (x : option Decimal) : bool :=
  match x with Some v => Dec.truthy v | None => false end.

Definition or_old {A} (new : option A) (old : A) : A :=
  match new with Some v => v | None => old end.

(** [InvestmentCreateUpdateSerializer.validate]. *)
Definition InvestmentCreateUpdateSerializer_validate (attrs : InvestmentAttrs)
  : validation InvestmentAttrs :=
  let both :=
    given (attr_current_value attrs) && given (attr_total_invested attrs) in
  if both
     && Dec.ltb (or_old (attr_current_value attrs) Dec.zero2) (Dec.of_Z 0)
  then Invalid "current_value" "Current value cannot be negative."
  else if both
     && Dec.leb (or_old (attr_total_invested attrs) Dec.zero2) (Dec.of_Z 0)
  then Invalid "total_invested" "Total invested must be greater than zero."
  else if Dec.ltb (or_old (attr_unfunded_commitment attrs) Dec.zero2)
            (Dec.of_Z 0)
  then Invalid "unfunded_commitment" "Unfunded commitment cannot be negative."
  else if given (attr_progress_percentage attrs)
     && negb (Dec.leb (Dec.of_Z 0)
                (or_old (attr_progress_percentage attrs) Dec.zero2)
              && Dec.leb (or_old (attr_progress_percentage attrs) Dec.zero2)
                   (Dec.of_Z 100))
  then Invalid "progress_percentage" "Progress must be between 0 and 100."
  else Valid attrs.

(** [serializer.save()] on an existing investment: the validated fields
    are assigned and the instance saved. *)
Definition InvestmentViewSet_perform_update (now : datetime) (db : Database)
    (instance : Investment.t) (attrs : InvestmentAttrs)
  : validation (result Database) :=
  match InvestmentCreateUpdateSerializer_validate attrs with
  | Invalid f m => Invalid f m
  | Valid attrs =>
          Valid
            (Investment_save now db
               (Investment.mk (Investment.id instance) (Investment.user instance)
                  (or_old (attr_name attrs) (Investment.name instance))
                  (or_old (attr_status attrs) (Investment.status instance))
                  (or_old (attr_sector attrs) (Investment.sector instance))
                  (or_old (attr_total_invested attrs)
                          (Investment.total_invested instance))
                  (or_old (attr_current_value attrs)
                          (Investment.current_value instance))
                  (or_old (attr_fund_size attrs) (Investment.fund_size instance))
                  (or_old (attr_unfunded_commitment attrs)
                          (Investment.unfunded_commitment instance))
                  (or_old (attr_manager attrs) (Investment.manager instance))
                  (or_old (attr_investment_date attrs)
                          (Investment.investment_date instance))
                  (or_old (attr_expected_horizon_years attrs)
                          (Investment.expected_horizon_years instance))
                  (or_old (attr_fund_vintage attrs)
                          (Investment.fund_vintage instance))
                  (or_old (attr_progress_percentage attrs)
                          (Investment.progress_percentage instance))
                  (Investment.created_at instance)
                  (Investment.updated_at instance)))
  end.

(** ** Write-side validation (investments/serializers.py) *)

(** [CapitalActivitySerializer.validate_amount]: the sign convention of
    the ledger, applied to the amount of a request.  [activity_type] is
    what the request carries under that key ([None] when it is absent or
    not a string). *)
Definition validate_amount (activity_type : option string) (value : Decimal)
  : Decimal :=
  let one_of (names : list string) :=
    match activity_type with
    | Some s => existsb (String.eqb s) names
    | None => false
    end in
  if one_of ["INITIAL_INVESTMENT"; "CAPITAL_CALL"] then
    if Dec.ltb (Dec.of_Z 0) value
    then Dec.fix_ (Dec.neg (Dec.fix_ (Dec.abs value)))
    else value
  else if one_of ["DISTRIBUTION"; "PARTIAL_EXIT"] then
    if Dec.ltb value (Dec.of_Z 0) then Dec.fix_ (Dec.abs value) else value
  else value.

(** The stored spelling of an activity type
    ([ACTIVITY_TYPE_CHOICES]). *)
Definition ActivityType_name (a : ActivityType) : string :=
  match a with
  | INITIAL_INVESTMENT => "INITIAL_INVESTMENT"
  | CAPITAL_CALL => "CAPITAL_CALL"
  | DISTRIBUTION => "DISTRIBUTION"
  | PARTIAL_EXIT => "PARTIAL_EXIT"
  end.

(** The fields of [OwnershipTransferCreateSerializer] as a creating
    request delivers them after field validation: the required ones
    present, [None] for an optional one left out (or null). *)
Record TransferAttrs := mkTransferAttrs {
  tattr_investment : Investment.t;
  tattr_to_user : option User.t;
  tattr_to_email : option string;
  tattr_to_name : option string;
  tattr_transfer_type : TransferType;
  tattr_percentage : option Decimal;
  tattr_transfer_amount : Decimal;
  tattr_reason : string;
  tattr_status : option TransferStatus
}.

(** [status__in=['DRAFT', 'PENDING', 'APPROVED']]. *)
Definition is_open (s : TransferStatus) : bool :=
  match s with
  | DRAFT | PENDING | APPROVED => true
  | _ => false
  end.

(** [filter(investment=..., from_user=..., status__in=[...])] as a test
    on a row. *)
Definition open_for (investment user : Z) (x : OwnershipTransfer.t) : bool :=
  (OwnershipTransfer.investment x =? investment)%Z
  && (User.id (OwnershipTransfer.from_user x) =? user)%Z
  && is_open (OwnershipTransfer.status x).

(** The transfers of [user] out of investment [investment] that are
    still under way. *)
Definition open_transfers (db : Database) (investment user : Z)
  : list OwnershipTransfer.t :=
  filter (open_for investment user) (ownership_transfers db).

(** [OwnershipTransferCreateSerializer.validate]. *)
Definition OwnershipTransferCreateSerializer_validate (request_user : User.t)
    (db : Database) (attrs : TransferAttrs) : validation TransferAttrs :=
  let investment := tattr_investment attrs in
  if negb (Investment.user investment =? User.id request_user)%Z
  then Invalid "investment" "You do not own this investment."
  else if negb (InvestmentStatus_eqb (Investment.status investment) ACTIVE
                || InvestmentStatus_eqb (Investment.status investment)
                     UNDERPERFORMING)
  then Invalid "investment" "Cannot transfer inactive investments."
  else if match tattr_to_user attrs, tattr_to_email attrs with
          | None, None => true
          | None, Some e => String.eqb e ""
          | Some _, _ => false
          end
  then Invalid "non_field_errors"
         "Either to_user or to_email must be provided."
  else if match tattr_to_user attrs with
          | Some u => is_user u request_user
          | None => false
          end
  then Invalid "to_user" "Cannot transfer to yourself."
  else if TransferType_eqb (tattr_transfer_type attrs) PARTIAL
          && negb (given (tattr_percentage attrs))
  then Invalid "percentage" "Percentage is required for partial transfers."
  else if TransferType_eqb (tattr_transfer_type attrs) PARTIAL
          && negb (Dec.ltb (Dec.of_Z 0)
                     (or_old (tattr_percentage attrs) Dec.zero2)
                   && Dec.leb (or_old (tattr_percentage attrs) Dec.zero2)
                        (Dec.of_Z 100))
  then Invalid "percentage" "Percentage must be between 0 and 100."
  else if Dec.leb (tattr_transfer_amount attrs) (Dec.of_Z 0)
  then Invalid "transfer_amount" "Transfer amount must be greater than zero."
  else if negb (match open_transfers db (Investment.id investment)
                        (User.id request_user) with
                | [] => true
                | _ => false
                end)
  then Invalid "non_field_errors"
         ("You already have a pending transfer for this investment. "
          ++ "Please complete or cancel it before creating a new one.")
  else Valid attrs.

(** [OwnershipTransferCreateSerializer.create]: the sender is the
    caller; [objects.create] builds the instance with the model's
    defaults and saves it, which inserts the row under a new key and
    fires [post_save]. *)
Definition OwnershipTransferCreateSerializer_create (now : datetime)
    (db : Database) (request_user : User.t) (validated_data : TransferAttrs)
  : result (Database * OwnershipTransfer.t) :=
  OwnershipTransfer_save now db
    (OwnershipTransfer.mk
       (next_id (map OwnershipTransfer.id (ownership_transfers db)))
       (Investment.id (tattr_investment validated_data))
       request_user
       (tattr_to_user validated_data)
       (or_old (tattr_to_email validated_data) "")
       (or_old (tattr_to_name validated_data) "")
       (tattr_transfer_type validated_data)
       (tattr_percentage validated_data)
       (tattr_transfer_amount validated_data)
       Dec.zero2 Dec.zero2
       (tattr_reason validated_data)
       (or_old (tattr_status validated_data) DRAFT)
       false now None None now now).

(** [OwnershipTransferViewSet.perform_create] behind the serializer's
    validation. *)
Definition OwnershipTransferViewSet_perform_create (now : datetime)
    (request_user : User.t) (db : Database) (attrs : TransferAttrs)
  : validation (result (Database * OwnershipTransfer.t)) :=
  match OwnershipTransferCreateSerializer_validate request_user db attrs with
  | Invalid f m => Invalid f m
  | Valid validated_data =>
      Valid (OwnershipTransferCreateSerializer_create now db request_user
               validated_data)
  end.

(** No sender has two transfers under way out of one investment. *)
Definition at_most_one_open (db : Database) : Prop :=
  forall investment user,
    (List.length (open_transfers db investment user) <= 1)%nat.

(** ** Vocabulary of the specification *)

(** A value as a [DecimalField(max_digits=15, decimal_places=2)] column
    holds it. *)
Definition is_money (d : Decimal) : Prop :=
  Dec.expo d = (-2)%Z /\ (Z.abs (Dec.coef d) < 10 ^ 15)%Z.

Definition is_percentage (d : option Decimal) : Prop :=
  match d with
  | None => True
  | Some p => Dec.expo p = (-2)%Z /\ (Z.abs (Dec.coef p) < 10 ^ 5)%Z
  end.

Definition investment_columns (i : Investment.t) : Prop :=
  is_money (Investment.total_invested i)
  /\ is_money (Investment.current_value i).

Definition transfer_columns (x : OwnershipTransfer.t) : Prop :=
  is_money (OwnershipTransfer.transfer_amount x)
  /\ is_percentage (OwnershipTransfer.percentage x).

(** The constraints the schema puts on the tables: primary keys are
    unique and decimal columns hold column values. *)
Definition schema_ok (db : Database) : Prop :=
  NoDup (map Investment.id (investments db))
  /\ NoDup (map OwnershipTransfer.id (ownership_transfers db))
  /\ Forall investment_columns (investments db)
  /\ Forall transfer_columns (ownership_transfers db).

(** EXITED implies zero balances. *)
Definition exited_zero (i : Investment.t) : Prop :=
  Investment.status i = EXITED ->
  Dec.coef (Investment.total_invested i) = 0%Z
  /\ Dec.coef (Investment.current_value i) = 0%Z.

(** The rows a user holds under a fund name: the lookup of the
    buyer-side [get_or_create]. *)
Definition holdings (db : Database) (user : Z) (name : string)
  : list Investment.t :=
  filter (fun i => (Investment.user i =? user)%Z
                   && String.eqb (Investment.name i) name)
         (investments db).

(** The amount of a column value in cents. *)
Definition cents (d : Decimal) : Z := Dec.coef d.

(** What the buyer held in the fund before settlement, in cents. *)
Definition held_before (db : Database) (user : Z) (name : string) : Z :=
  match holdings db user name with
  | [b] => cents (Investment.current_value b)
  | _ => 0%Z
  end.

(** A capital activity with another stored amount. *)
Definition with_amount (v : Decimal) (a : CapitalActivity.t)
  : CapitalActivity.t :=
  CapitalActivity.mk (CapitalActivity.id a) (CapitalActivity.investment a)
    (CapitalActivity.activity_type a) v (CapitalActivity.date_ a)
    (CapitalActivity.details a) (CapitalActivity.created_at a).

(** The database with the stored amount of every activity that [flip]
    selects replaced by its negation. *)
Definition negate_amounts (flip : CapitalActivity.t -> bool) (db : Database)
  : Database :=
  set_capital_activities
    (map (fun a => if flip a
                   then with_amount (Dec.neg (CapitalActivity.amount a)) a
                   else a)
         (capital_activities db))
    db.

(** The claims that do not hold as the specification words them, stated
    as they are worded. *)

(** Every COMPLETED transfer with a registered recipient ends, after any
    positive number of runs, processed and with its two ledger rows. *)
Definition every_completed_transfer_settles : Prop :=
  forall (clock : list datetime) (db : Database) (t : OwnershipTransfer.t)
         (buyer : User.t),
    clock <> [] ->
    OwnershipTransfer.status t = COMPLETED ->
    OwnershipTransfer.to_user t = Some buyer ->
    exists db' t',
      run_handler clock db t = Ok (db', t')
      /\ OwnershipTransfer.is_processed t' = true
      /\ List.length (capital_activities db')
         = (2 + List.length (capital_activities db))%nat.

(** Every committed settlement moves exactly the transfer amount out of
    the seller's current value and into the buyer's. *)
Definition settlement_conserves_value : Prop :=
  forall (now : datetime) (db db1 : Database) (t t1 : OwnershipTransfer.t)
         (buyer : User.t) (seller seller1 : Investment.t),
    handle_transfer_completion now db t = Ok (Processed, db1, t1) ->
    OwnershipTransfer.to_user t = Some buyer ->
    get_by_pk Investment.id (OwnershipTransfer.investment t) (investments db)
      = Ok seller ->
    get_by_pk Investment.id (OwnershipTransfer.investment t) (investments db1)
      = Ok seller1 ->
    (cents (Investment.current_value seller)
     - cents (Investment.current_value seller1)
     = cents (OwnershipTransfer.transfer_amount t))%Z
    /\ (held_before db1 (User.id buyer) (Investment.name seller)
        - held_before db (User.id buyer) (Investment.name seller)
        = cents (OwnershipTransfer.transfer_amount t))%Z.

(** For a privileged caller, [complete] succeeds and leaves the transfer
    COMPLETED exactly when the transfer is APPROVED. *)
Definition complete_succeeds_iff_approved : Prop :=
  forall (now : datetime) (request : Request) (db : Database) (pk : Z)
         (t : OwnershipTransfer.t),
    IsAdminUser request = true ->
    get_by_pk OwnershipTransfer.id pk (ownership_transfers db) = Ok t ->
    ((exists t' db',
        complete now request db pk
        = Ok (Response_ok "Transfer completed successfully." t', db')
        /\ status_of db' pk = Some COMPLETED)
     <-> OwnershipTransfer.status t = APPROVED).

(** Settlement keeps every EXITED investment at zero balances. *)
Definition settlement_preserves_exited_zero : Prop :=
  forall (now : datetime) (db db1 : Database) (t t1 : OwnershipTransfer.t),
    Forall exited_zero (investments db) ->
    handle_transfer_completion now db t = Ok (Processed, db1, t1) ->
    Forall exited_zero (investments db1).

(** Revaluation keeps every EXITED investment at zero balances. *)
Definition revaluation_preserves_exited_zero : Prop :=
  forall (now : datetime) (db db1 : Database) (i : Investment.t)
         (attrs : InvestmentAttrs),
    Forall exited_zero (investments db) ->
    In i (investments db) ->
    InvestmentViewSet_perform_update now db i attrs = Valid (Ok db1) ->
    Forall exited_zero (investments db1).

(** What [unique_together = ['investment', 'date']] keeps unique in the
    snapshots table. *)
Definition snapshot_key (s : PerformanceSnapshot.t) : Z * date :=
  (PerformanceSnapshot.investment s, PerformanceSnapshot.date_ s).

Definition snapshots_unique (db : Database) : Prop :=
  NoDup (map snapshot_key (performance_snapshots db)).

(** The cost basis the buyer had in the fund before settlement, in
    cents. *)
Definition cost_before (db : Database) (user : Z) (name : string) : Z :=
  match holdings db user name with
  | [b] => cents (Investment.total_invested b)
  | _ => 0%Z
  end.

(** [db'] has the snapshots of [db] and at most [n] more, all taken at
    [now]. *)
Definition snapshots_extended (now : datetime) (n : nat) (db db' : Database)
  : Prop :=
  exists new,
    performance_snapshots db' = (performance_snapshots db ++ new)%list
    /\ (List.length new <= n)%nat
    /\ Forall (fun s => PerformanceSnapshot.date_ s = date_of now
                        /\ PerformanceSnapshot.created_at s = now) new.

(** What identifies a holding to the analytics: key, owner and fund
    name. *)
Definition holding_key (i : Investment.t) : Z * Z * string :=
  (Investment.id i, Investment.user i, Investment.name i).

(** The amounts in the ledger are column values. *)
Definition ledger_columns (db : Database) : Prop :=
  Forall (fun a => is_money (CapitalActivity.amount a)) (capital_activities db).

(** A row as the investments table holds it: every decimal column a
    column value. *)
Definition investment_stored (i : Investment.t) : Prop :=
  investment_columns i
  /\ match Investment.fund_size i with
     | Some v => is_money v
     | None => True
     end
  /\ is_money (Investment.unfunded_commitment i)
  /\ is_percentage (Some (Investment.progress_percentage i)).

(** The flow the specification gives an activity: [-|amount|] for a
    contribution (INITIAL_INVESTMENT, CAPITAL_CALL), [+|amount|] for a
    distribution (DISTRIBUTION, PARTIAL_EXIT), whatever the sign of the
    stored amount. *)
Definition signed_flow (a : CapitalActivity.t) : Decimal :=
  let amount := CapitalActivity.amount a in
  match CapitalActivity.activity_type a with
  | INITIAL_INVESTMENT | CAPITAL_CALL =>
      Dec.mk (- Z.abs (Dec.coef amount)) (Dec.expo amount)
  | DISTRIBUTION | PARTIAL_EXIT =>
      Dec.mk (Z.abs (Dec.coef amount)) (Dec.expo amount)
  end.

(** The series the specification describes for an investment: the
    signed flows of its activities followed by its current value. *)
Definition normalized_flows (investment : Investment.t)
    (activities : list CapitalActivity.t) : list Decimal :=
  (map signed_flow activities ++ [Investment.current_value investment])%list.

(** ** Sample data *)

Module Sample.

Definition investor : User.t := User.mk 1 "investor@example.com" false.
Definition buyer : User.t := User.mk 2 "buyer@example.com" false.
Definition admin : User.t := User.mk 1 "investor@example.com" true.

Definition now : datetime := 1762128000%Z.

(** An ACTIVE holding of [Inv1] with the given balances in cents. *)
Definition holding (id user : Z) (status : InvestmentStatus)
    (invested value : Z) : Investment.t :=
  Investment.mk id user "Inv1" status TECHNOLOGY (Dec.of_cents invested)
    (Dec.of_cents value) None Dec.zero2 "" 20000%Z None None Dec.zero2
    1700000000%Z 1700000000%Z.

Definition transfer (type : TransferType) (amount : Z)
    (status : TransferStatus) : OwnershipTransfer.t :=
  OwnershipTransfer.mk 1 1 investor (Some buyer) "" "" type
    (Some (Dec.of_cents 2000)) (Dec.of_cents amount) Dec.zero2 Dec.zero2
    "Deal" status false 1700000000%Z None None 1700000000%Z 1700000000%Z.

Definition database (rows : list Investment.t) (t : OwnershipTransfer.t)
  : Database :=
  mkDatabase rows [] [] [t] [].

(** 10000.00 of a 50000.00 position, PARTIAL: the specification's
    example scenario. *)
Definition partial := transfer PARTIAL 1000000 COMPLETED.
Definition db_partial := database [holding 1 1 ACTIVE 5000000 5000000] partial.

(** The same amount as a FULL transfer. *)
Definition full := transfer FULL 1000000 COMPLETED.
Definition db_full := database [holding 1 1 ACTIVE 5000000 5000000] full.

(** 15000.00 asked of a 10000.00 position. *)
Definition over := transfer PARTIAL 1500000 COMPLETED.
Definition db_over := database [holding 1 1 ACTIVE 1000000 1000000] over.

(** The buyer already holds an exited, zeroed position in the fund. *)
Definition db_exited_buyer :=
  database [holding 1 1 ACTIVE 5000000 5000000; holding 2 2 EXITED 0 0]
           partial.

(** A FULL transfer of 10000.00 whose recipient is the owner of the
    50000.00 position itself, as the admin site or the ORM can save
    it. *)
Definition to_self : OwnershipTransfer.t :=
  OwnershipTransfer.mk 1 1 investor (Some investor) "" "" FULL
    (Some (Dec.of_cents 2000)) (Dec.of_cents 1000000) Dec.zero2 Dec.zero2
    "Deal" COMPLETED false 1700000000%Z None None 1700000000%Z 1700000000%Z.
Definition db_self := database [holding 1 1 ACTIVE 5000000 5000000] to_self.

(** An approved transfer waiting for completion. *)
Definition approved := transfer PARTIAL 1000000 APPROVED.
Definition db_approved :=
  database [holding 1 1 ACTIVE 5000000 5000000] approved.

(** The database and the instance one run of the receiver leaves. *)
Definition settled (db : Database) (t : OwnershipTransfer.t)
  : Database * OwnershipTransfer.t :=
  match handle_transfer_completion now db t with
  | Ok (_, db1, t1) => (db1, t1)
  | Raise _ => (db, t)
  end.

(** A stand-in for the numeric libraries and the database's aggregate:
    integers for floats, a solver that never converges, and a sum in
    decimal arithmetic. *)
Definition no_convergence : Numeric := {|
  number := Z;
  float_of_decimal := Dec.coef;
  float_of_int := fun n => n;
  float_tenth := 0%Z;
  float_365 := 365%Z;
  num_add := Z.add;
  num_mul := Z.mul;
  num_div := fun a b => if (b =? 0)%Z then Raise ZeroDivisionError
                        else Ok (a / b)%Z;
  num_pow := fun a b => Ok (a ^ b)%Z;
  newton := fun _ _ _ => Raise RuntimeError;
  np_average := fun _ _ => Raise ZeroDivisionError;
  decimal_of_rounded := fun x => Ok (Dec.of_Z x);
  sql_sum := fun values => Ok (fold_left Dec.add values (Dec.of_Z 0))
|}.

(** A portfolio whose only position has been exited. *)
Definition db_exited_only :=
  database [holding 1 1 EXITED 0 0] partial.

(** A staff user who is neither sender nor recipient of the sample
    transfers. *)
Definition auditor : User.t := User.mk 3 "auditor@example.com" true.
Definition as_auditor : Request := mkRequest (Some auditor) None None.

Definition as_admin : Request := mkRequest (Some admin) None None.
Definition as_investor : Request := mkRequest (Some investor) None None.

End Sample.

(** * Properties *)

(** ** Decimal arithmetic on column values *)

Example dec_div_fifth :
  Dec.div (Dec.of_cents 1000000) (Dec.of_cents 5000000) = Some (Dec.mk 2 (-1)).
Proof. vm_compute. reflexivity. Qed.

Example dec_div_third :
  Dec.div (Dec.of_Z 1) (Dec.of_Z 3)
  = Some (Dec.mk 3333333333333333333333333333 (-28)).
Proof. vm_compute. reflexivity. Qed.

Example dec_div_two_thirds :
  Dec.div (Dec.of_Z 2) (Dec.of_Z 3)
  = Some (Dec.mk 6666666666666666666666666667 (-28)).
Proof. vm_compute. reflexivity. Qed.

Example str_decimal_money :
  str_decimal (Dec.of_cents 1000000) = "10000.00".
Proof. vm_compute. reflexivity. Qed.

Example str_decimal_small :
  str_decimal (Dec.of_cents (-5)) = "-0.05".
Proof. vm_compute. reflexivity. Qed.

Example str_decimal_sci :
  str_decimal (Dec.mk 25 (-9)) = "2.5E-8".
Proof. vm_compute. reflexivity. Qed.

Example str_decimal_posexp :
  str_decimal (Dec.mk 12 3) = "1.2E+4".
Proof. vm_compute. reflexivity. Qed.

Lemma InvestmentStatus_eqb_eq a b : InvestmentStatus_eqb a b = true <-> a = b.
Proof. destruct a, b; simpl; split; congruence. Qed.

Lemma TransferType_eqb_eq a b : TransferType_eqb a b = true <-> a = b.
Proof. destruct a, b; simpl; split; congruence. Qed.

Lemma TransferStatus_eqb_eq a b : TransferStatus_eqb a b = true <-> a = b.
Proof. destruct a, b; simpl; split; congruence. Qed.

Lemma pow10_28 : (10 ^ Dec.prec = 10000000000000000000000000000)%Z.
Proof. reflexivity. Qed.

Lemma pow10_15 : (10 ^ 15 = 1000000000000000)%Z.
Proof. reflexivity. Qed.

Lemma fix_small (c e : Z) :
  (Z.abs c < 10 ^ 15 * 10 ^ 4)%Z -> Dec.fix_ (Dec.mk c e) = Dec.mk c e.
Proof.
  intros H. unfold Dec.fix_. simpl Dec.coef.
  rewrite pow10_28.
  change (10 ^ 15 * 10 ^ 4)%Z with 10000000000000000000%Z in H.
  destruct (Z.ltb_spec (Z.abs c) 10000000000000000000000000000); [reflexivity|lia].
Qed.

Lemma is_money_eq (d : Decimal) :
  is_money d -> d = Dec.of_cents (cents d).
Proof.
  destruct d as [c e]. unfold is_money, cents, Dec.of_cents. simpl.
  intros [-> _]. reflexivity.
Qed.

Lemma is_money_of_cents (c : Z) :
  (Z.abs c < 10 ^ 15)%Z -> is_money (Dec.of_cents c).
Proof. intros H. split; [reflexivity|exact H]. Qed.

Lemma ltb_cents (a b : Z) :
  Dec.ltb (Dec.of_cents a) (Dec.of_cents b) = (a <? b)%Z.
Proof.
  unfold Dec.ltb, Dec.align, Dec.of_cents. simpl.
  rewrite !Z.mul_1_r. reflexivity.
Qed.

Lemma add_cents (a b : Z) :
  (Z.abs a < 10 ^ 15)%Z -> (Z.abs b < 10 ^ 15)%Z ->
  Dec.add (Dec.of_cents a) (Dec.of_cents b) = Dec.of_cents (a + b).
Proof.
  intros Ha Hb. unfold Dec.add, Dec.align, Dec.of_cents. simpl.
  rewrite !Z.mul_1_r. apply fix_small.
  rewrite pow10_15 in *. change (10 ^ 4)%Z with 10000%Z. lia.
Qed.

Lemma sub_cents (a b : Z) :
  (Z.abs a < 10 ^ 15)%Z -> (Z.abs b < 10 ^ 15)%Z ->
  Dec.sub (Dec.of_cents a) (Dec.of_cents b) = Dec.of_cents (a - b).
Proof.
  intros Ha Hb. unfold Dec.sub, Dec.neg. simpl.
  change (Dec.mk (- b) (-2)) with (Dec.of_cents (- b)).
  rewrite add_cents; [reflexivity|exact Ha|now rewrite Z.abs_opp].
Qed.

Lemma quantize2_cents (m c : Z) :
  (Z.abs c < 10 ^ m)%Z ->
  Dec.quantize2 m (Dec.of_cents c) = Some (Dec.of_cents c).
Proof.
  intros H. unfold Dec.quantize2, Dec.of_cents. simpl.
  rewrite Z.mul_1_r.
  destruct (Z.ltb_spec (Z.abs c) (10 ^ m)); [reflexivity|lia].
Qed.

Lemma quantize2_shape (m : Z) (d q : Decimal) :
  Dec.quantize2 m d = Some q ->
  Dec.expo q = (-2)%Z /\ (Z.abs (Dec.coef q) < 10 ^ m)%Z.
Proof.
  unfold Dec.quantize2. intros H.
  match type of H with
  | (if ?b then _ else _) = _ => destruct b eqn:E; [|discriminate]
  end.
  injection H as <-. simpl. split; [reflexivity|].
  now apply Z.ltb_lt.
Qed.

Lemma div_half_even_zero (d : Z) : (0 < d)%Z -> Dec.div_half_even 0 d = 0%Z.
Proof.
  intros H. unfold Dec.div_half_even.
  rewrite Z.div_0_l, Z.mod_0_l by lia. simpl.
  destruct d; try lia; try reflexivity.
Qed.

Lemma quantize2_zero (m : Z) (d q : Decimal) :
  Dec.coef d = 0%Z -> Dec.quantize2 m d = Some q -> Dec.coef q = 0%Z.
Proof.
  intros Hc. unfold Dec.quantize2. rewrite Hc.
  replace (if (-2 <=? Dec.expo d)%Z
           then (0 * 10 ^ (Dec.expo d + 2))%Z
           else Dec.div_half_even 0 (10 ^ (-2 - Dec.expo d)))
    with 0%Z.
  - destruct (Z.abs 0 <? 10 ^ m)%Z; [|discriminate].
    intros H. injection H as <-. reflexivity.
  - destruct (Z.leb_spec (-2) (Dec.expo d)); [reflexivity|].
    symmetry. apply div_half_even_zero. apply Z.pow_pos_nonneg; lia.
Qed.

Lemma to_column_ok (m : Z) (d q : Decimal) :
  to_column m d = Ok q -> Dec.quantize2 m d = Some q.
Proof.
  unfold to_column. destruct (Dec.quantize2 m d); [|discriminate].
  intros H. now injection H as ->.
Qed.

Lemma to_column_cents (m c : Z) :
  (Z.abs c < 10 ^ m)%Z -> to_column m (Dec.of_cents c) = Ok (Dec.of_cents c).
Proof. intros H. unfold to_column. now rewrite quantize2_cents. Qed.

(** ** Tables *)

Lemma bind_ok {A B} (e : result A) (k : A -> result B) (b : B) :
  bind e k = Ok b -> exists a, e = Ok a /\ k a = Ok b.
Proof. destruct e; simpl; [eauto|discriminate]. Qed.

Ltac bind_inv H :=
  let a := fresh "x" in
  let Ha := fresh "H" in
  apply bind_ok in H; destruct H as (a & Ha & H).

Section Tables.

Context {A : Type} (pk_of : A -> Z).

Lemma filter_map_commute (p : A -> bool) (g : A -> A) (rows : list A) :
  (forall r, p (g r) = p r) ->
  filter p (map g rows) = map g (filter p rows).
Proof.
  intros Hp. induction rows as [|r rows IH]; simpl; [reflexivity|].
  rewrite Hp. destruct (p r); simpl; now rewrite IH.
Qed.

Lemma filter_update_row (p : A -> bool) (pk : Z) (f : A -> A)
    (rows : list A) :
  (forall r, pk_of r = pk -> p (f r) = p r) ->
  filter p (update_row pk_of pk f rows)
  = update_row pk_of pk f (filter p rows).
Proof.
  intros Hp. unfold update_row. apply filter_map_commute.
  intros r. destruct (Z.eqb_spec (pk_of r) pk); [now apply Hp|reflexivity].
Qed.

Lemma get_by_pk_in (pk : Z) (rows : list A) (r : A) :
  get_by_pk pk_of pk rows = Ok r -> In r rows /\ pk_of r = pk.
Proof.
  unfold get_by_pk.
  destruct (filter _ rows) as [|x [|y l]] eqn:E; try discriminate.
  intros H. injection H as ->.
  assert (Hin : In r (filter (fun r => (pk_of r =? pk)%Z) rows))
    by (rewrite E; now left).
  apply filter_In in Hin. destruct Hin as [Hin Hpk].
  split; [exact Hin|now apply Z.eqb_eq].
Qed.

(** Unique keys: a key that is present is found. *)
Lemma filter_pk_nodup (pk : Z) (rows : list A) :
  NoDup (map pk_of rows) ->
  filter (fun r => (pk_of r =? pk)%Z) rows = []
  \/ exists r, filter (fun r => (pk_of r =? pk)%Z) rows = [r].
Proof.
  induction rows as [|x rows IH]; simpl; intros Hnd; [now left|].
  inversion Hnd as [|? ? Hnotin Hnd']; subst.
  destruct (Z.eqb_spec (pk_of x) pk) as [Heq|Hne].
  - right. exists x. f_equal.
    destruct (filter (fun r => (pk_of r =? pk)%Z) rows) as [|y l] eqn:E;
      [reflexivity|].
    exfalso. apply Hnotin.
    assert (Hin : In y (filter (fun r => (pk_of r =? pk)%Z) rows))
      by (rewrite E; now left).
    apply filter_In in Hin. destruct Hin as [Hin Hy].
    apply Z.eqb_eq in Hy. rewrite Heq, <- Hy. now apply in_map.
  - now apply IH.
Qed.

Lemma get_by_pk_present (pk : Z) (rows : list A) :
  NoDup (map pk_of rows) ->
  has_pk pk_of pk rows = true ->
  exists r, get_by_pk pk_of pk rows = Ok r.
Proof.
  intros Hnd Hhas. unfold get_by_pk.
  destruct (filter_pk_nodup pk rows Hnd) as [E|[r E]]; rewrite E.
  - exfalso. unfold has_pk in Hhas. apply existsb_exists in Hhas.
    destruct Hhas as (x & Hin & Hx).
    assert (Hf : In x (filter (fun r => (pk_of r =? pk)%Z) rows))
      by (apply filter_In; now split).
    rewrite E in Hf. contradiction.
  - now exists r.
Qed.

Lemma get_by_pk_has_pk (pk : Z) (rows : list A) (r : A) :
  get_by_pk pk_of pk rows = Ok r -> has_pk pk_of pk rows = true.
Proof.
  intros H. apply get_by_pk_in in H. destruct H as [Hin Hpk].
  unfold has_pk. apply existsb_exists. exists r. split; [exact Hin|].
  now apply Z.eqb_eq.
Qed.

(** Updating the row with key [pk] leaves lookups of other keys alone
    and changes the lookup of [pk] to the new row. *)
Lemma get_by_pk_update_row (pk pk' : Z) (f : A -> A) (rows : list A) :
  (forall r, pk_of r = pk' -> pk_of (f r) = pk') ->
  get_by_pk pk_of pk (update_row pk_of pk' f rows)
  = match get_by_pk pk_of pk rows with
    | Ok r => Ok (if (pk_of r =? pk')%Z then f r else r)
    | Raise e => Raise e
    end.
Proof.
  intros Hf. unfold get_by_pk.
  rewrite filter_update_row
    by (intros r Hr; rewrite (Hf r Hr); now rewrite Hr).
  destruct (filter _ rows) as [|x [|y l]]; reflexivity.
Qed.

Lemma get_by_pk_app_other (pk : Z) (rows : list A) (row : A) :
  pk_of row <> pk ->
  get_by_pk pk_of pk (rows ++ [row]) = get_by_pk pk_of pk rows.
Proof.
  intros Hne. unfold get_by_pk. rewrite filter_app. simpl.
  destruct (Z.eqb_spec (pk_of row) pk); [contradiction|].
  now rewrite app_nil_r.
Qed.

Lemma has_pk_filter (pk : Z) (rows : list A) :
  has_pk pk_of pk rows
  = match filter (fun r => (pk_of r =? pk)%Z) rows with
    | [] => false
    | _ => true
    end.
Proof.
  unfold has_pk. induction rows as [|x rows IH]; simpl; [reflexivity|].
  destruct (pk_of x =? pk)%Z; simpl; [reflexivity|exact IH].
Qed.

Lemma get_by_pk_write_row (pk : Z) (row : A) (rows : list A) :
  get_by_pk pk_of pk (write_row pk_of row rows)
  = if (pk_of row =? pk)%Z then
      match filter (fun r => (pk_of r =? pk)%Z) rows with
      | [] | [_] => Ok row
      | _ => Raise MultipleObjectsReturned
      end
    else get_by_pk pk_of pk rows.
Proof.
  unfold write_row. rewrite has_pk_filter.
  destruct (Z.eqb_spec (pk_of row) pk) as [Heq|Hne].
  - subst pk.
    destruct (filter (fun r => (pk_of r =? pk_of row)%Z) rows)
      as [|x l] eqn:E.
    + unfold get_by_pk. rewrite filter_app, E. simpl.
      now rewrite Z.eqb_refl.
    + rewrite get_by_pk_update_row by reflexivity.
      unfold get_by_pk. rewrite E.
      assert (Hx : In x (filter (fun r => (pk_of r =? pk_of row)%Z) rows))
        by (rewrite E; now left).
      apply filter_In in Hx. destruct Hx as [_ Hx].
      destruct l; [now rewrite Hx|reflexivity].
  - destruct (filter (fun r => (pk_of r =? pk_of row)%Z) rows) as [|x l].
    + now apply get_by_pk_app_other.
    + rewrite get_by_pk_update_row by reflexivity.
      destruct (get_by_pk pk_of pk rows) as [r|e] eqn:E; [|reflexivity].
      apply get_by_pk_in in E. destruct E as [_ E].
      destruct (Z.eqb_spec (pk_of r) (pk_of row)); [congruence|reflexivity].
Qed.

Lemma in_write_row (row x : A) (rows : list A) :
  In x (write_row pk_of row rows) -> x = row \/ In x rows.
Proof.
  unfold write_row, update_row.
  destruct (has_pk pk_of (pk_of row) rows).
  - intros H. apply in_map_iff in H. destruct H as (r & Hr & Hin).
    destruct (pk_of r =? pk_of row)%Z; subst; auto.
  - intros H. apply in_app_or in H. destruct H as [H|[H|[]]]; auto.
Qed.

Lemma next_id_above (ids : list Z) (x : Z) :
  In x ids -> x < next_id ids.
Proof.
  intros Hin. unfold next_id.
  assert (H : x <= fold_right Z.max 0 ids).
  { induction ids as [|y ids IH]; [contradiction|].
    change (fold_right Z.max 0 (y :: ids))
      with (Z.max y (fold_right Z.max 0 ids)).
    destruct Hin as [->|Hin]; [lia|]. specialize (IH Hin). lia. }
  lia.
Qed.

End Tables.

(** ** What each write touches *)

Lemma create_performance_snapshot_frame now db i db' :
  create_performance_snapshot now db i = Ok db' ->
  investments db' = investments db
  /\ capital_activities db' = capital_activities db
  /\ ownership_transfers db' = ownership_transfers db
  /\ user_activities db' = user_activities db.
Proof.
  unfold create_performance_snapshot.
  destruct (_ && _); [|intros H; injection H as <-; auto].
  destruct (negb _); [|intros H; injection H as <-; auto].
  intros H. bind_inv H. injection H as <-. simpl. auto.
Qed.

Lemma Investment_to_row_fields now i row :
  Investment_to_row now i = Ok row ->
  Investment.id row = Investment.id i
  /\ Investment.user row = Investment.user i
  /\ Investment.name row = Investment.name i
  /\ Investment.status row = Investment.status i
  /\ to_column 15 (Investment.total_invested i) = Ok (Investment.total_invested row)
  /\ to_column 15 (Investment.current_value i) = Ok (Investment.current_value row).
Proof.
  unfold Investment_to_row. intros H.
  bind_inv H. bind_inv H. bind_inv H. bind_inv H. bind_inv H.
  injection H as <-. simpl. auto 10.
Qed.

Lemma Investment_save_frame now db i db' :
  Investment_save now db i = Ok db' ->
  exists row,
    Investment_to_row now i = Ok row
    /\ investments db' = write_row Investment.id row (investments db)
    /\ capital_activities db' = capital_activities db
    /\ ownership_transfers db' = ownership_transfers db
    /\ user_activities db' = user_activities db.
Proof.
  unfold Investment_save. intros H. bind_inv H.
  apply create_performance_snapshot_frame in H.
  destruct H as (Hi & Hc & Ht & Hu). simpl in *.
  exists x. auto.
Qed.

Lemma CapitalActivity_create_frame now db inv ty amount d details db' :
  CapitalActivity_create now db inv ty amount d details = Ok db' ->
  exists a,
    to_column 15 amount = Ok a
    /\ capital_activities db'
       = (capital_activities db ++
          [CapitalActivity.mk
             (next_id (map CapitalActivity.id (capital_activities db)))
             inv ty a d details now])%list
    /\ investments db' = investments db
    /\ ownership_transfers db' = ownership_transfers db
    /\ user_activities db' = user_activities db.
Proof.
  unfold CapitalActivity_create. intros H. bind_inv H.
  injection H as <-. simpl. exists x. auto.
Qed.

Lemma Investment_get_or_create_cases now db params b created db' :
  Investment_get_or_create now db params = Ok (b, created, db') ->
  (created = false /\ db' = db
   /\ holdings db (Investment.user params) (Investment.name params) = [b])
  \/ (created = true
      /\ holdings db (Investment.user params) (Investment.name params) = []
      /\ Investment.id b = next_id (map Investment.id (investments db))
      /\ Investment.user b = Investment.user params
      /\ Investment.name b = Investment.name params
      /\ Investment.status b = Investment.status params
      /\ Investment.total_invested b = Investment.total_invested params
      /\ Investment.current_value b = Investment.current_value params
      /\ Investment_save now db b = Ok db').
Proof.
  unfold Investment_get_or_create, holdings.
  destruct (filter _ (investments db)) as [|x [|y l]]; intros H.
  - bind_inv H. injection H as <- <- <-. right. simpl. auto 10.
  - injection H as <- <- <-. left. auto.
  - discriminate.
Qed.

Lemma OwnershipTransfer_pre_save_fields now x :
  let y := OwnershipTransfer_pre_save now x in
  OwnershipTransfer.id y = OwnershipTransfer.id x
  /\ OwnershipTransfer.investment y = OwnershipTransfer.investment x
  /\ OwnershipTransfer.status y = OwnershipTransfer.status x
  /\ OwnershipTransfer.is_processed y = OwnershipTransfer.is_processed x
  /\ OwnershipTransfer.completion_date y = OwnershipTransfer.completion_date x
  /\ OwnershipTransfer.to_user y = OwnershipTransfer.to_user x
  /\ OwnershipTransfer.transfer_type y = OwnershipTransfer.transfer_type x
  /\ OwnershipTransfer.transfer_amount y = OwnershipTransfer.transfer_amount x
  /\ OwnershipTransfer.percentage y = OwnershipTransfer.percentage x.
Proof.
  unfold OwnershipTransfer_pre_save. simpl.
  destruct (OwnershipTransfer.estimated_completion_date x);
    [|destruct (OwnershipTransfer.status x) eqn:E]; simpl; auto 12.
Qed.

Lemma mark_processed_frame now db t buyer t1 db1 :
  mark_processed now db t buyer = (t1, Ok db1) ->
  investments db1 = investments db
  /\ capital_activities db1 = capital_activities db
  /\ OwnershipTransfer.is_processed t1 = true
  /\ OwnershipTransfer.status t1 = OwnershipTransfer.status t
  /\ OwnershipTransfer.id t1 = OwnershipTransfer.id t
  /\ ownership_transfers db1
     = update_row OwnershipTransfer.id (OwnershipTransfer.id t)
         (OwnershipTransfer.set_processed true
            (OwnershipTransfer.completion_date t1))
         (ownership_transfers db).
Proof.
  unfold mark_processed, OwnershipTransfer_save_processed.
  set (t' := OwnershipTransfer.set_processed true _ t).
  pose proof (OwnershipTransfer_pre_save_fields now t') as F.
  cbv zeta in F. destruct F as (Fid & _ & Fst & Fp & Fc & _).
  intros H. injection H as <- H. bind_inv H. injection H as <-.
  match type of H0 with
  | (if ?b then _ else _) = _ => destruct b; [|discriminate]
  end.
  injection H0 as <-. simpl.
  rewrite Fid, Fst, Fp, Fc. simpl. auto 10.
Qed.

(** ** The shape of a run of the receiver *)

Arguments settle_ledger : simpl never.
Arguments mark_processed : simpl never.
Arguments Investment_save : simpl never.
Arguments CapitalActivity_create : simpl never.
Arguments Investment_get_or_create : simpl never.

(** The re-entrant call fired by the flag write returns at the guard. *)
Lemma handler_skips_processed now db t :
  OwnershipTransfer.is_processed t = true ->
  handle_transfer_completion now db t = Ok (Skipped, db, t).
Proof.
  intros H. unfold handle_transfer_completion. rewrite H.
  now rewrite orb_true_r.
Qed.

Lemma handler_processed_inv now db t db1 t1 :
  handle_transfer_completion now db t = Ok (Processed, db1, t1) ->
  OwnershipTransfer.status t = COMPLETED
  /\ OwnershipTransfer.is_processed t = false
  /\ exists buyer seller dbL,
       OwnershipTransfer.to_user t = Some buyer
       /\ get_by_pk Investment.id (OwnershipTransfer.investment t)
            (investments db) = Ok seller
       /\ Dec.ltb (Investment.current_value seller)
            (OwnershipTransfer.transfer_amount t) = false
       /\ settle_ledger now db t buyer seller = Ok dbL
       /\ mark_processed now dbL t buyer = (t1, Ok db1).
Proof.
  unfold handle_transfer_completion.
  destruct (TransferStatus_eqb (OwnershipTransfer.status t) COMPLETED) eqn:Es;
    [|discriminate].
  destruct (OwnershipTransfer.is_processed t) eqn:Ep; [discriminate|].
  cbn [negb orb].
  destruct (OwnershipTransfer.to_user t) as [buyer|]; [|discriminate].
  intros H. bind_inv H. revert H.
  destruct (Dec.ltb _ _) eqn:El; [discriminate|].
  destruct (settle_ledger now db t buyer x) as [dbL|e] eqn:EL;
    [|discriminate].
  destruct (mark_processed now dbL t buyer) as [t1' [db2|e]] eqn:Em;
    [|discriminate].
  intros H. injection H as <- <-.
  apply TransferStatus_eqb_eq in Es.
  split; [exact Es|]. split; [reflexivity|].
  exists buyer, x, dbL. auto.
Qed.

(** A run that neither commits nor fails changes nothing. *)
Lemma handler_quiet now db t o db1 t1 :
  handle_transfer_completion now db t = Ok (o, db1, t1) ->
  o <> Processed -> (forall e, o <> Failed e) ->
  db1 = db /\ t1 = t.
Proof.
  unfold handle_transfer_completion.
  destruct (_ || _); [intros H; injection H as <- <- <-; auto|].
  destruct (OwnershipTransfer.to_user t) as [buyer|];
    [|intros H; injection H as <- <- <-; auto].
  intros H. bind_inv H. revert H.
  destruct (Dec.ltb _ _); [intros H; injection H as <- <- <-; auto|].
  destruct (settle_ledger now db t buyer x) as [dbL|e].
  - destruct (mark_processed now dbL t buyer) as [t1' [db2|e]];
      intros H; injection H as <- <- <-; intros Hp Hf.
    + now elim Hp.
    + now elim (Hf e).
  - intros H. injection H as <- <- <-. intros _ Hf. now elim (Hf e).
Qed.

Lemma settle_ledger_inv now db t buyer seller dbL :
  settle_ledger now db t buyer seller = Ok dbL ->
  exists s dbA dbB b created dbC dbD,
    seller_after_transfer t seller = Ok s
    /\ Investment_save now db s = Ok dbA
    /\ CapitalActivity_create now dbA (Investment.id s)
         (if TransferType_eqb (OwnershipTransfer.transfer_type t) PARTIAL
          then PARTIAL_EXIT else DISTRIBUTION)
         (OwnershipTransfer.transfer_amount t) (date_of now)
         ("Ownership transfer to " ++ User.email buyer ++ " (Transfer #"
          ++ str_int (OwnershipTransfer.id t) ++ ")") = Ok dbB
    /\ Investment_get_or_create now dbB (buyer_defaults now buyer s)
       = Ok (b, created, dbC)
    /\ Investment_save now dbC (buyer_after_transfer t b) = Ok dbD
    /\ CapitalActivity_create now dbD (Investment.id (buyer_after_transfer t b))
         INITIAL_INVESTMENT
         (Dec.fix_ (Dec.neg (OwnershipTransfer.transfer_amount t)))
         (date_of now)
         ("Ownership transfer from "
          ++ User.email (OwnershipTransfer.from_user t)
          ++ " (Transfer #" ++ str_int (OwnershipTransfer.id t) ++ ")")
       = Ok dbL.
Proof.
  unfold settle_ledger. intros H.
  bind_inv H. bind_inv H. bind_inv H. bind_inv H.
  destruct x2 as [[b created] dbC]. bind_inv H.
  exists x, x0, x1, b, created, dbC, x2. auto 10.
Qed.

(** The seller's row as the seller step computes it. *)
Lemma seller_after_transfer_fields t seller s :
  seller_after_transfer t seller = Ok s ->
  Investment.id s = Investment.id seller
  /\ Investment.user s = Investment.user seller
  /\ Investment.name s = Investment.name seller
  /\ ((OwnershipTransfer.transfer_type t = FULL
       \/ Dec.ltb (Dec.sub (Investment.current_value seller)
                     (OwnershipTransfer.transfer_amount t)) Dec.one_cent = true)
      /\ Investment.status s = EXITED
      /\ Investment.current_value s = Dec.zero2
      /\ Investment.total_invested s = Dec.zero2
      \/
      (OwnershipTransfer.transfer_type t = PARTIAL
       /\ Dec.ltb (Dec.sub (Investment.current_value seller)
                     (OwnershipTransfer.transfer_amount t)) Dec.one_cent = false)
      /\ Investment.status s = Investment.status seller
      /\ Investment.current_value s
         = Dec.sub (Investment.current_value seller)
             (OwnershipTransfer.transfer_amount t)).
Proof.
  unfold seller_after_transfer. intros H. bind_inv H.
  injection H as <-. simpl.
  destruct (OwnershipTransfer.transfer_type t) eqn:Et; simpl.
  - auto 10.
  - destruct (Dec.ltb _ Dec.one_cent) eqn:El; simpl; auto 10.
Qed.

(** ** The investments table after a committed settlement *)

Lemma holdings_ext db db' user name :
  investments db = investments db' ->
  holdings db user name = holdings db' user name.
Proof. unfold holdings. now intros ->. Qed.

Lemma holdings_in db user name b :
  In b (holdings db user name) ->
  In b (investments db) /\ Investment.user b = user /\ Investment.name b = name.
Proof.
  unfold holdings. intros H. apply filter_In in H. destruct H as [Hin H].
  apply andb_true_iff in H. destruct H as [Hu Hn].
  apply Z.eqb_eq in Hu. apply String.eqb_eq in Hn. auto.
Qed.

(** The three writes to the investments table, in order: the seller's
    row, the buyer's new row when one is created, the buyer's row with
    the credit. *)
Lemma settlement_investments now db t db1 t1 buyer seller :
  handle_transfer_completion now db t = Ok (Processed, db1, t1) ->
  OwnershipTransfer.to_user t = Some buyer ->
  get_by_pk Investment.id (OwnershipTransfer.investment t) (investments db)
    = Ok seller ->
  exists s rowS b rowB I1 I2,
    seller_after_transfer t seller = Ok s
    /\ Investment_to_row now s = Ok rowS
    /\ I1 = write_row Investment.id rowS (investments db)
    /\ (filter (fun i => (Investment.user i =? User.id buyer)%Z
                         && String.eqb (Investment.name i) (Investment.name s))
               I1 = [b] /\ I2 = I1
        \/
        filter (fun i => (Investment.user i =? User.id buyer)%Z
                         && String.eqb (Investment.name i) (Investment.name s))
               I1 = []
        /\ Investment.id b = next_id (map Investment.id I1)
        /\ Investment.user b = User.id buyer
        /\ Investment.name b = Investment.name s
        /\ Investment.status b = ACTIVE
        /\ Investment.total_invested b = Dec.zero2
        /\ Investment.current_value b = Dec.zero2
        /\ exists rowN, Investment_to_row now b = Ok rowN
                        /\ I2 = write_row Investment.id rowN I1)
    /\ Investment_to_row now (buyer_after_transfer t b) = Ok rowB
    /\ investments db1 = write_row Investment.id rowB I2.
Proof.
  intros H Hb Hs.
  apply handler_processed_inv in H.
  destruct H as (_ & _ & buyer' & seller' & dbL & Hb' & Hs' & _ & HL & Hm).
  rewrite Hb in Hb'. injection Hb' as <-.
  rewrite Hs in Hs'. injection Hs' as <-.
  apply mark_processed_frame in Hm. destruct Hm as (Hm & _).
  apply settle_ledger_inv in HL.
  destruct HL as (s & dbA & dbB & b & created & dbC & dbD
                  & Hsa & HA & HB & HC & HD & HE).
  apply Investment_save_frame in HA.
  destruct HA as (rowS & HrowS & HA & _).
  apply CapitalActivity_create_frame in HB.
  destruct HB as (_ & _ & _ & HB & _).
  apply Investment_save_frame in HD.
  destruct HD as (rowB & HrowB & HD & _).
  apply CapitalActivity_create_frame in HE.
  destruct HE as (_ & _ & _ & HE & _).
  rewrite HA in HB.
  exists s, rowS, b, rowB, (investments dbB).
  apply Investment_get_or_create_cases in HC.
  destruct HC as [(_ & -> & Hh)|(_ & Hh & Hid & Hu & Hn & Hst & Hti & Hcv & Hsave)].
  - exists (investments dbB).
    repeat split; try assumption.
    + left. split; [exact Hh|reflexivity].
    + congruence.
  - apply Investment_save_frame in Hsave.
    destruct Hsave as (rowN & HrowN & Hsave & _).
    exists (investments dbC).
    repeat split; try assumption.
    + right. repeat split; try assumption.
      now exists rowN.
    + congruence.
Qed.

Section TableWrites.

Context {A : Type} (pk_of : A -> Z).

Lemma map_pk_update_row (pk : Z) (f : A -> A) (rows : list A) :
  (forall r, pk_of r = pk -> pk_of (f r) = pk) ->
  map pk_of (update_row pk_of pk f rows) = map pk_of rows.
Proof.
  intros Hf. unfold update_row. rewrite map_map. apply map_ext.
  intros r. destruct (Z.eqb_spec (pk_of r) pk) as [E|E]; [|reflexivity].
  now rewrite (Hf r E).
Qed.

Lemma has_pk_in (pk : Z) (rows : list A) :
  has_pk pk_of pk rows = true <-> In pk (map pk_of rows).
Proof.
  unfold has_pk. rewrite existsb_exists, in_map_iff.
  split; intros (r & H1 & H2).
  - exists r. split; [now apply Z.eqb_eq|exact H1].
  - exists r. split; [exact H2|now apply Z.eqb_eq].
Qed.

Lemma map_pk_write_row (row : A) (rows : list A) :
  map pk_of (write_row pk_of row rows)
  = if has_pk pk_of (pk_of row) rows then map pk_of rows
    else (map pk_of rows ++ [pk_of row])%list.
Proof.
  unfold write_row. destruct (has_pk pk_of (pk_of row) rows).
  - now apply map_pk_update_row.
  - now rewrite map_app.
Qed.

Lemma NoDup_write_row (row : A) (rows : list A) :
  NoDup (map pk_of rows) -> NoDup (map pk_of (write_row pk_of row rows)).
Proof.
  intros H. rewrite map_pk_write_row.
  destruct (has_pk pk_of (pk_of row) rows) eqn:E; [exact H|].
  apply NoDup_app; [exact H|repeat constructor; intros []|].
  intros x Hx [<-|[]].
  apply has_pk_in in Hx. congruence.
Qed.

(** A write does not show in a selection that neither the new row nor
    the rows it replaces belong to. *)
Lemma filter_write_row_other (p : A -> bool) (row : A) (rows : list A) :
  p row = false ->
  (forall r, In r rows -> pk_of r = pk_of row -> p r = false) ->
  filter p (write_row pk_of row rows) = filter p rows.
Proof.
  intros Hrow Hrows. unfold write_row.
  destruct (has_pk pk_of (pk_of row) rows).
  - unfold update_row. induction rows as [|x rows IH]; [reflexivity|].
    simpl. destruct (Z.eqb_spec (pk_of x) (pk_of row)) as [E|E].
    + rewrite Hrow, (Hrows x (or_introl eq_refl) E).
      apply IH. intros r Hr. apply Hrows. now right.
    + destruct (p x); [f_equal|];
        apply IH; intros r Hr; apply Hrows; now right.
  - rewrite filter_app. simpl. rewrite Hrow. apply app_nil_r.
Qed.

(** A write of a selected row that replaces selected rows only. *)
Lemma filter_write_row_same (p : A -> bool) (row : A) (rows : list A) :
  p row = true ->
  (forall r, In r rows -> pk_of r = pk_of row -> p r = true) ->
  filter p (write_row pk_of row rows)
  = if has_pk pk_of (pk_of row) rows
    then update_row pk_of (pk_of row) (fun _ => row) (filter p rows)
    else (filter p rows ++ [row])%list.
Proof.
  intros Hrow Hrows. unfold write_row.
  destruct (has_pk pk_of (pk_of row) rows).
  - unfold update_row.
    induction rows as [|x rows IH]; [reflexivity|].
    simpl. destruct (Z.eqb_spec (pk_of x) (pk_of row)) as [E|E].
    + rewrite Hrow, (Hrows x (or_introl eq_refl) E). simpl.
      destruct (Z.eqb_spec (pk_of x) (pk_of row)); [|contradiction].
      f_equal. apply IH. intros r Hr. apply Hrows. now right.
    + destruct (p x); simpl.
      * destruct (Z.eqb_spec (pk_of x) (pk_of row)); [contradiction|].
        f_equal. apply IH. intros r Hr. apply Hrows. now right.
      * apply IH. intros r Hr. apply Hrows. now right.
  - rewrite filter_app. simpl. now rewrite Hrow.
Qed.

End TableWrites.

(** The seller's row after a committed settlement whose recipient is not
    the owner of the transferred investment. *)
Lemma seller_row_after now db t db1 t1 buyer seller :
  handle_transfer_completion now db t = Ok (Processed, db1, t1) ->
  OwnershipTransfer.to_user t = Some buyer ->
  get_by_pk Investment.id (OwnershipTransfer.investment t) (investments db)
    = Ok seller ->
  User.id buyer <> Investment.user seller ->
  exists s rowS,
    seller_after_transfer t seller = Ok s
    /\ Investment_to_row now s = Ok rowS
    /\ get_by_pk Investment.id (OwnershipTransfer.investment t)
         (investments db1) = Ok rowS.
Proof.
  intros H Hb Hs Hne.
  destruct (settlement_investments _ _ _ _ _ _ _ H Hb Hs)
    as (s & rowS & b & rowB & I1 & I2 & Hsa & HrowS & HI1 & Hcase & HrowB & Hdb1).
  exists s, rowS. split; [exact Hsa|]. split; [exact HrowS|].
  pose proof (seller_after_transfer_fields _ _ _ Hsa) as (Hsid & Hsu & _).
  pose proof (Investment_to_row_fields _ _ _ HrowS) as (HSid & HSu & _).
  pose proof (Investment_to_row_fields _ _ _ HrowB) as (HBid & _).
  pose proof (get_by_pk_in _ _ _ _ Hs) as (Hin & Hpk).
  set (pk := OwnershipTransfer.investment t) in *.
  assert (HS : Investment.id rowS = pk) by congruence.
  (* after the seller's write *)
  assert (H1 : get_by_pk Investment.id pk I1 = Ok rowS).
  { rewrite HI1, get_by_pk_write_row, HS, Z.eqb_refl.
    unfold get_by_pk in Hs.
    destruct (filter _ (investments db)) as [|x [|y l]];
      try reflexivity; discriminate. }
  assert (Hb_id : Investment.id b <> pk /\
                  get_by_pk Investment.id pk I2 = Ok rowS).
  { destruct Hcase as [(Hf & ->)|(Hf & Hid & _ & _ & _ & _ & _ & rowN & HrowN & ->)].
    - split; [|exact H1]. intros Heq.
      assert (Hbin : In b (filter (fun i =>
                 (Investment.user i =? User.id buyer)%Z
                 && String.eqb (Investment.name i) (Investment.name s)) I1))
        by (rewrite Hf; now left).
      apply filter_In in Hbin. destruct Hbin as [Hbin Hbp].
      apply andb_true_iff in Hbp. destruct Hbp as [Hbu _].
      apply Z.eqb_eq in Hbu.
      assert (Hb' : get_by_pk Investment.id pk I1 = Ok rowS) by exact H1.
      unfold get_by_pk in Hb'.
      destruct (filter (fun r => (Investment.id r =? pk)%Z) I1)
        as [|x [|y l]] eqn:E; try discriminate.
      injection Hb' as ->.
      assert (Hx : In b (filter (fun r => (Investment.id r =? pk)%Z) I1))
        by (apply filter_In; split; [exact Hbin|now apply Z.eqb_eq]).
      rewrite E in Hx. destruct Hx as [<-|[]]. congruence.
    - pose proof (Investment_to_row_fields _ _ _ HrowN) as (HNid & _).
      assert (Hlt : pk < Investment.id b).
      { rewrite Hid. apply next_id_above.
        apply get_by_pk_has_pk in H1. now apply has_pk_in in H1. }
      split; [lia|].
      rewrite get_by_pk_write_row.
      destruct (Z.eqb_spec (Investment.id rowN) pk); [lia|exact H1]. }
  destruct Hb_id as [Hb_id H2].
  rewrite Hdb1, get_by_pk_write_row.
  unfold buyer_after_transfer in HBid. simpl in HBid.
  destruct (Z.eqb_spec (Investment.id rowB) pk); [congruence|exact H2].
Qed.

(** ** Settlement: rejection, full exit, conservation *)

(** C4. Over-amount rejection is a no-op: when a COMPLETED transfer asks
    for more than the seller investment's current value, the receiver
    returns without raising, and hands back the very database and
    instance it was given, so no investment, activity or transfer field
    changes and the transfer stays COMPLETED with its [is_processed]
    flag as it was; an unprocessed transfer with a recipient leaves by
    the validation exit. *)
Theorem over_amount_rejection_is_noop now db t seller :
  OwnershipTransfer.status t = COMPLETED ->
  get_by_pk Investment.id (OwnershipTransfer.investment t) (investments db)
    = Ok seller ->
  Dec.ltb (Investment.current_value seller)
          (OwnershipTransfer.transfer_amount t) = true ->
  exists o,
    handle_transfer_completion now db t = Ok (o, db, t)
    /\ (o = Skipped \/ o = NoBuyer \/ o = AmountExceedsValue)
    /\ (OwnershipTransfer.is_processed t = false ->
        OwnershipTransfer.to_user t <> None ->
        o = AmountExceedsValue).
Proof.
  intros Hst Hs Hlt. unfold handle_transfer_completion.
  rewrite Hst. cbn [TransferStatus_eqb negb orb].
  destruct (OwnershipTransfer.is_processed t).
  - exists Skipped. repeat split; auto. discriminate.
  - destruct (OwnershipTransfer.to_user t) as [buyer|].
    + rewrite Hs. cbn [bind]. rewrite Hlt.
      exists AmountExceedsValue. repeat split; auto.
    + exists NoBuyer. repeat split; auto. intros _ H. now elim H.
Qed.

Lemma over_amount_rejection_is_noop_witness :
  exists o,
    handle_transfer_completion Sample.now Sample.db_over Sample.over
    = Ok (o, Sample.db_over, Sample.over)
    /\ (o = Skipped \/ o = NoBuyer \/ o = AmountExceedsValue)
    /\ (OwnershipTransfer.is_processed Sample.over = false ->
        OwnershipTransfer.to_user Sample.over <> None ->
        o = AmountExceedsValue).
Proof.
  apply (over_amount_rejection_is_noop Sample.now Sample.db_over Sample.over
           (Sample.holding 1 1 ACTIVE 1000000 1000000)).
  - reflexivity.
  - reflexivity.
  - vm_compute. reflexivity.
Defined.

(** C3. The full-exit rule is broken by a transfer to the owner: the
    receiver does not check that the recipient is another user, so a
    FULL transfer of 10000.00 out of a 50000.00 position to its own
    owner commits, the row is zeroed and marked EXITED, and the buyer
    step then finds that very row and credits it; it ends EXITED with
    current_value 10000.00 and total_invested 10000.00. *)
Lemma full_self_transfer_keeps_value :
  OwnershipTransfer.transfer_type Sample.to_self = FULL
  /\ OwnershipTransfer.status Sample.to_self = COMPLETED
  /\ exists db1 t1 seller1,
       handle_transfer_completion Sample.now Sample.db_self Sample.to_self
       = Ok (Processed, db1, t1)
       /\ get_by_pk Investment.id 1 (investments db1) = Ok seller1
       /\ Investment.status seller1 = EXITED
       /\ Investment.current_value seller1 = Dec.of_cents 1000000
       /\ Investment.total_invested seller1 = Dec.of_cents 1000000.
Proof.
  split; [reflexivity|]. split; [reflexivity|].
  vm_compute. eexists _, _, _. repeat split.
Qed.

(** X23. The full-exit rule for a recipient other than the owner: after
    a committed settlement of a FULL transfer to a user who does not own
    the transferred investment, whatever ratio was computed, the
    seller's investment row has current_value 0.00, total_invested 0.00
    and status EXITED; the same holds whenever the seller's current
    value less the transfer amount is below 0.01. *)
Theorem full_exit_rule now db t db1 t1 buyer seller :
  handle_transfer_completion now db t = Ok (Processed, db1, t1) ->
  OwnershipTransfer.to_user t = Some buyer ->
  get_by_pk Investment.id (OwnershipTransfer.investment t) (investments db)
    = Ok seller ->
  User.id buyer <> Investment.user seller ->
  OwnershipTransfer.transfer_type t = FULL
  \/ Dec.ltb (Dec.sub (Investment.current_value seller)
                (OwnershipTransfer.transfer_amount t)) Dec.one_cent = true ->
  exists seller1,
    get_by_pk Investment.id (OwnershipTransfer.investment t) (investments db1)
      = Ok seller1
    /\ Investment.current_value seller1 = Dec.zero2
    /\ Investment.total_invested seller1 = Dec.zero2
    /\ Investment.status seller1 = EXITED.
Proof.
  intros H Hb Hs Hne Hfull.
  destruct (seller_row_after _ _ _ _ _ _ _ H Hb Hs Hne)
    as (s & rowS & Hsa & HrowS & Hget).
  exists rowS. split; [exact Hget|].
  apply seller_after_transfer_fields in Hsa.
  destruct Hsa as (_ & _ & _ & [(_ & Hst & Hcv & Hti)|((Hp & Hl) & _)]).
  - apply Investment_to_row_fields in HrowS.
    destruct HrowS as (_ & _ & _ & Hst' & Hti' & Hcv').
    rewrite Hti in Hti'. rewrite Hcv in Hcv'.
    change (to_column 15 Dec.zero2) with (Ok Dec.zero2) in *.
    injection Hti' as <-. injection Hcv' as <-.
    repeat split. congruence.
  - destruct Hfull as [Hf|Hf]; congruence.
Qed.

Lemma full_exit_rule_witness :
  exists seller1,
    get_by_pk Investment.id 1
      (investments (fst (Sample.settled Sample.db_full Sample.full)))
      = Ok seller1
    /\ Investment.current_value seller1 = Dec.zero2
    /\ Investment.total_invested seller1 = Dec.zero2
    /\ Investment.status seller1 = EXITED.
Proof.
  apply (full_exit_rule Sample.now Sample.db_full Sample.full
           (fst (Sample.settled Sample.db_full Sample.full))
           (snd (Sample.settled Sample.db_full Sample.full))
           Sample.buyer (Sample.holding 1 1 ACTIVE 5000000 5000000)).
  - vm_compute. reflexivity.
  - reflexivity.
  - reflexivity.
  - vm_compute. discriminate.
  - left. reflexivity.
Defined.

Lemma NoDup_pk_eq {A} (pk_of : A -> Z) (rows : list A) (r r' : A) :
  NoDup (map pk_of rows) -> In r rows -> In r' rows ->
  pk_of r = pk_of r' -> r = r'.
Proof.
  induction rows as [|x rows IH]; simpl; [contradiction|].
  intros Hnd Hr Hr' Heq. inversion Hnd as [|? ? Hnotin Hnd']; subst.
  destruct Hr as [->|Hr], Hr' as [->|Hr']; auto.
  - exfalso. apply Hnotin. rewrite Heq. now apply in_map.
  - exfalso. apply Hnotin. rewrite <- Heq. now apply in_map.
Qed.

Lemma to_column_cents_inv (m c : Z) (q : Decimal) :
  to_column m (Dec.of_cents c) = Ok q -> q = Dec.of_cents c.
Proof.
  intros H. apply to_column_ok in H. unfold Dec.quantize2 in H.
  simpl in H. rewrite Z.mul_1_r in H.
  destruct (Z.abs c <? 10 ^ m)%Z; [|discriminate].
  now injection H as <-.
Qed.

(** The buyer's holding in the fund after a committed settlement. *)
Lemma buyer_row_after now db t db1 t1 buyer seller :
  handle_transfer_completion now db t = Ok (Processed, db1, t1) ->
  OwnershipTransfer.to_user t = Some buyer ->
  get_by_pk Investment.id (OwnershipTransfer.investment t) (investments db)
    = Ok seller ->
  User.id buyer <> Investment.user seller ->
  NoDup (map Investment.id (investments db)) ->
  Forall investment_columns (investments db) ->
  is_money (OwnershipTransfer.transfer_amount t) ->
  exists rowB,
    holdings db1 (User.id buyer) (Investment.name seller) = [rowB]
    /\ Investment.current_value rowB
       = Dec.of_cents (held_before db (User.id buyer) (Investment.name seller)
                       + cents (OwnershipTransfer.transfer_amount t)).
Proof.
  intros H Hb Hs Hne Hnd Hcols Hamt.
  destruct (settlement_investments _ _ _ _ _ _ _ H Hb Hs)
    as (s & rowS & b & rowB & I1 & I2 & Hsa & HrowS & HI1 & Hcase & HrowB & Hdb1).
  pose proof (seller_after_transfer_fields _ _ _ Hsa) as (Hsid & Hsu & Hsn & _).
  pose proof (Investment_to_row_fields _ _ _ HrowS) as (HSid & HSu & HSn & _).
  pose proof (Investment_to_row_fields _ _ _ HrowB)
    as (HBid & HBu & HBn & _ & _ & HBcv).
  unfold buyer_after_transfer in HBid, HBu, HBn, HBcv. simpl in HBid, HBu, HBn, HBcv.
  pose proof (get_by_pk_in _ _ _ _ Hs) as (Hin & Hpk).
  rewrite (is_money_eq _ Hamt) in HBcv. destruct Hamt as [_ Hamt].
  set (a := cents (OwnershipTransfer.transfer_amount t)) in *.
  set (p := fun i => (Investment.user i =? User.id buyer)%Z
                     && String.eqb (Investment.name i) (Investment.name s)).
  assert (HpS : p rowS = false).
  { unfold p. destruct (Z.eqb_spec (Investment.user rowS) (User.id buyer));
      [congruence|reflexivity]. }
  assert (Hpseller : p seller = false).
  { unfold p. destruct (Z.eqb_spec (Investment.user seller) (User.id buyer));
      [congruence|reflexivity]. }
  assert (Hf1 : filter p I1 = filter p (investments db)).
  { rewrite HI1. apply filter_write_row_other; [exact HpS|].
    intros r Hr Hrpk.
    rewrite (NoDup_pk_eq Investment.id _ r seller Hnd Hr Hin); [exact Hpseller|].
    congruence. }
  assert (Hnd1 : NoDup (map Investment.id I1))
    by (rewrite HI1; now apply NoDup_write_row).
  assert (Hhold : forall d, holdings d (User.id buyer) (Investment.name seller)
                            = filter p (investments d)).
  { intros d. unfold holdings, p. now rewrite Hsn. }
  unfold held_before. rewrite !Hhold. rewrite <- Hf1.
  exists rowB.
  destruct Hcase as [(Hf & ->)
                    |(Hf & Hid & Hu & Hn & _ & _ & Hcv & rowN & HrowN & ->)].
  - (* the buyer already held the fund *)
    change (filter p I1 = [b]) in Hf.
    assert (Hbin : In b (filter p I1)) by (rewrite Hf; now left).
    apply filter_In in Hbin. destruct Hbin as [Hbin Hpb].
    assert (Hbdb : In b (filter p (investments db)))
      by (rewrite <- Hf1, Hf; now left).
    apply filter_In in Hbdb. destruct Hbdb as [Hbdb _].
    rewrite Forall_forall in Hcols.
    destruct (Hcols b Hbdb) as [_ Hmb].
    rewrite (is_money_eq _ Hmb) in HBcv. destruct Hmb as [_ Hmb].
    rewrite add_cents in HBcv by assumption.
    apply to_column_cents_inv in HBcv.
    rewrite Hf. split; [|exact HBcv].
    rewrite Hdb1, filter_write_row_same.
    + rewrite (proj2 (has_pk_in Investment.id _ _)).
      * rewrite Hf. unfold update_row. simpl.
        rewrite HBid, Z.eqb_refl. reflexivity.
      * rewrite HBid. now apply in_map.
    + unfold p in *. now rewrite HBu, HBn.
    + intros r Hr Hrpk.
      rewrite (NoDup_pk_eq Investment.id _ r b Hnd1 Hr Hbin); [exact Hpb|].
      congruence.
  - (* the buyer's row is created *)
    change (filter p I1 = []) in Hf.
    pose proof (Investment_to_row_fields _ _ _ HrowN) as (HNid & HNu & HNn & _).
    rewrite Hcv in HBcv. change Dec.zero2 with (Dec.of_cents 0) in HBcv.
    rewrite add_cents in HBcv by (try assumption; reflexivity).
    apply to_column_cents_inv in HBcv.
    rewrite Hf. split; [|exact HBcv].
    assert (Hfresh : has_pk Investment.id (Investment.id rowN) I1 = false).
    { destruct (has_pk Investment.id (Investment.id rowN) I1) eqn:E;
        [|reflexivity].
      apply has_pk_in in E. apply next_id_above in E. lia. }
    assert (HI2 : write_row Investment.id rowN I1 = (I1 ++ [rowN])%list)
      by (unfold write_row; now rewrite Hfresh).
    assert (HpN : p rowN = true).
    { unfold p. rewrite HNu, HNn, Hu, Hn, Z.eqb_refl. simpl.
      apply String.eqb_refl. }
    rewrite Hdb1, HI2, filter_write_row_same.
    + rewrite (proj2 (has_pk_in Investment.id _ _)).
      * rewrite filter_app, Hf. simpl. rewrite HpN.
        unfold update_row. simpl.
        replace (Investment.id rowN =? Investment.id rowB)%Z with true
          by (symmetry; apply Z.eqb_eq; congruence).
        reflexivity.
      * rewrite map_app. apply in_or_app. right. left. congruence.
    + unfold p in *. rewrite HBu, HBn, Hu, Hn, Z.eqb_refl. simpl.
      apply String.eqb_refl.
    + intros r Hr Hrpk. apply in_app_or in Hr. destruct Hr as [Hr|[<-|[]]].
      * exfalso.
        assert (Hlt : Investment.id r < next_id (map Investment.id I1))
          by (apply next_id_above; now apply in_map).
        lia.
      * exact HpN.
Qed.

(** C2, as worded, fails: a FULL transfer of 10000.00 out of a position
    worth 50000.00 commits, credits the buyer with 10000.00 and writes
    the seller's whole 50000.00 off. *)
Lemma full_transfer_writes_off_more_than_it_moves :
  ~ settlement_conserves_value.
Proof.
  intros C.
  pose (r := Sample.settled Sample.db_full Sample.full).
  assert (Hrow : exists seller1,
             get_by_pk Investment.id 1 (investments (fst r)) = Ok seller1
             /\ cents (Investment.current_value seller1) = 0).
  { vm_compute. eexists. split; reflexivity. }
  destruct Hrow as (seller1 & Hget & Hzero).
  destruct (C Sample.now Sample.db_full (fst r) Sample.full (snd r)
              Sample.buyer (Sample.holding 1 1 ACTIVE 5000000 5000000) seller1)
    as [Hseller _].
  - vm_compute. reflexivity.
  - reflexivity.
  - reflexivity.
  - exact Hget.
  - rewrite Hzero in Hseller. vm_compute in Hseller. discriminate.
Qed.

(** C2, amended. For every committed settlement of an amount A to a
    recipient other than the investment's owner, over tables that meet
    their schema: the buyer's current value in the fund rises by exactly
    A; for a PARTIAL transfer the seller's current value falls by
    exactly A; for a FULL transfer the seller's current value becomes 0,
    whatever A is. *)
Theorem settlement_value_movement now db t db1 t1 buyer seller :
  handle_transfer_completion now db t = Ok (Processed, db1, t1) ->
  OwnershipTransfer.to_user t = Some buyer ->
  get_by_pk Investment.id (OwnershipTransfer.investment t) (investments db)
    = Ok seller ->
  User.id buyer <> Investment.user seller ->
  schema_ok db ->
  is_money (OwnershipTransfer.transfer_amount t) ->
  held_before db1 (User.id buyer) (Investment.name seller)
  - held_before db (User.id buyer) (Investment.name seller)
  = cents (OwnershipTransfer.transfer_amount t)
  /\ exists seller1,
       get_by_pk Investment.id (OwnershipTransfer.investment t)
         (investments db1) = Ok seller1
       /\ (OwnershipTransfer.transfer_type t = PARTIAL ->
           cents (Investment.current_value seller)
           - cents (Investment.current_value seller1)
           = cents (OwnershipTransfer.transfer_amount t))
       /\ (OwnershipTransfer.transfer_type t = FULL ->
           cents (Investment.current_value seller1) = 0).
Proof.
  intros H Hb Hs Hne (Hnd & _ & Hcols & _) Hamt.
  split.
  - destruct (buyer_row_after _ _ _ _ _ _ _ H Hb Hs Hne Hnd Hcols Hamt)
      as (rowB & Hhold & Hcv).
    unfold held_before at 1. rewrite Hhold, Hcv. unfold cents at 1. simpl. lia.
  - destruct (seller_row_after _ _ _ _ _ _ _ H Hb Hs Hne)
      as (s & rowS & Hsa & HrowS & Hget).
    exists rowS. split; [exact Hget|].
    apply handler_processed_inv in H.
    destruct H as (_ & _ & buyer' & seller' & _ & _ & Hs' & Hge & _).
    rewrite Hs in Hs'. injection Hs' as <-.
    pose proof (get_by_pk_in _ _ _ _ Hs) as (Hin & _).
    rewrite Forall_forall in Hcols. destruct (Hcols seller Hin) as [_ Hmc].
    apply Investment_to_row_fields in HrowS.
    destruct HrowS as (_ & _ & _ & _ & _ & Hcv').
    apply seller_after_transfer_fields in Hsa.
    rewrite (is_money_eq _ Hmc), (is_money_eq _ Hamt) in Hsa, Hge.
    destruct Hmc as [_ Hmc]. destruct Hamt as [_ Hamt].
    rewrite sub_cents in Hsa by assumption.
    change Dec.one_cent with (Dec.of_cents 1) in Hsa.
    rewrite ltb_cents in Hsa, Hge.
    destruct Hsa as (_ & _ & _ & [(Hor & _ & Hcv & _)|((Hp & Hl) & _ & Hcv)]);
      rewrite Hcv in Hcv'.
    + change (to_column 15 Dec.zero2) with (Ok Dec.zero2) in Hcv'.
      injection Hcv' as <-. split; [|reflexivity].
      intros Hpartial. destruct Hor as [Hf|Hl]; [congruence|].
      change (cents Dec.zero2) with 0. lia.
    + apply to_column_cents_inv in Hcv'. rewrite Hcv'.
      split; [intros _|congruence].
      unfold cents at 2. simpl. lia.
Qed.

Lemma settlement_value_movement_witness :
  let db1 := fst (Sample.settled Sample.db_partial Sample.partial) in
  held_before db1 2 "Inv1" - held_before Sample.db_partial 2 "Inv1" = 1000000
  /\ exists seller1,
       get_by_pk Investment.id 1 (investments db1) = Ok seller1
       /\ (PARTIAL = PARTIAL -> 5000000 - cents (Investment.current_value seller1)
                                = 1000000)
       /\ (PARTIAL = FULL -> cents (Investment.current_value seller1) = 0).
Proof.
  apply (settlement_value_movement Sample.now Sample.db_partial Sample.partial
           (fst (Sample.settled Sample.db_partial Sample.partial))
           (snd (Sample.settled Sample.db_partial Sample.partial))
           Sample.buyer (Sample.holding 1 1 ACTIVE 5000000 5000000)).
  - vm_compute. reflexivity.
  - reflexivity.
  - reflexivity.
  - vm_compute. discriminate.
  - repeat split; simpl; repeat constructor; simpl; try tauto;
      rewrite pow10_15; simpl; lia.
  - split; [reflexivity|rewrite pow10_15; simpl; lia].
Defined.

(** ** Idempotence *)

(** A run that changes nothing would have ended the same way at any
    other time. *)
Lemma handler_quiet_any_time now now' db t o db1 t1 :
  handle_transfer_completion now db t = Ok (o, db1, t1) ->
  o <> Processed -> (forall e, o <> Failed e) ->
  handle_transfer_completion now' db t = Ok (o, db, t).
Proof.
  unfold handle_transfer_completion.
  destruct (_ || _); [intros H; now injection H as <- <- <-|].
  destruct (OwnershipTransfer.to_user t) as [buyer|];
    [|intros H; now injection H as <- <- <-].
  destruct (get_by_pk _ _ _) as [seller|e]; cbn [bind]; [|discriminate].
  destruct (Dec.ltb _ _); [intros H; now injection H as <- <- <-|].
  destruct (settle_ledger now db t buyer seller) as [dbL|e].
  - destruct (mark_processed now dbL t buyer) as [t1' [db2|e]];
      intros H; injection H as <- <- <-; intros Hp Hf.
    + now elim Hp.
    + now elim (Hf e).
  - intros H. injection H as <- <- <-. intros _ Hf. now elim (Hf e).
Qed.

Lemma run_handler_fixed clock db t :
  (forall now, exists o, handle_transfer_completion now db t = Ok (o, db, t)) ->
  run_handler clock db t = Ok (db, t).
Proof.
  intros H. induction clock as [|now clock IH]; [reflexivity|].
  simpl. destruct (H now) as (o & ->). exact IH.
Qed.

(** The two ledger rows of a committed settlement. *)
Lemma settlement_activities now db t db1 t1 buyer seller :
  handle_transfer_completion now db t = Ok (Processed, db1, t1) ->
  OwnershipTransfer.to_user t = Some buyer ->
  get_by_pk Investment.id (OwnershipTransfer.investment t) (investments db)
    = Ok seller ->
  exists seller_act buyer_act,
    capital_activities db1
    = (capital_activities db ++ [seller_act; buyer_act])%list
    /\ CapitalActivity.investment seller_act = OwnershipTransfer.investment t
    /\ CapitalActivity.activity_type seller_act
       = (if TransferType_eqb (OwnershipTransfer.transfer_type t) PARTIAL
          then PARTIAL_EXIT else DISTRIBUTION)
    /\ to_column 15 (OwnershipTransfer.transfer_amount t)
       = Ok (CapitalActivity.amount seller_act)
    /\ CapitalActivity.activity_type buyer_act = INITIAL_INVESTMENT
    /\ to_column 15 (Dec.fix_ (Dec.neg (OwnershipTransfer.transfer_amount t)))
       = Ok (CapitalActivity.amount buyer_act).
Proof.
  intros H Hb Hs.
  apply handler_processed_inv in H.
  destruct H as (_ & _ & buyer' & seller' & dbL & Hb' & Hs' & _ & HL & Hm).
  rewrite Hb in Hb'. injection Hb' as <-.
  rewrite Hs in Hs'. injection Hs' as <-.
  apply mark_processed_frame in Hm. destruct Hm as (_ & Hm & _).
  apply settle_ledger_inv in HL.
  destruct HL as (s & dbA & dbB & b & created & dbC & dbD
                  & Hsa & HA & HB & HC & HD & HE).
  apply seller_after_transfer_fields in Hsa. destruct Hsa as (Hsid & _).
  apply get_by_pk_in in Hs. destruct Hs as [_ Hpk].
  apply Investment_save_frame in HA. destruct HA as (_ & _ & _ & HA & _).
  apply CapitalActivity_create_frame in HB.
  destruct HB as (a1 & Ha1 & HB & _).
  apply Investment_save_frame in HD. destruct HD as (_ & _ & _ & HD & _).
  apply CapitalActivity_create_frame in HE.
  destruct HE as (a2 & Ha2 & HE & _).
  assert (HCc : capital_activities dbC = capital_activities dbB).
  { apply Investment_get_or_create_cases in HC.
    destruct HC as [(_ & -> & _)|(_ & _ & _ & _ & _ & _ & _ & _ & Hsave)];
      [reflexivity|].
    apply Investment_save_frame in Hsave.
    now destruct Hsave as (_ & _ & _ & Hsave & _). }
  eexists _, _. split.
  - rewrite Hm, HE, HD, HCc, HB, HA. rewrite <- app_assoc. reflexivity.
  - simpl. repeat split; try assumption. congruence.
Qed.

(** C1, as worded, fails: the over-amount transfer of C4 is COMPLETED
    and has a registered recipient, yet a run leaves it unprocessed and
    without ledger rows. *)
Lemma rejected_transfer_is_never_processed :
  ~ every_completed_transfer_settles.
Proof.
  intros C.
  destruct (C [Sample.now] Sample.db_over Sample.over Sample.buyer)
    as (db' & t' & Hrun & Hp & _).
  - discriminate.
  - reflexivity.
  - reflexivity.
  - vm_compute in Hrun. injection Hrun as <- <-. discriminate Hp.
Qed.

(** ** EXITED implies zero balances *)

(** C6, as worded, fails on both counts.  A buyer who holds an exited,
    zeroed position in the fund is credited on that very row, which
    stays EXITED with a balance; and a revaluation may set EXITED on a
    position without touching its balances. *)
Lemma exited_rows_can_carry_value :
  ~ settlement_preserves_exited_zero /\ ~ revaluation_preserves_exited_zero.
Proof.
  split; intros C.
  - pose (r := Sample.settled Sample.db_exited_buyer Sample.partial).
    assert (Hrow : exists row,
               In row (investments (fst r))
               /\ Investment.status row = EXITED
               /\ Dec.coef (Investment.current_value row) = 1000000).
    { vm_compute. eexists. split; [right; left; reflexivity|].
      split; reflexivity. }
    destruct Hrow as (row & Hin & Hst & Hcv).
    assert (Hall : Forall exited_zero (investments (fst r))).
    { apply (C Sample.now Sample.db_exited_buyer (fst r) Sample.partial (snd r)).
      - apply Forall_forall; intros x Hx; simpl in Hx;
        repeat (destruct Hx as [<-|Hx]; [intros Hs; try discriminate Hs;
                                         split; reflexivity|]);
        contradiction.
      - vm_compute. reflexivity. }
    rewrite Forall_forall in Hall.
    destruct (Hall row Hin Hst) as [_ Hz]. rewrite Hcv in Hz. discriminate.
  - pose (db := Sample.database [Sample.holding 1 1 ACTIVE 5000000 5000000]
                  Sample.partial).
    pose (attrs := mkAttrs None (Some EXITED) None None None None None None
                     None None None None).
    assert (Hrun : exists db1 row,
               InvestmentViewSet_perform_update Sample.now db
                 (Sample.holding 1 1 ACTIVE 5000000 5000000) attrs
               = Valid (Ok db1)
               /\ In row (investments db1)
               /\ Investment.status row = EXITED
               /\ Dec.coef (Investment.current_value row) = 5000000).
    { vm_compute. eexists _, _. split; [reflexivity|].
      split; [left; reflexivity|]. split; reflexivity. }
    destruct Hrun as (db1 & row & Hupd & Hin & Hst & Hcv).
    assert (Hall : Forall exited_zero (investments db1)).
    { apply (C Sample.now db db1 (Sample.holding 1 1 ACTIVE 5000000 5000000)
               attrs).
      - apply Forall_forall; intros x Hx; simpl in Hx;
        repeat (destruct Hx as [<-|Hx]; [intros Hs; try discriminate Hs;
                                         split; reflexivity|]);
        contradiction.
      - left. reflexivity.
      - exact Hupd. }
    rewrite Forall_forall in Hall.
    destruct (Hall row Hin Hst) as [_ Hz]. rewrite Hcv in Hz. discriminate.
Qed.

Lemma ltb_zero_coef (a b : Decimal) :
  Dec.coef a = 0 -> 0 < Dec.coef b -> Dec.ltb a b = true.
Proof.
  intros Ha Hb. unfold Dec.ltb, Dec.align. rewrite Ha. simpl.
  apply Z.ltb_lt. apply Z.mul_pos_pos; [exact Hb|].
  apply Z.pow_pos_nonneg; lia.
Qed.

(** C6, amended. A committed settlement of a positive amount keeps
    "EXITED implies zero balances" on the investments table, provided
    the recipient is not the owner of the transferred investment and
    holds no EXITED investment under the same fund name: the seller's
    row becomes EXITED only together with zero balances, a buyer row
    that is created is ACTIVE, and an existing buyer row keeps its
    status. *)
Theorem settlement_keeps_exited_zero now db t db1 t1 buyer seller :
  Forall exited_zero (investments db) ->
  handle_transfer_completion now db t = Ok (Processed, db1, t1) ->
  OwnershipTransfer.to_user t = Some buyer ->
  get_by_pk Investment.id (OwnershipTransfer.investment t) (investments db)
    = Ok seller ->
  0 < Dec.coef (OwnershipTransfer.transfer_amount t) ->
  User.id buyer <> Investment.user seller ->
  (forall b, In b (holdings db (User.id buyer) (Investment.name seller)) ->
             Investment.status b <> EXITED) ->
  Forall exited_zero (investments db1).
Proof.
  intros Hinv H Hb Hs Hpos Hne Hhold.
  destruct (settlement_investments _ _ _ _ _ _ _ H Hb Hs)
    as (s & rowS & b & rowB & I1 & I2 & Hsa & HrowS & HI1 & Hcase & HrowB & Hdb1).
  apply handler_processed_inv in H.
  destruct H as (_ & _ & buyer' & seller' & _ & _ & Hs' & Hge & _).
  rewrite Hs in Hs'. injection Hs' as <-.
  pose proof (get_by_pk_in _ _ _ _ Hs) as (Hin & _).
  rewrite Forall_forall in Hinv.
  pose proof (seller_after_transfer_fields _ _ _ Hsa) as (_ & Hsu & Hsn & Hs_cases).
  pose proof (Investment_to_row_fields _ _ _ HrowS)
    as (_ & HSu & _ & HSst & HSti & HScv).
  pose proof (Investment_to_row_fields _ _ _ HrowB) as (_ & _ & _ & HBst & _).
  unfold buyer_after_transfer in HBst. simpl in HBst.
  (* the seller's row *)
  assert (HrowS_ok : exited_zero rowS).
  { intros Hex. rewrite HSst in Hex.
    destruct Hs_cases as [(_ & _ & Hcv & Hti)|(_ & Hst & _)].
    - rewrite Hti in HSti. rewrite Hcv in HScv.
      change (to_column 15 Dec.zero2) with (Ok Dec.zero2) in *.
      injection HSti as <-. injection HScv as <-. split; reflexivity.
    - exfalso. rewrite Hst in Hex.
      destruct (Hinv seller Hin Hex) as [_ Hz].
      rewrite (ltb_zero_coef _ _ Hz Hpos) in Hge. discriminate. }
  assert (HI1_ok : forall x, In x I1 -> exited_zero x).
  { intros x Hx. rewrite HI1 in Hx. apply in_write_row in Hx.
    destruct Hx as [->|Hx]; [exact HrowS_ok|now apply Hinv]. }
  (* the buyer's row is not EXITED *)
  assert (Hb_st : Investment.status b <> EXITED
                  /\ forall x, In x I2 -> exited_zero x).
  { destruct Hcase as [(Hf & ->)
                      |(Hf & _ & _ & _ & Hst & _ & _ & rowN & HrowN & ->)].
    - split; [|exact HI1_ok].
      assert (Hbin : In b (filter (fun i =>
                 (Investment.user i =? User.id buyer)%Z
                 && String.eqb (Investment.name i) (Investment.name s)) I1))
        by (rewrite Hf; now left).
      apply filter_In in Hbin. destruct Hbin as [Hbin Hp].
      apply Hhold. unfold holdings. rewrite <- Hsn. apply filter_In.
      split; [|exact Hp].
      rewrite HI1 in Hbin. apply in_write_row in Hbin.
      destruct Hbin as [->|Hbin]; [|exact Hbin].
      exfalso. apply andb_true_iff in Hp. destruct Hp as [Hp _].
      apply Z.eqb_eq in Hp. congruence.
    - split; [rewrite Hst; discriminate|].
      intros x Hx. apply in_write_row in Hx.
      destruct Hx as [->|Hx]; [|now apply HI1_ok].
      apply Investment_to_row_fields in HrowN.
      destruct HrowN as (_ & _ & _ & HNst & _).
      intros Hex. rewrite HNst, Hst in Hex. discriminate. }
  destruct Hb_st as [Hb_st HI2_ok].
  apply Forall_forall. intros x Hx. rewrite Hdb1 in Hx.
  apply in_write_row in Hx. destruct Hx as [->|Hx]; [|now apply HI2_ok].
  intros Hex. rewrite HBst in Hex. contradiction.
Qed.

Lemma settlement_keeps_exited_zero_witness :
  Forall exited_zero
    (investments (fst (Sample.settled Sample.db_full Sample.full))).
Proof.
  apply (settlement_keeps_exited_zero Sample.now Sample.db_full Sample.full
           (fst (Sample.settled Sample.db_full Sample.full))
           (snd (Sample.settled Sample.db_full Sample.full))
           Sample.buyer (Sample.holding 1 1 ACTIVE 5000000 5000000)).
  - apply Forall_forall; intros x Hx; simpl in Hx;
      repeat (destruct Hx as [<-|Hx]; [intros Hs; discriminate Hs|]);
      contradiction.
  - vm_compute. reflexivity.
  - reflexivity.
  - reflexivity.
  - vm_compute. reflexivity.
  - vm_compute. discriminate.
  - intros b Hb. vm_compute in Hb. contradiction.
Defined.

(** ** Fee derivation *)

(** Rounding the fee and rounding the net amount agree: a fee that falls
    exactly between two cents belongs to an even amount. *)
Lemma net_rounds_with_fee (c : Z) :
  Dec.div_half_even (975 * c) 1000 = c - Dec.div_half_even (25 * c) 1000.
Proof.
  unfold Dec.div_half_even.
  pose proof (Z.div_mod (25 * c) 1000 ltac:(lia)) as Hdm.
  pose proof (Z.mod_pos_bound (25 * c) 1000 ltac:(lia)) as Hr.
  set (q := (25 * c) / 1000) in *. set (r := (25 * c) mod 1000) in *.
  clearbody q r.
  destruct (Z.eq_dec r 0) as [Hr0|Hr0].
  - assert (Hq : (975 * c) / 1000 = c - q)
      by (symmetry; apply (Z.div_unique _ _ _ 0); lia).
    assert (Hm : (975 * c) mod 1000 = 0)
      by (symmetry; apply (Z.mod_unique _ _ (c - q)); lia).
    rewrite Hq, Hm, Hr0. change (2 * 0 ?= 1000)%Z with Lt. cbv iota. lia.
  - assert (Hq : (975 * c) / 1000 = c - q - 1)
      by (symmetry; apply (Z.div_unique _ _ _ (1000 - r)); lia).
    assert (Hm : (975 * c) mod 1000 = 1000 - r)
      by (symmetry; apply (Z.mod_unique _ _ (c - q - 1)); lia).
    rewrite Hq, Hm. clear Hq Hm.
    destruct (Z.compare_spec (2 * r) 1000) as [He|Hl|Hg];
      destruct (Z.compare_spec (2 * (1000 - r)) 1000); cbv iota; try lia.
    assert (Hc : c = 40 * q + 20) by lia.
    destruct (Z.even q) eqn:Eq.
    + apply Z.even_spec in Eq. destruct Eq as [k Hk].
      replace (c - q - 1) with (19 + 2 * (39 * k)) by lia.
      rewrite Z.even_add_mul_2. change (Z.even 19) with false.
      cbv iota. lia.
    + rewrite <- Z.negb_odd in Eq. apply negb_false_iff in Eq.
      apply Z.odd_spec in Eq. destruct Eq as [k Hk].
      replace (c - q - 1) with (58 + 2 * (39 * k)) by lia.
      rewrite Z.even_add_mul_2. change (Z.even 58) with true.
      cbv iota. lia.
Qed.

Lemma div_half_even_bound (n d b : Z) :
  0 < d -> Z.abs n <= d * b -> Z.abs (Dec.div_half_even n d) <= b.
Proof.
  intros Hd Hn. unfold Dec.div_half_even.
  pose proof (Z.div_mod n d ltac:(lia)) as Hdm.
  pose proof (Z.mod_pos_bound n d Hd) as Hr.
  assert (Hb : 0 <= b) by nia.
  destruct (Z.compare_spec (2 * (n mod d)) d);
    [destruct (Z.even (n / d))| |]; nia.
Qed.

(** The fee and the net amount of a transfer as [save] leaves them on
    the instance: the exact products, not yet rounded. *)
Lemma pre_save_fees now self c :
  OwnershipTransfer.transfer_amount self = Dec.of_cents c ->
  Z.abs c < 10 ^ 15 ->
  OwnershipTransfer.transfer_fee (OwnershipTransfer_pre_save now self)
  = Dec.mk (25 * c) (-5)
  /\ OwnershipTransfer.net_amount (OwnershipTransfer_pre_save now self)
     = Dec.mk (975 * c) (-5).
Proof.
  intros Ha Hc. rewrite pow10_15 in Hc.
  assert (Hfee : Dec.mul (Dec.of_cents c) Dec.fee_rate = Dec.mk (25 * c) (-5)).
  { unfold Dec.mul, Dec.of_cents, Dec.fee_rate. cbn [Dec.coef Dec.expo].
    change (-2 + -3) with (-5). replace (c * 25) with (25 * c) by lia. apply fix_small.
    rewrite pow10_15. change (10 ^ 4) with 10000. lia. }
  assert (Hnet : Dec.sub (Dec.of_cents c) (Dec.mk (25 * c) (-5))
                 = Dec.mk (975 * c) (-5)).
  { unfold Dec.sub, Dec.add, Dec.neg, Dec.align, Dec.of_cents.
    cbn [Dec.coef Dec.expo]. change (Z.min (-2) (-5)) with (-5).
    change (10 ^ (-2 - -5)) with 1000. change (10 ^ (-5 - -5)) with 1.
    replace (c * 1000 + - (25 * c) * 1) with (975 * c) by lia.
    apply fix_small. rewrite pow10_15. change (10 ^ 4) with 10000. lia. }
  unfold OwnershipTransfer_pre_save. rewrite Ha, Hfee, Hnet.
  destruct (OwnershipTransfer.estimated_completion_date _);
    [|destruct (OwnershipTransfer.status _)]; simpl; auto.
Qed.

Lemma settle_ledger_transfers now db t buyer seller dbL :
  settle_ledger now db t buyer seller = Ok dbL ->
  ownership_transfers dbL = ownership_transfers db.
Proof.
  intros HL. apply settle_ledger_inv in HL.
  destruct HL as (s & dbA & dbB & b & created & dbC & dbD
                  & _ & HA & HB & HC & HD & HE).
  apply Investment_save_frame in HA. destruct HA as (_ & _ & _ & _ & HA & _).
  apply CapitalActivity_create_frame in HB.
  destruct HB as (_ & _ & _ & _ & HB & _).
  apply Investment_save_frame in HD. destruct HD as (_ & _ & _ & _ & HD & _).
  apply CapitalActivity_create_frame in HE.
  destruct HE as (_ & _ & _ & _ & HE & _).
  assert (HCc : ownership_transfers dbC = ownership_transfers dbB).
  { apply Investment_get_or_create_cases in HC.
    destruct HC as [(_ & -> & _)|(_ & _ & _ & _ & _ & _ & _ & _ & Hsave)];
      [reflexivity|].
    apply Investment_save_frame in Hsave.
    now destruct Hsave as (_ & _ & _ & _ & Hsave & _). }
  congruence.
Qed.

(** Only a committed run changes the database. *)
Lemma handler_db_unchanged now db t o db1 t1 :
  handle_transfer_completion now db t = Ok (o, db1, t1) ->
  o <> Processed -> db1 = db.
Proof.
  unfold handle_transfer_completion.
  destruct (_ || _); [intros H; now injection H as <- <- <-|].
  destruct (OwnershipTransfer.to_user t) as [buyer|];
    [|intros H; now injection H as <- <- <-].
  destruct (get_by_pk _ _ _) as [seller|e]; cbn [bind]; [|discriminate].
  destruct (Dec.ltb _ _); [intros H; now injection H as <- <- <-|].
  destruct (settle_ledger now db t buyer seller) as [dbL|e].
  - destruct (mark_processed now dbL t buyer) as [t1' [db2|e]];
      intros H; injection H as <- <- <-; intros Hp;
      [now elim Hp|reflexivity].
  - intros H. now injection H as <- <- <-.
Qed.

(** The receiver writes two columns of the transfer's row and nothing
    else of the transfers table. *)
Lemma handler_transfers now db t o db1 t1 :
  handle_transfer_completion now db t = Ok (o, db1, t1) ->
  ownership_transfers db1 = ownership_transfers db
  \/ exists c,
       ownership_transfers db1
       = update_row OwnershipTransfer.id (OwnershipTransfer.id t)
           (OwnershipTransfer.set_processed true c) (ownership_transfers db).
Proof.
  intros H.
  assert (Hcases : o = Processed \/ o <> Processed)
    by (destruct o; auto; right; discriminate).
  destruct Hcases as [->|Hq].
  - right. apply handler_processed_inv in H.
    destruct H as (_ & _ & buyer & seller & dbL & _ & _ & _ & HL & Hm).
    apply mark_processed_frame in Hm.
    destruct Hm as (_ & _ & _ & _ & _ & Hm).
    apply settle_ledger_transfers in HL. rewrite HL in Hm. eauto.
  - left. now rewrite (handler_db_unchanged _ _ _ _ _ _ H Hq).
Qed.

Lemma in_write_row_self {A} (pk_of : A -> Z) (row : A) (rows : list A) :
  In row (write_row pk_of row rows).
Proof.
  unfold write_row. destruct (has_pk pk_of (pk_of row) rows) eqn:E.
  - unfold has_pk in E. apply existsb_exists in E.
    destruct E as (x & Hin & Hx). unfold update_row.
    apply in_map_iff. exists x. split; [now rewrite Hx|exact Hin].
  - apply in_or_app. right. now left.
Qed.

(** C5. Fee derivation: every save of a transfer whose amount is a
    column value writes a row in which transfer_fee is
    round(transfer_amount x 0.025, 2) (half-even, as [round] and the
    column's quantisation both round) and net_amount is transfer_amount
    less that fee; both come from transfer_amount alone, whatever fee
    and net amount the instance carried; and that row, with these
    values, is in the table the save leaves. *)
Theorem fee_and_net_are_recomputed now self c :
  OwnershipTransfer.transfer_amount self = Dec.of_cents c ->
  Z.abs c < 10 ^ 15 ->
  is_percentage (OwnershipTransfer.percentage self) ->
  exists row,
    OwnershipTransfer_to_row now (OwnershipTransfer_pre_save now self) = Ok row
    /\ OwnershipTransfer.id row = OwnershipTransfer.id self
    /\ OwnershipTransfer.transfer_amount row
       = OwnershipTransfer.transfer_amount self
    /\ OwnershipTransfer.transfer_fee row
       = Dec.round2 (Dec.mul (OwnershipTransfer.transfer_amount self)
                             Dec.fee_rate)
    /\ OwnershipTransfer.net_amount row
       = Dec.sub (OwnershipTransfer.transfer_amount row)
                 (OwnershipTransfer.transfer_fee row)
    /\ (forall fee net,
          OwnershipTransfer_to_row now
            (OwnershipTransfer_pre_save now
               (OwnershipTransfer.set_fees fee net self)) = Ok row)
    /\ (forall db db' self',
          OwnershipTransfer_save now db self = Ok (db', self') ->
          exists row',
            In row' (ownership_transfers db')
            /\ OwnershipTransfer.id row' = OwnershipTransfer.id row
            /\ OwnershipTransfer.transfer_amount row'
               = OwnershipTransfer.transfer_amount row
            /\ OwnershipTransfer.transfer_fee row'
               = OwnershipTransfer.transfer_fee row
            /\ OwnershipTransfer.net_amount row'
               = OwnershipTransfer.net_amount row).
Proof.
  intros Ha Hc Hpc.
  (* the row a save writes, for any fee and net amount carried *)
  assert (Hrow : forall x,
             OwnershipTransfer.transfer_amount x = Dec.of_cents c ->
             OwnershipTransfer.percentage x = OwnershipTransfer.percentage self ->
             exists pc,
               to_column_opt 5 (OwnershipTransfer.percentage self) = Ok pc
               /\ OwnershipTransfer_to_row now (OwnershipTransfer_pre_save now x)
                  = Ok (OwnershipTransfer.mk
                          (OwnershipTransfer.id x)
                          (OwnershipTransfer.investment x)
                          (OwnershipTransfer.from_user x)
                          (OwnershipTransfer.to_user x)
                          (OwnershipTransfer.to_email x)
                          (OwnershipTransfer.to_name x)
                          (OwnershipTransfer.transfer_type x) pc
                          (Dec.of_cents c)
                          (Dec.of_cents (Dec.div_half_even (25 * c) 1000))
                          (Dec.of_cents (c - Dec.div_half_even (25 * c) 1000))
                          (OwnershipTransfer.reason x)
                          (OwnershipTransfer.status x)
                          (OwnershipTransfer.is_processed x)
                          (OwnershipTransfer.initiated_date x)
                          (OwnershipTransfer.completion_date x)
                          (OwnershipTransfer.estimated_completion_date
                             (OwnershipTransfer_pre_save now x))
                          (OwnershipTransfer.created_at x) now)).
  { intros x Hxa Hxp.
    assert (Hpcol : exists pc,
               to_column_opt 5 (OwnershipTransfer.percentage self) = Ok pc).
    { destruct (OwnershipTransfer.percentage self) as [p|]; [|now exists None].
      destruct p as [pcf pe]. destruct Hpc as [Hpe Hpb]. simpl in Hpe, Hpb.
      subst pe. exists (Some (Dec.of_cents pcf)). simpl.
      change (Dec.mk pcf (-2)) with (Dec.of_cents pcf).
      now rewrite to_column_cents. }
    destruct Hpcol as (pc & Hpcol). exists pc. split; [exact Hpcol|].
    destruct (pre_save_fees now x c Hxa Hc) as (Hfee & Hnet).
    pose proof (OwnershipTransfer_pre_save_fields now x) as F.
    cbv zeta in F.
    destruct F as (Fid & Finv & Fst & Fp & Fc & Fto & Fty & Fam & Fpc).
    unfold OwnershipTransfer_to_row.
    rewrite Fpc, Hxp, Hpcol, Fam, Hxa, Hfee, Hnet. cbn [bind].
    rewrite to_column_cents by exact Hc. cbn [bind].
    assert (Hq : forall n, Z.abs n <= 1000 * Z.abs c ->
                 to_column 15 (Dec.mk n (-5))
                 = Ok (Dec.of_cents (Dec.div_half_even n 1000))).
    { intros n Hn. unfold to_column, Dec.quantize2. cbn [Dec.coef Dec.expo].
      change (-2 <=? -5)%Z with false. change (10 ^ (-2 - -5)) with 1000.
      pose proof (div_half_even_bound n 1000 (Z.abs c) ltac:(lia) Hn) as Hb.
      destruct (Z.abs _ <? _)%Z eqn:E; [reflexivity|].
      apply Z.ltb_ge in E. lia. }
    rewrite !Hq by lia. cbn [bind].
    rewrite net_rounds_with_fee, Fid, Finv, Fst, Fp, Fc, Fto, Fty.
    unfold OwnershipTransfer_pre_save.
    destruct (OwnershipTransfer.estimated_completion_date
                (OwnershipTransfer.set_fees _ _ x));
      [|destruct (OwnershipTransfer.status (OwnershipTransfer.set_fees _ _ x))];
      reflexivity. }
  destruct (Hrow self Ha eq_refl) as (pc & Hpcol & Hself).
  eexists. split; [exact Hself|].
  cbn [OwnershipTransfer.id OwnershipTransfer.transfer_amount
       OwnershipTransfer.transfer_fee OwnershipTransfer.net_amount].
  assert (Hfb : Z.abs (Dec.div_half_even (25 * c) 1000) < 10 ^ 15).
  { pose proof (div_half_even_bound (25 * c) 1000 (Z.abs c)
                  ltac:(lia) ltac:(lia)). lia. }
  repeat split.
  - now rewrite Ha.
  - rewrite Ha. unfold Dec.round2, Dec.mul, Dec.of_cents, Dec.fee_rate.
    cbn [Dec.coef Dec.expo]. change (-2 + -3) with (-5).
    replace (c * 25) with (25 * c) by lia.
    rewrite fix_small
      by (rewrite pow10_15 in *; change (10 ^ 4) with 10000; lia).
    reflexivity.
  - now rewrite sub_cents.
  - intros fee net.
    destruct (Hrow (OwnershipTransfer.set_fees fee net self) Ha eq_refl)
      as (pc' & Hpcol' & Hx).
    rewrite Hpcol in Hpcol'. injection Hpcol' as <-.
    rewrite Hx. reflexivity.
  - intros db db' self' Hsave. unfold OwnershipTransfer_save in Hsave.
    rewrite Hself in Hsave. cbn [bind] in Hsave.
    bind_inv Hsave. destruct x as [[o dbh] th].
    injection Hsave as <- <-.
    match type of H with
    | handle_transfer_completion _ (set_ownership_transfers (write_row _ ?r _) _) _ = _ =>
        set (row := r) in *
    end.
    apply handler_transfers in H. cbn [ownership_transfers set_ownership_transfers] in H.
    destruct H as [->|(cd & ->)].
    + exists row. split; [apply in_write_row_self|]. repeat split.
    + exists (OwnershipTransfer.set_processed true cd row). split.
      * unfold update_row. apply in_map_iff. exists row. split.
        -- pose proof (OwnershipTransfer_pre_save_fields now self) as F.
           cbv zeta in F. destruct F as (Fid & _).
           replace (OwnershipTransfer.id row =? _)%Z with true; [reflexivity|].
           symmetry. apply Z.eqb_eq. subst row. simpl. now rewrite Fid.
        -- apply in_write_row_self.
      * repeat split.
Qed.

Lemma fee_and_net_are_recomputed_witness :
  exists row,
    OwnershipTransfer_to_row Sample.now
      (OwnershipTransfer_pre_save Sample.now
         (OwnershipTransfer.set_fees (Dec.of_cents 777) (Dec.of_cents (-1))
            (Sample.transfer PARTIAL 20 DRAFT))) = Ok row
    /\ OwnershipTransfer.transfer_fee row = Dec.of_cents 0
    /\ OwnershipTransfer.net_amount row = Dec.of_cents 20.
Proof.
  destruct (fee_and_net_are_recomputed Sample.now
              (Sample.transfer PARTIAL 20 DRAFT) 20)
    as (row & _ & _ & Hamt & Hfee & Hnet & Hany & _).
  - reflexivity.
  - rewrite pow10_15. reflexivity.
  - split; [reflexivity|]. reflexivity.
  - exists row. split; [apply Hany|].
    rewrite Hnet, Hfee, Hamt. split; reflexivity.
Defined.

(** ** The transfer row a save writes *)

(** The row a full save writes for a transfer whose decimal columns hold
    column values: the save goes through, and the row carries the
    instance's own fields. *)
Lemma transfer_row_written now x :
  transfer_columns x ->
  exists row,
    OwnershipTransfer_to_row now (OwnershipTransfer_pre_save now x) = Ok row
    /\ OwnershipTransfer.id row = OwnershipTransfer.id x
    /\ OwnershipTransfer.investment row = OwnershipTransfer.investment x
    /\ OwnershipTransfer.from_user row = OwnershipTransfer.from_user x
    /\ OwnershipTransfer.to_user row = OwnershipTransfer.to_user x
    /\ OwnershipTransfer.status row = OwnershipTransfer.status x
    /\ OwnershipTransfer.is_processed row = OwnershipTransfer.is_processed x
    /\ OwnershipTransfer.transfer_amount row
       = OwnershipTransfer.transfer_amount x
    /\ OwnershipTransfer.percentage row = OwnershipTransfer.percentage x
    /\ OwnershipTransfer.estimated_completion_date row
       = OwnershipTransfer.estimated_completion_date
           (OwnershipTransfer_pre_save now x).
Proof.
  intros (Hm & Hpc).
  pose proof (is_money_eq _ Hm) as Ha. destruct Hm as (_ & Hc).
  change (Dec.coef (OwnershipTransfer.transfer_amount x))
    with (cents (OwnershipTransfer.transfer_amount x)) in Hc.
  set (c := cents (OwnershipTransfer.transfer_amount x)) in *.
  clearbody c.
  destruct (pre_save_fees now x c Ha Hc) as (Hfee & Hnet).
  pose proof (OwnershipTransfer_pre_save_fields now x) as F.
  cbv zeta in F.
  destruct F as (Fid & Finv & Fst & Fp & Fc & Fto & Fty & Fam & Fpc).
  assert (Hpcol : to_column_opt 5 (OwnershipTransfer.percentage x)
                  = Ok (OwnershipTransfer.percentage x)).
  { destruct (OwnershipTransfer.percentage x) as [p|]; [|reflexivity].
    destruct p as [pcf pe]. destruct Hpc as [Hpe Hpb]. simpl in Hpe, Hpb.
    subst pe. simpl. change (Dec.mk pcf (-2)) with (Dec.of_cents pcf).
    now rewrite to_column_cents. }
  assert (Hq : forall n, Z.abs n <= 1000 * Z.abs c ->
               to_column 15 (Dec.mk n (-5))
               = Ok (Dec.of_cents (Dec.div_half_even n 1000))).
  { intros n Hn. unfold to_column, Dec.quantize2. cbn [Dec.coef Dec.expo].
    change (-2 <=? -5)%Z with false. change (10 ^ (-2 - -5)) with 1000.
    pose proof (div_half_even_bound n 1000 (Z.abs c) ltac:(lia) Hn) as Hb.
    destruct (Z.abs _ <? _)%Z eqn:E; [reflexivity|].
    apply Z.ltb_ge in E. lia. }
  eexists. split.
  - unfold OwnershipTransfer_to_row.
    rewrite Fpc, Hpcol, Fam, Ha, Hfee, Hnet. cbn [bind].
    rewrite to_column_cents by exact Hc. cbn [bind].
    rewrite !Hq by lia. cbn [bind]. reflexivity.
  - cbn [OwnershipTransfer.id OwnershipTransfer.investment
         OwnershipTransfer.from_user OwnershipTransfer.to_user
         OwnershipTransfer.status OwnershipTransfer.is_processed
         OwnershipTransfer.transfer_amount OwnershipTransfer.percentage
         OwnershipTransfer.estimated_completion_date].
    rewrite Fid, Finv, Fst, Fp, Fto.
    assert (Ffrom : OwnershipTransfer.from_user (OwnershipTransfer_pre_save now x)
                    = OwnershipTransfer.from_user x).
    { unfold OwnershipTransfer_pre_save.
      destruct (OwnershipTransfer.estimated_completion_date
                  (OwnershipTransfer.set_fees _ _ x));
        [|destruct (OwnershipTransfer.status (OwnershipTransfer.set_fees _ _ x))];
        reflexivity. }
    rewrite Ffrom. repeat split. now rewrite Ha.
Qed.

(** ** The guard of [complete] *)

Lemma get_queryset_in request db x :
  In x (get_queryset request db) ->
  In x (ownership_transfers db)
  /\ has_pk Investment.id (OwnershipTransfer.investment x) (investments db)
     = true.
Proof.
  unfold get_queryset. destruct (request_user request) as [user|];
    [|contradiction].
  set (q0 := filter _ (ownership_transfers db)).
  set (q1 := match param_status request with
             | Some s => _
             | None => q0
             end).
  intros H.
  assert (H1 : In x q1).
  { destruct (param_direction request) as [d|]; [|exact H].
    revert H. destruct (String.eqb d "outgoing");
      [intros H; now apply filter_In in H|].
    destruct (String.eqb d "incoming");
      [intros H; now apply filter_In in H|auto]. }
  assert (H0 : In x q0).
  { subst q1. destruct (param_status request) as [s|]; [|exact H1].
    revert H1. destruct (String.eqb s ""); [auto|].
    intros H1. now apply filter_In in H1. }
  subst q0. apply filter_In in H0. destruct H0 as [Hin Hp].
  apply andb_true_iff in Hp. tauto.
Qed.

(** With the foreign key resolved, the receiver never raises. *)
Lemma handler_total now db t :
  NoDup (map Investment.id (investments db)) ->
  has_pk Investment.id (OwnershipTransfer.investment t) (investments db) = true ->
  exists o db1 t1, handle_transfer_completion now db t = Ok (o, db1, t1).
Proof.
  intros Hnd Hfk.
  destruct (get_by_pk_present _ _ _ Hnd Hfk) as (seller & Hs).
  unfold handle_transfer_completion.
  destruct (_ || _); [eauto|].
  destruct (OwnershipTransfer.to_user t) as [buyer|]; [|eauto].
  rewrite Hs. cbn [bind].
  destruct (Dec.ltb _ _); [eauto|].
  destruct (settle_ledger now db t buyer seller) as [dbL|e]; [|eauto].
  destruct (mark_processed now dbL t buyer) as [t1' [db2|e]]; eauto.
Qed.

(** The receiver leaves the key and the status of the instance alone. *)
Lemma handler_instance now db t o db1 t1 :
  handle_transfer_completion now db t = Ok (o, db1, t1) ->
  OwnershipTransfer.id t1 = OwnershipTransfer.id t
  /\ OwnershipTransfer.status t1 = OwnershipTransfer.status t.
Proof.
  unfold handle_transfer_completion.
  destruct (_ || _); [intros H; now injection H as <- <- <-|].
  destruct (OwnershipTransfer.to_user t) as [buyer|];
    [|intros H; now injection H as <- <- <-].
  destruct (get_by_pk _ _ _) as [seller|e]; cbn [bind]; [|discriminate].
  destruct (Dec.ltb _ _); [intros H; now injection H as <- <- <-|].
  destruct (settle_ledger now db t buyer seller) as [dbL|e];
    [|intros H; now injection H as <- <- <-].
  destruct (mark_processed now dbL t buyer) as [t1' r] eqn:Em.
  assert (Hinst : OwnershipTransfer.id t1' = OwnershipTransfer.id t
                  /\ OwnershipTransfer.status t1' = OwnershipTransfer.status t).
  { unfold mark_processed, OwnershipTransfer_save_processed in Em.
    injection Em as <- _.
    pose proof (OwnershipTransfer_pre_save_fields now
                  (OwnershipTransfer.set_processed true
                     match OwnershipTransfer.completion_date t with
                     | Some c => Some c
                     | None => Some now
                     end t)) as F.
    cbv zeta in F. destruct F as (Fid & _ & Fst & _).
    rewrite Fid, Fst. split; reflexivity. }
  destruct r; intros H; injection H as <- <- <-; exact Hinst.
Qed.

(** [complete] as a staff caller who is a party to the transfer sees it:
    success from APPROVED, a state error from anything else. *)
Lemma complete_by_staff_party now request db pk transfer :
  schema_ok db ->
  IsAdminUser request = true ->
  get_object request db pk = Ok transfer ->
  (OwnershipTransfer.status transfer = APPROVED ->
   exists db' transfer',
     complete now request db pk
     = Ok (Response_ok "Transfer completed successfully." transfer', db')
     /\ OwnershipTransfer.status transfer' = COMPLETED
     /\ status_of db' pk = Some COMPLETED)
  /\ (OwnershipTransfer.status transfer <> APPROVED ->
      complete now request db pk
      = Ok (Response_error "Only approved transfers can be completed."
              HTTP_400_BAD_REQUEST, db)
      /\ status_of db pk = Some (OwnershipTransfer.status transfer)).
Proof.
  intros (Hndi & Hndt & _ & Hcols) Hadmin Hobj.
  pose proof (get_by_pk_in _ _ _ _ Hobj) as (Hq & Hpk).
  apply get_queryset_in in Hq. destruct Hq as (Hin & Hfk).
  rewrite Forall_forall in Hcols. destruct (Hcols _ Hin) as (Hmoney & Hpc).
  assert (Htable : get_by_pk OwnershipTransfer.id pk (ownership_transfers db)
                   = Ok transfer).
  { assert (Hhas : has_pk OwnershipTransfer.id pk (ownership_transfers db) = true).
    { apply has_pk_in. rewrite <- Hpk. now apply in_map. }
    destruct (get_by_pk_present _ _ _ Hndt Hhas) as (r & Hr).
    pose proof (get_by_pk_in _ _ _ _ Hr) as (Hrin & Hrpk).
    rewrite Hr. f_equal.
    apply (NoDup_pk_eq OwnershipTransfer.id _ r transfer Hndt Hrin Hin).
    congruence. }
  unfold complete. rewrite Hadmin, Hobj. cbn [negb].
  split.
  - intros Hst. rewrite Hst. cbn [TransferStatus_eqb negb].
    set (self := OwnershipTransfer.set_status COMPLETED transfer).
    destruct (transfer_row_written now self) as (row & Hrow & Hrid & _).
    { split; [exact Hmoney|exact Hpc]. }
    unfold OwnershipTransfer_save. rewrite Hrow. cbn [bind].
    set (db_mid := set_ownership_transfers _ db).
    pose proof (OwnershipTransfer_pre_save_fields now self) as F.
    cbv zeta in F. destruct F as (Fid & Finv & Fst & _).
    destruct (handler_total now db_mid (OwnershipTransfer_pre_save now self))
      as (o & db1 & t1 & Hh).
    { exact Hndi. }
    { rewrite Finv. exact Hfk. }
    rewrite Hh. cbn [bind].
    pose proof (handler_instance _ _ _ _ _ _ Hh) as (Hid1 & Hst1).
    exists db1, t1. split; [reflexivity|].
    split; [now rewrite Hst1, Fst|].
    assert (Hrow_st : OwnershipTransfer.status row = COMPLETED).
    { unfold OwnershipTransfer_to_row in Hrow.
      bind_inv Hrow. bind_inv Hrow. bind_inv Hrow. bind_inv Hrow.
      injection Hrow as <-. simpl. now rewrite Fst. }
    assert (Hrow_pk : OwnershipTransfer.id row = pk).
    { rewrite Hrid. subst self. simpl. exact Hpk. }
    assert (Hmid : get_by_pk OwnershipTransfer.id pk (ownership_transfers db_mid)
                   = Ok row).
    { subst db_mid. cbn [ownership_transfers set_ownership_transfers].
      rewrite get_by_pk_write_row, Hrow_pk, Z.eqb_refl.
      destruct (filter_pk_nodup OwnershipTransfer.id pk _ Hndt) as [->|[r ->]];
        reflexivity. }
    unfold status_of.
    destruct (handler_transfers _ _ _ _ _ _ Hh) as [->|(c & ->)].
    + now rewrite Hmid, Hrow_st.
    + rewrite get_by_pk_update_row, Hmid by (intros r Hr; exact Hr).
      destruct (_ =? _)%Z; simpl; now rewrite Hrow_st.
  - intros Hst.
    replace (TransferStatus_eqb (OwnershipTransfer.status transfer) APPROVED)
      with false.
    + cbn [negb]. split; [reflexivity|].
      unfold status_of. now rewrite Htable.
    + symmetry. destruct (TransferStatus_eqb _ APPROVED) eqn:E; [|reflexivity].
      apply TransferStatus_eqb_eq in E. contradiction.
Qed.


(** C7. A privileged caller cannot complete an APPROVED transfer of
    other users: the viewset looks a transfer up among the caller's own
    outgoing and incoming transfers, so a staff user who is neither
    sender nor recipient of the APPROVED transfer 1 is answered "not
    found" and the database, the status included, stays as it was. *)
Lemma staff_outsider_gets_not_found :
  IsAdminUser Sample.as_auditor = true
  /\ status_of Sample.db_approved 1 = Some APPROVED
  /\ complete Sample.now Sample.as_auditor Sample.db_approved 1
     = Ok (NotFound, Sample.db_approved).
Proof. repeat split. Qed.

(** So [complete] does not succeed exactly when the transfer is
    APPROVED, even for a privileged caller. *)
Lemma staff_outsider_cannot_complete :
  ~ complete_succeeds_iff_approved.
Proof.
  intros C.
  destruct (C Sample.now Sample.as_auditor Sample.db_approved 1
              Sample.approved eq_refl eq_refl) as [_ C'].
  destruct (C' eq_refl) as (t' & db' & Hc & _).
  vm_compute in Hc. discriminate Hc.
Qed.

(** X22. [complete] moves a transfer from APPROVED to COMPLETED and
    nothing else: over tables that meet their schema, a staff caller who
    can see an APPROVED transfer gets the success answer and the row is
    left COMPLETED; a staff caller who can see a transfer in any other
    status (PENDING included) gets 400 "Only approved transfers can be
    completed."; every call that does not succeed is answered with that
    state error, "permission denied" or "not found" and leaves the
    database, and so every status, as it was. *)
Theorem complete_guard now request db pk :
  (forall transfer,
     schema_ok db ->
     IsAdminUser request = true ->
     get_object request db pk = Ok transfer ->
     OwnershipTransfer.status transfer = APPROVED ->
     exists db' transfer',
       complete now request db pk
       = Ok (Response_ok "Transfer completed successfully." transfer', db')
       /\ OwnershipTransfer.status transfer' = COMPLETED
       /\ status_of db' pk = Some COMPLETED)
  /\ (forall transfer,
        schema_ok db ->
        IsAdminUser request = true ->
        get_object request db pk = Ok transfer ->
        OwnershipTransfer.status transfer <> APPROVED ->
        complete now request db pk
        = Ok (Response_error "Only approved transfers can be completed."
                HTTP_400_BAD_REQUEST, db)
        /\ status_of db pk = Some (OwnershipTransfer.status transfer))
  /\ (forall resp db',
        complete now request db pk = Ok (resp, db') ->
        (IsAdminUser request = true
         /\ exists transfer transfer',
              get_object request db pk = Ok transfer
              /\ OwnershipTransfer.status transfer = APPROVED
              /\ resp = Response_ok "Transfer completed successfully."
                                    transfer')
        \/ (db' = db
            /\ (resp = PermissionDenied \/ resp = NotFound
                \/ resp = Response_error
                            "Only approved transfers can be completed."
                            HTTP_400_BAD_REQUEST))).
Proof.
  split; [|split].
  - intros transfer Hs Ha Ho.
    exact (proj1 (complete_by_staff_party now request db pk transfer Hs Ha Ho)).
  - intros transfer Hs Ha Ho.
    exact (proj2 (complete_by_staff_party now request db pk transfer Hs Ha Ho)).
  - intros resp db'. unfold complete.
    destruct (IsAdminUser request); cbn [negb].
    2: { intros H. injection H as <- <-. right. auto. }
    destruct (get_object request db pk) as [transfer|e].
    + destruct (TransferStatus_eqb (OwnershipTransfer.status transfer) APPROVED)
        eqn:E; cbn [negb].
      * apply TransferStatus_eqb_eq in E.
        intros H. bind_inv H. destruct x as [db1 t1].
        injection H as <- <-. left. split; [reflexivity|].
        exists transfer, t1. auto.
      * intros H. injection H as <- <-. right. auto.
    + destruct e; try discriminate.
      intros H. injection H as <- <-. right. auto.
Qed.

Lemma complete_guard_witness :
  exists db' transfer',
    complete Sample.now Sample.as_admin Sample.db_approved 1
    = Ok (Response_ok "Transfer completed successfully." transfer', db')
    /\ OwnershipTransfer.status transfer' = COMPLETED
    /\ status_of db' 1 = Some COMPLETED.
Proof.
  refine (proj1 (complete_guard Sample.now Sample.as_admin Sample.db_approved 1)
            Sample.approved _ _ _ _).
  - repeat split; simpl; repeat constructor; simpl; try tauto;
      try (rewrite pow10_15; simpl; lia); simpl; lia.
  - reflexivity.
  - vm_compute. reflexivity.
  - reflexivity.
Defined.


(** ** Analytics *)

(** C8. XIRR totality and sentinel: on every input the function returns,
    a rate or [None], and raises nothing; it returns [None] when the two
    sequences differ in length, when there are fewer than two points,
    and when the solver (seeded with the guess, 0.1 by default, and
    limited to 100 iterations) raises, as it does when it fails to
    converge; a rate it returns is what the solver returned. *)
Theorem xirr_never_raises {N : Numeric} (dates : list date)
    (cash_flows : list number) (guess : number) :
  (exists r, xirr dates cash_flows guess = Ok r)
  /\ (List.length dates <> List.length cash_flows ->
      xirr dates cash_flows guess = Ok None)
  /\ ((List.length dates < 2)%nat -> xirr dates cash_flows guess = Ok None)
  /\ (forall first_date e,
        min_date dates = Ok first_date ->
        newton (fun r => xnpv r (map (fun d => d - first_date) dates) cash_flows)
               guess 100 = Raise e ->
        xirr dates cash_flows guess = Ok None)
  /\ (forall x,
        xirr dates cash_flows guess = Ok (Some x) ->
        exists first_date,
          min_date dates = Ok first_date
          /\ newton (fun r => xnpv r (map (fun d => d - first_date) dates)
                                cash_flows)
               guess 100 = Ok x).
Proof.
  unfold xirr.
  destruct (Nat.eqb_spec (List.length dates) (List.length cash_flows))
    as [Hlen|Hlen]; cbn [negb].
  2: { repeat split; eauto; discriminate. }
  destruct (Nat.ltb_spec (List.length dates) 2) as [Hshort|Hlong].
  { repeat split; eauto; discriminate. }
  destruct dates as [|d rest]; [simpl in Hlong; lia|].
  cbn [min_date bind].
  set (first := fold_left Z.min rest d).
  destruct (newton _ guess 100) as [x|e] eqn:Hn.
  - split; [eauto|]. split; [contradiction|]. split; [lia|]. split.
    + intros first_date e Hf. injection Hf as <-. fold first. rewrite Hn.
      discriminate.
    + intros y Hy. injection Hy as <-. exists first. split; [reflexivity|].
      exact Hn.
  - split; [eauto|]. split; [contradiction|]. split; [lia|]. split.
    + reflexivity.
    + discriminate.
Qed.

Lemma xirr_never_raises_witness :
  @xirr Sample.no_convergence [20000; 20365] [-100000; 110000] 0 = Ok None.
Proof.
  refine (proj1 (proj2 (proj2 (proj2
            (@xirr_never_raises Sample.no_convergence [20000; 20365]
               [-100000; 110000] 0)))) 20000 RuntimeError _ _);
    reflexivity.
Defined.

(** C9. Empty-portfolio neutrality: for a user none of whose investments
    is ACTIVE or UNDERPERFORMING, the portfolio metrics are returned,
    not raised, and are the all-zero record: the five amounts 0.00 and
    no investments counted. *)
Theorem empty_portfolio_metrics_are_zero {N : Numeric} (now : datetime)
    (db : Database) (user : User.t) :
  (forall i, In i (investments db) ->
             Investment.user i = User.id user ->
             Investment.status i = EXITED) ->
  calculate_portfolio_metrics now db user
  = Ok (mkMetrics Dec.zero2 Dec.zero2 Dec.zero2 Dec.zero2 Dec.zero2 0).
Proof.
  intros Hnone. unfold calculate_portfolio_metrics.
  destruct (filter _ (investments db)) as [|i l] eqn:E; [reflexivity|].
  exfalso.
  assert (Hin : In i (filter (fun i =>
              (Investment.user i =? User.id user)%Z
              && (InvestmentStatus_eqb (Investment.status i) ACTIVE
                  || InvestmentStatus_eqb (Investment.status i) UNDERPERFORMING))
            (investments db)))
    by (rewrite E; now left).
  apply filter_In in Hin. destruct Hin as [Hin Hp].
  apply andb_true_iff in Hp. destruct Hp as [Hu Hs].
  apply Z.eqb_eq in Hu. rewrite (Hnone i Hin Hu) in Hs. discriminate.
Qed.

Lemma empty_portfolio_metrics_are_zero_witness :
  @calculate_portfolio_metrics Sample.no_convergence Sample.now
    Sample.db_exited_only Sample.investor
  = Ok (mkMetrics Dec.zero2 Dec.zero2 Dec.zero2 Dec.zero2 Dec.zero2 0).
Proof.
  apply (@empty_portfolio_metrics_are_zero Sample.no_convergence).
  intros i Hi _. simpl in Hi. destruct Hi as [<-|[]]. reflexivity.
Defined.

(** Rounding keeps the sign. *)
Lemma div_half_even_nonneg (n d : Z) :
  0 <= n -> 0 <= d -> 0 <= Dec.div_half_even n d.
Proof.
  intros Hn Hd. unfold Dec.div_half_even.
  pose proof (Z.div_pos n d) as Hq.
  assert (0 <= n / d).
  { destruct (Z.eq_dec d 0) as [->|]; [now rewrite Z.div_0_r|apply Hq; lia]. }
  destruct (2 * (n mod d) ?= d)%Z; [destruct (Z.even (n / d))| |]; lia.
Qed.

Lemma div_half_even_nonpos (n d : Z) :
  n <= 0 -> 0 <= d -> Dec.div_half_even n d <= 0.
Proof.
  intros Hn Hd. unfold Dec.div_half_even.
  destruct (Z.eq_dec d 0) as [->|Hd0].
  - rewrite Z.div_0_r, Z.mod_0_r.
    destruct (Z.compare_spec (2 * n) 0); cbn; lia.
  - pose proof (Z.div_mod n d Hd0) as Hdm.
    pose proof (Z.mod_pos_bound n d ltac:(lia)) as Hr.
    destruct (Z.eq_dec n 0) as [->|Hn0].
    + rewrite Z.div_0_l, Z.mod_0_l by exact Hd0.
      destruct (Z.compare_spec (2 * 0) d); cbn; lia.
    + assert (n / d <= -1) by nia.
      destruct (2 * (n mod d) ?= d)%Z; [destruct (Z.even (n / d))| |]; lia.
Qed.

Lemma fix_nonneg (d : Decimal) :
  0 <= Dec.coef d -> 0 <= Dec.coef (Dec.fix_ d).
Proof.
  intros H. unfold Dec.fix_.
  destruct (_ <? _)%Z; [exact H|].
  assert (Hc : 0 <= Dec.div_half_even (Dec.coef d)
                      (10 ^ (Dec.digits (Dec.coef d) - Dec.prec)))
    by (apply div_half_even_nonneg; [exact H|apply Z.pow_nonneg; lia]).
  destruct (_ <? _)%Z; simpl; [exact Hc|].
  apply Z.div_pos; lia.
Qed.

Lemma fix_nonpos (d : Decimal) :
  Dec.coef d <= 0 -> Dec.coef (Dec.fix_ d) <= 0.
Proof.
  intros H. unfold Dec.fix_.
  destruct (_ <? _)%Z; [exact H|].
  assert (Hc : Dec.div_half_even (Dec.coef d)
                 (10 ^ (Dec.digits (Dec.coef d) - Dec.prec)) <= 0)
    by (apply div_half_even_nonpos; [exact H|apply Z.pow_nonneg; lia]).
  destruct (_ <? _)%Z; simpl; [exact Hc|].
  pose proof (Z.div_mod (Dec.div_half_even (Dec.coef d)
                (10 ^ (Dec.digits (Dec.coef d) - Dec.prec))) 10 ltac:(lia)).
  pose proof (Z.mod_pos_bound (Dec.div_half_even (Dec.coef d)
                (10 ^ (Dec.digits (Dec.coef d) - Dec.prec))) 10 ltac:(lia)).
  lia.
Qed.

Lemma abs_neg (a : Decimal) : Dec.abs (Dec.neg a) = Dec.abs a.
Proof. unfold Dec.abs, Dec.neg. simpl. now rewrite Z.abs_opp. Qed.

(** Sorting by date commutes with any change of the rows that keeps
    their dates. *)
Lemma insert_by_date_map (f : CapitalActivity.t -> CapitalActivity.t) a l :
  (forall x, CapitalActivity.date_ (f x) = CapitalActivity.date_ x) ->
  insert_by_date (f a) (map f l) = map f (insert_by_date a l).
Proof.
  intros Hf. induction l as [|b l IH]; simpl; [reflexivity|].
  rewrite !Hf. destruct (_ <? _)%Z; simpl; [reflexivity|now rewrite IH].
Qed.

Lemma order_by_date_map (f : CapitalActivity.t -> CapitalActivity.t) l :
  (forall x, CapitalActivity.date_ (f x) = CapitalActivity.date_ x) ->
  order_by_date (map f l) = map f (order_by_date l).
Proof.
  intros Hf. unfold order_by_date.
  change (@nil CapitalActivity.t) with (map f []) at 1.
  generalize (@nil CapitalActivity.t) as acc.
  induction l as [|a l IH]; intros acc; simpl; [reflexivity|].
  rewrite insert_by_date_map by exact Hf. apply IH.
Qed.

Lemma insert_by_date_in a b l :
  In b (insert_by_date a l) <-> b = a \/ In b l.
Proof.
  induction l as [|x l IH]; simpl.
  - split; intros [H|H]; auto; contradiction.
  - destruct (_ <? _)%Z; simpl; [|rewrite IH]; intuition congruence.
Qed.

Lemma order_by_date_in b l : In b (order_by_date l) <-> In b l.
Proof.
  unfold order_by_date.
  assert (G : forall acc, In b (fold_left (fun acc a => insert_by_date a acc) l acc)
                          <-> In b l \/ In b acc).
  { induction l as [|a l IH]; intros acc; simpl; [tauto|].
    rewrite IH, insert_by_date_in. intuition congruence. }
  rewrite G. simpl. tauto.
Qed.

(** The flow of a stored amount is the signed amount. *)
Lemma cash_flow_of_stored {N : Numeric} (a : CapitalActivity.t) :
  is_money (CapitalActivity.amount a) ->
  cash_flow_of a = float_of_decimal (signed_flow a).
Proof.
  intros [He Hc]. unfold cash_flow_of, signed_flow.
  destruct (CapitalActivity.amount a) as [c e].
  cbn [Dec.coef Dec.expo] in *. subst e.
  unfold Dec.abs, Dec.neg. cbn [Dec.coef Dec.expo].
  assert (Hs : Z.abs (Z.abs c) < 10 ^ 15 * 10 ^ 4).
  { rewrite pow10_15 in *. change (10 ^ 4) with 10000. lia. }
  rewrite (fix_small (Z.abs c) (-2) Hs). cbn [Dec.coef Dec.expo].
  rewrite (fix_small (- Z.abs c) (-2)) by (rewrite Z.abs_opp; exact Hs).
  destruct (CapitalActivity.activity_type a); reflexivity.
Qed.

(** C10. IRR sign normalisation.  Over a ledger of stored amounts, the
    cash flow an activity contributes is exactly -|amount| for
    INITIAL_INVESTMENT and CAPITAL_CALL and +|amount| for DISTRIBUTION
    and PARTIAL_EXIT, whatever the sign of the stored amount; the IRR of
    an investment with activities is what [xirr] (seeded with 0.1)
    returns, times 100 and rounded to two places, on these flows in
    date order followed by the investment's current value, unnegated
    and dated today, and 0.00 when [xirr] returns nothing or anything
    raises; so the IRR is the same over two ledgers that differ only in
    the signs of stored amounts. *)
Theorem irr_ignores_stored_sign {N : Numeric} (now : datetime)
    (db : Database) (investment : Investment.t)
    (flip : CapitalActivity.t -> bool) :
  ledger_columns db ->
  (forall a, In a (capital_activities db) ->
             cash_flow_of a = float_of_decimal (signed_flow a)
             /\ cash_flow_of (with_amount (Dec.neg (CapitalActivity.amount a)) a)
                = float_of_decimal (signed_flow a))
  /\ calculate_investment_irr now db investment
     = match capital_activities_of db investment with
       | [] => Dec.zero2
       | activities =>
           match
             xirr (map CapitalActivity.date_ activities ++ [date_of now])%list
                  (map float_of_decimal (normalized_flows investment activities))
                  float_tenth
           with
           | Ok (Some irr) =>
               match decimal_of_rounded (num_mul irr (float_of_int 100)) with
               | Ok d => d
               | Raise _ => Dec.zero2
               end
           | Ok None | Raise _ => Dec.zero2
           end
       end
  /\ calculate_investment_irr now (negate_amounts flip db) investment
     = calculate_investment_irr now db investment.
Proof.
  intros Hcols.
  assert (Hneg : forall a,
             cash_flow_of (with_amount (Dec.neg (CapitalActivity.amount a)) a)
             = cash_flow_of a).
  { intros a. unfold cash_flow_of, with_amount.
    cbn [CapitalActivity.activity_type CapitalActivity.amount].
    now rewrite abs_neg. }
  assert (Hflow : forall a, In a (capital_activities db) ->
                            cash_flow_of a = float_of_decimal (signed_flow a)).
  { intros a Ha. apply cash_flow_of_stored.
    unfold ledger_columns in Hcols. rewrite Forall_forall in Hcols.
    now apply Hcols. }
  split; [|split].
  - intros a Ha. split; [now apply Hflow|]. rewrite Hneg. now apply Hflow.
  - unfold calculate_investment_irr.
    assert (Hsub : forall a, In a (capital_activities_of db investment) ->
                             In a (capital_activities db)).
    { intros a Ha. unfold capital_activities_of in Ha.
      apply order_by_date_in, filter_In in Ha. tauto. }
    destruct (capital_activities_of db investment) as [|a0 l] eqn:E;
      [reflexivity|].
    unfold cash_flow_series, normalized_flows.
    rewrite (map_ext_in cash_flow_of (fun a => float_of_decimal (signed_flow a)))
      by (intros a Ha; apply Hflow, Hsub, Ha).
    rewrite map_app, map_map. cbn [map].
    destruct (xirr _ _ float_tenth) as [[irr|]|e]; cbn [bind];
      try reflexivity.
  - set (g := fun a => if flip a
                       then with_amount (Dec.neg (CapitalActivity.amount a)) a
                       else a).
    assert (Hg_date : forall a, CapitalActivity.date_ (g a)
                                = CapitalActivity.date_ a)
      by (intros a; unfold g; destruct (flip a); reflexivity).
    assert (Hg_inv : forall a, CapitalActivity.investment (g a)
                               = CapitalActivity.investment a)
      by (intros a; unfold g; destruct (flip a); reflexivity).
    assert (Hg_flow : forall a, cash_flow_of (g a) = cash_flow_of a)
      by (intros a; unfold g; destruct (flip a); [apply Hneg|reflexivity]).
    assert (Hacts : capital_activities_of (negate_amounts flip db) investment
                    = map g (capital_activities_of db investment)).
    { unfold capital_activities_of, negate_amounts. simpl. fold g.
      rewrite filter_map_commute by (intros a; now rewrite Hg_inv).
      now apply order_by_date_map. }
    unfold calculate_investment_irr. rewrite Hacts.
    destruct (capital_activities_of db investment) as [|a l]; [reflexivity|].
    unfold cash_flow_series.
    rewrite !map_map.
    rewrite (map_ext _ _ Hg_date), (map_ext _ _ Hg_flow).
    reflexivity.
Qed.

Lemma irr_ignores_stored_sign_witness :
  let call := CapitalActivity.mk 1 1 CAPITAL_CALL (Dec.of_cents 500000)
                20000 "" Sample.now in
  let payout := CapitalActivity.mk 2 1 DISTRIBUTION (Dec.of_cents (-120000))
                  20100 "" Sample.now in
  let db := set_capital_activities [call; payout] Sample.db_partial in
  @cash_flow_of Sample.no_convergence call = (-500000)%Z
  /\ @cash_flow_of Sample.no_convergence
       (with_amount (Dec.neg (CapitalActivity.amount call)) call)
     = (-500000)%Z
  /\ @cash_flow_of Sample.no_convergence payout = 120000%Z
  /\ @calculate_investment_irr Sample.no_convergence Sample.now
       (negate_amounts (fun _ => true) db)
       (Sample.holding 1 1 ACTIVE 5000000 5000000)
     = @calculate_investment_irr Sample.no_convergence Sample.now db
         (Sample.holding 1 1 ACTIVE 5000000 5000000).
Proof.
  intros call payout db.
  destruct (@irr_ignores_stored_sign Sample.no_convergence Sample.now db
              (Sample.holding 1 1 ACTIVE 5000000 5000000) (fun _ => true))
    as (Hflows & _ & Hirr).
  - repeat constructor; rewrite pow10_15; simpl; lia.
  - destruct (Hflows call (or_introl eq_refl)) as [H1 H2].
    destruct (Hflows payout (or_intror (or_introl eq_refl))) as [H3 _].
    split; [exact H1|]. split; [exact H2|]. split; [exact H3|exact Hirr].
Defined.

(** ** The repository's own scenarios *)

(** investments/tests.py, [test_transfer_completion_signal], and the
    example scenario of the specification: a PENDING transfer of
    10000.00 out of a 50000.00 position is saved as COMPLETED. *)
Example test_transfer_completion_signal :
  match
    OwnershipTransfer_save Sample.now
      (Sample.database [Sample.holding 1 1 ACTIVE 5000000 5000000]
         (Sample.transfer PARTIAL 1000000 PENDING))
      (OwnershipTransfer.set_status COMPLETED
         (Sample.transfer PARTIAL 1000000 PENDING))
  with
  | Ok (db, transfer) =>
      map (fun i => (Investment.user i, Investment.status i,
                     Investment.total_invested i, Investment.current_value i))
          (investments db)
      = [(1, ACTIVE, Dec.of_cents 4000000, Dec.of_cents 4000000);
         (2, ACTIVE, Dec.of_cents 1000000, Dec.of_cents 1000000)]
      /\ map (fun a => (CapitalActivity.investment a,
                        CapitalActivity.activity_type a,
                        CapitalActivity.amount a))
             (capital_activities db)
         = [(1, PARTIAL_EXIT, Dec.of_cents 1000000);
            (2, INITIAL_INVESTMENT, Dec.of_cents (-1000000))]
      /\ OwnershipTransfer.is_processed transfer = true
      /\ OwnershipTransfer.transfer_fee transfer = Dec.mk 25000000 (-5)
      /\ map (fun x => (OwnershipTransfer.status x,
                        OwnershipTransfer.is_processed x,
                        OwnershipTransfer.transfer_fee x,
                        OwnershipTransfer.net_amount x))
             (ownership_transfers db)
         = [(COMPLETED, true, Dec.of_cents 25000, Dec.of_cents 975000)]
  | Raise _ => False
  end.
Proof. vm_compute. repeat split. Qed.

(** A seller whose cost basis differs from the value: a third of the
    value leaves, and a third of the cost basis with it, rounded to the
    cent when the row is written. *)
Example partial_transfer_moves_cost_basis :
  match
    handle_transfer_completion Sample.now
      (Sample.database [Sample.holding 1 1 ACTIVE 1000000 3000000]
         Sample.partial)
      Sample.partial
  with
  | Ok (Processed, db, _) =>
      map (fun i => (Investment.total_invested i, Investment.current_value i))
          (investments db)
      = [(Dec.of_cents 666667, Dec.of_cents 2000000);
         (Dec.of_cents 1000000, Dec.of_cents 1000000)]
  | _ => False
  end.
Proof. vm_compute. reflexivity. Qed.

(** A transfer to an unregistered recipient is never settled. *)
Example external_recipient_is_skipped :
  let t :=
    OwnershipTransfer.mk 1 1 Sample.investor None "buyer@example.com" ""
      PARTIAL (Some (Dec.of_cents 2000)) (Dec.of_cents 1000000) Dec.zero2
      Dec.zero2 "Deal" COMPLETED false 1700000000 None None 1700000000
      1700000000 in
  handle_transfer_completion Sample.now Sample.db_partial t
  = Ok (NoBuyer, Sample.db_partial, t).
Proof. reflexivity. Qed.

(** Owner actions: [submit] moves a DRAFT to PENDING and dates its
    estimated completion ten days ahead. *)
Example submit_draft :
  match
    submit Sample.now Sample.as_investor
      (Sample.database [Sample.holding 1 1 ACTIVE 5000000 5000000]
         (Sample.transfer PARTIAL 1000000 DRAFT)) 1
  with
  | Ok (Response_ok _ transfer, db) =>
      OwnershipTransfer.status transfer = PENDING
      /\ OwnershipTransfer.estimated_completion_date transfer
         = Some (Sample.now + 864000)
      /\ status_of db 1 = Some PENDING
  | _ => False
  end.
Proof. vm_compute. repeat split. Qed.

(** ** The status operations *)

Lemma OwnershipTransfer_to_row_fields now y row :
  OwnershipTransfer_to_row now y = Ok row ->
  OwnershipTransfer.id row = OwnershipTransfer.id y
  /\ OwnershipTransfer.investment row = OwnershipTransfer.investment y
  /\ OwnershipTransfer.from_user row = OwnershipTransfer.from_user y
  /\ OwnershipTransfer.to_user row = OwnershipTransfer.to_user y
  /\ OwnershipTransfer.status row = OwnershipTransfer.status y
  /\ OwnershipTransfer.is_processed row = OwnershipTransfer.is_processed y
  /\ OwnershipTransfer.estimated_completion_date row
     = OwnershipTransfer.estimated_completion_date y.
Proof.
  unfold OwnershipTransfer_to_row. intros H.
  bind_inv H. bind_inv H. bind_inv H. bind_inv H.
  injection H as <-. repeat split.
Qed.

Lemma OwnershipTransfer_pre_save_from now x :
  OwnershipTransfer.from_user (OwnershipTransfer_pre_save now x)
  = OwnershipTransfer.from_user x.
Proof.
  unfold OwnershipTransfer_pre_save.
  destruct (OwnershipTransfer.estimated_completion_date
              (OwnershipTransfer.set_fees _ _ x));
    [|destruct (OwnershipTransfer.status (OwnershipTransfer.set_fees _ _ x))];
    reflexivity.
Qed.

(** A save of a transfer that is not COMPLETED writes its row and
    nothing else: the receiver returns at its first test. *)
Lemma save_skips now db x :
  OwnershipTransfer.status x <> COMPLETED ->
  OwnershipTransfer_save now db x
  = (row <- OwnershipTransfer_to_row now (OwnershipTransfer_pre_save now x) ;;
     Ok (set_ownership_transfers
           (write_row OwnershipTransfer.id row (ownership_transfers db)) db,
         OwnershipTransfer_pre_save now x)).
Proof.
  intros Hst. unfold OwnershipTransfer_save.
  destruct (OwnershipTransfer_to_row now (OwnershipTransfer_pre_save now x))
    as [row|e]; cbn [bind]; [|reflexivity].
  unfold handle_transfer_completion.
  pose proof (OwnershipTransfer_pre_save_fields now x) as F.
  cbv zeta in F. destruct F as (_ & _ & Fst & _).
  rewrite Fst.
  replace (TransferStatus_eqb (OwnershipTransfer.status x) COMPLETED) with false.
  - reflexivity.
  - symmetry. destruct (TransferStatus_eqb _ COMPLETED) eqn:E; [|reflexivity].
    apply TransferStatus_eqb_eq in E. contradiction.
Qed.

(** The status column after a save: the saved transfer has the status
    of the instance, every other transfer the one it had. *)
Lemma save_status_of now db x db' x' :
  NoDup (map OwnershipTransfer.id (ownership_transfers db)) ->
  OwnershipTransfer_save now db x = Ok (db', x') ->
  forall pk',
    status_of db' pk'
    = if (OwnershipTransfer.id x =? pk')%Z
      then Some (OwnershipTransfer.status x)
      else status_of db pk'.
Proof.
  intros Hnd Hsave pk'. unfold OwnershipTransfer_save in Hsave.
  bind_inv Hsave. rename x0 into row. rename H into Hrow.
  bind_inv Hsave. destruct x0 as [[o dbh] th]. injection Hsave as <- <-.
  apply OwnershipTransfer_to_row_fields in Hrow.
  destruct Hrow as (Rid & _ & _ & _ & Rst & _).
  pose proof (OwnershipTransfer_pre_save_fields now x) as F.
  cbv zeta in F. destruct F as (Fid & _ & Fst & _).
  rewrite Fid in Rid. rewrite Fst in Rst.
  assert (Hmid : get_by_pk OwnershipTransfer.id pk'
                   (write_row OwnershipTransfer.id row (ownership_transfers db))
                 = if (OwnershipTransfer.id x =? pk')%Z then Ok row
                   else get_by_pk OwnershipTransfer.id pk' (ownership_transfers db)).
  { rewrite get_by_pk_write_row, Rid.
    destruct (_ =? _)%Z; [|reflexivity].
    destruct (filter_pk_nodup OwnershipTransfer.id pk' _ Hnd) as [->|[r ->]];
      reflexivity. }
  unfold status_of.
  apply handler_transfers in H.
  cbn [ownership_transfers set_ownership_transfers] in H.
  destruct H as [->|(c & ->)].
  - rewrite Hmid. destruct (_ =? _)%Z; [now rewrite Rst|reflexivity].
  - rewrite get_by_pk_update_row, Hmid by (intros r Hr; exact Hr).
    destruct (OwnershipTransfer.id x =? pk')%Z.
    + destruct (_ =? _)%Z; simpl; now rewrite Rst.
    + destruct (get_by_pk OwnershipTransfer.id pk' (ownership_transfers db))
        as [r|e]; [|reflexivity].
      destruct (_ =? _)%Z; reflexivity.
Qed.

(** A transfer the viewset hands out is a row of the table, under its
    key. *)
Lemma get_object_row request db pk transfer :
  NoDup (map OwnershipTransfer.id (ownership_transfers db)) ->
  get_object request db pk = Ok transfer ->
  In transfer (ownership_transfers db)
  /\ OwnershipTransfer.id transfer = pk
  /\ get_by_pk OwnershipTransfer.id pk (ownership_transfers db) = Ok transfer.
Proof.
  intros Hndt Hobj.
  pose proof (get_by_pk_in _ _ _ _ Hobj) as (Hq & Hpk).
  apply get_queryset_in in Hq. destruct Hq as (Hin & _).
  split; [exact Hin|]. split; [exact Hpk|].
  assert (Hhas : has_pk OwnershipTransfer.id pk (ownership_transfers db) = true).
  { apply has_pk_in. rewrite <- Hpk. now apply in_map. }
  destruct (get_by_pk_present _ _ _ Hndt Hhas) as (r & Hr).
  pose proof (get_by_pk_in _ _ _ _ Hr) as (Hrin & Hrpk).
  rewrite Hr. f_equal.
  apply (NoDup_pk_eq OwnershipTransfer.id _ r transfer Hndt Hrin Hin).
  congruence.
Qed.

(** The row under a key after that key has been written. *)
Lemma get_by_pk_written {A} (pk_of : A -> Z) (row : A) (rows : list A) :
  NoDup (map pk_of rows) ->
  get_by_pk pk_of (pk_of row) (write_row pk_of row rows) = Ok row.
Proof.
  intros Hnd. rewrite get_by_pk_write_row, Z.eqb_refl.
  destruct (filter_pk_nodup pk_of (pk_of row) _ Hnd) as [->|[r ->]];
    reflexivity.
Qed.




(** X2. [approve] moves a transfer from PENDING to APPROVED and nothing
    else: over tables that meet their schema, a staff caller who can see
    a PENDING transfer gets the success answer and the row is left
    APPROVED; every other call is answered with "permission denied",
    "not found" or 400 "Only pending transfers can be approved." and
    leaves the database as it was. *)
Theorem approve_guard now request db pk :
  (forall transfer,
     schema_ok db ->
     IsAdminUser request = true ->
     get_object request db pk = Ok transfer ->
     OwnershipTransfer.status transfer = PENDING ->
     exists db' transfer' row,
       approve now request db pk
       = Ok (Response_ok "Transfer approved successfully." transfer', db')
       /\ OwnershipTransfer.status transfer' = APPROVED
       /\ get_by_pk OwnershipTransfer.id pk (ownership_transfers db') = Ok row
       /\ OwnershipTransfer.status row = APPROVED
       /\ OwnershipTransfer.is_processed row
          = OwnershipTransfer.is_processed transfer)
  /\ (forall resp db',
        approve now request db pk = Ok (resp, db') ->
        (IsAdminUser request = true
         /\ exists transfer transfer',
              get_object request db pk = Ok transfer
              /\ OwnershipTransfer.status transfer = PENDING
              /\ resp = Response_ok "Transfer approved successfully." transfer')
        \/ (db' = db
            /\ (resp = PermissionDenied \/ resp = NotFound
                \/ resp = Response_error
                            "Only pending transfers can be approved."
                            HTTP_400_BAD_REQUEST))).
Proof.
  split.
  - intros transfer (_ & Hndt & _ & Hcols) Hadmin Hobj Hst.
    destruct (get_object_row _ _ _ _ Hndt Hobj) as (Hin & Hpk & _).
    rewrite Forall_forall in Hcols. pose proof (Hcols _ Hin) as Hc.
    unfold approve. rewrite Hadmin, Hobj, Hst. cbn [negb TransferStatus_eqb].
    set (x := OwnershipTransfer.set_status APPROVED transfer).
    destruct (transfer_row_written now x Hc)
      as (row & Hrow & Rid & _ & _ & _ & Rst & Rp & _).
    rewrite save_skips, Hrow by discriminate. cbn [bind].
    eexists. exists (OwnershipTransfer_pre_save now x), row.
    split; [reflexivity|].
    pose proof (OwnershipTransfer_pre_save_fields now x) as F.
    cbv zeta in F. destruct F as (_ & _ & Fst & _).
    split; [now rewrite Fst|].
    cbn [ownership_transfers set_ownership_transfers].
    split; [|split; [exact Rst|exact Rp]].
    rewrite <- Hpk. change (OwnershipTransfer.id transfer)
      with (OwnershipTransfer.id x). rewrite <- Rid.
    now apply get_by_pk_written.
  - intros resp db'. unfold approve.
    destruct (IsAdminUser request); cbn [negb].
    2: { intros H. injection H as <- <-. right. auto. }
    destruct (get_object request db pk) as [transfer|e].
    + destruct (TransferStatus_eqb (OwnershipTransfer.status transfer) PENDING)
        eqn:E; cbn [negb].
      * apply TransferStatus_eqb_eq in E.
        intros H. bind_inv H. destruct x as [db1 t1].
        injection H as <- <-. left. split; [reflexivity|].
        exists transfer, t1. auto.
      * intros H. injection H as <- <-. right. auto.
    + destruct e; try discriminate.
      intros H. injection H as <- <-. right. auto.
Qed.

Lemma approve_guard_witness :
  exists db' transfer' row,
    approve Sample.now Sample.as_admin
      (Sample.database [Sample.holding 1 1 ACTIVE 5000000 5000000]
         (Sample.transfer PARTIAL 1000000 PENDING)) 1
    = Ok (Response_ok "Transfer approved successfully." transfer', db')
    /\ OwnershipTransfer.status transfer' = APPROVED
    /\ get_by_pk OwnershipTransfer.id 1 (ownership_transfers db') = Ok row
    /\ OwnershipTransfer.status row = APPROVED
    /\ OwnershipTransfer.is_processed row = false.
Proof.
  refine (proj1 (approve_guard Sample.now Sample.as_admin _ 1)
            (Sample.transfer PARTIAL 1000000 PENDING) _ _ _ _).
  - repeat split; simpl; repeat constructor; simpl; try tauto;
      try (rewrite pow10_15; simpl; lia); simpl; lia.
  - reflexivity.
  - vm_compute. reflexivity.
  - reflexivity.
Defined.

(** X3. Cancelling is a soft delete with a guard: the sender of a DRAFT
    or PENDING transfer has its row set to CANCELLED, and no row is
    removed from or added to the table; anyone else is refused, and a
    transfer in any other status gets "Can only cancel draft or pending
    transfers."; a refused call leaves the database as it was. *)
Theorem cancel_guard now request db instance :
  (forall user,
     schema_ok db ->
     request_user request = Some user ->
     In instance (ownership_transfers db) ->
     is_user user (OwnershipTransfer.from_user instance) = true ->
     OwnershipTransfer.status instance = DRAFT
     \/ OwnershipTransfer.status instance = PENDING ->
     exists db' row,
       perform_destroy now request db instance = Ok (None, db')
       /\ get_by_pk OwnershipTransfer.id (OwnershipTransfer.id instance)
            (ownership_transfers db') = Ok row
       /\ OwnershipTransfer.status row = CANCELLED
       /\ map OwnershipTransfer.id (ownership_transfers db')
          = map OwnershipTransfer.id (ownership_transfers db))
  /\ (forall r db',
        perform_destroy now request db instance = Ok (r, db') ->
        (r = None
         /\ exists user,
              request_user request = Some user
              /\ is_user user (OwnershipTransfer.from_user instance) = true
              /\ (OwnershipTransfer.status instance = DRAFT
                  \/ OwnershipTransfer.status instance = PENDING))
        \/ (db' = db
            /\ (r = Some PermissionDenied
                \/ r = Some (ValidationError
                               "Can only cancel draft or pending transfers.")))).
Proof.
  split.
  - intros user (_ & Hndt & _ & Hcols) Hu Hin Hown Hst.
    rewrite Forall_forall in Hcols. pose proof (Hcols _ Hin) as Hc.
    set (x := OwnershipTransfer.set_status CANCELLED instance).
    destruct (transfer_row_written now x Hc)
      as (row & Hrow & Rid & _ & _ & _ & Rst & _).
    assert (Hsave : OwnershipTransfer_save now db x
                    = Ok (set_ownership_transfers
                            (write_row OwnershipTransfer.id row
                               (ownership_transfers db)) db,
                          OwnershipTransfer_pre_save now x)).
    { rewrite save_skips, Hrow by discriminate. reflexivity. }
    assert (Hgoal : exists db' row,
               (' (db, _) <- OwnershipTransfer_save now db x ;; Ok (None, db))
               = Ok (@None Response, db')
               /\ get_by_pk OwnershipTransfer.id (OwnershipTransfer.id instance)
                    (ownership_transfers db') = Ok row
               /\ OwnershipTransfer.status row = CANCELLED
               /\ map OwnershipTransfer.id (ownership_transfers db')
                  = map OwnershipTransfer.id (ownership_transfers db)).
    { rewrite Hsave. cbn [bind]. eexists. exists row.
      split; [reflexivity|].
      cbn [ownership_transfers set_ownership_transfers].
      change (OwnershipTransfer.id instance) with (OwnershipTransfer.id x).
      rewrite <- Rid. split; [now apply get_by_pk_written|].
      split; [exact Rst|].
      rewrite map_pk_write_row.
      replace (has_pk OwnershipTransfer.id (OwnershipTransfer.id row)
                 (ownership_transfers db)) with true; [reflexivity|].
      symmetry. apply has_pk_in. rewrite Rid.
      exact (in_map OwnershipTransfer.id _ instance Hin). }
    unfold perform_destroy. rewrite Hu, Hown. cbn [negb].
    destruct Hst as [-> | ->]; exact Hgoal.
  - intros r db'. unfold perform_destroy.
    destruct (request_user request) as [user|].
    2: { intros H. injection H as <- <-. right. auto. }
    destruct (is_user user (OwnershipTransfer.from_user instance)) eqn:Eo;
      cbn [negb].
    2: { intros H. injection H as <- <-. right. auto. }
    destruct (OwnershipTransfer.status instance) eqn:Est;
      try (intros H; injection H as <- <-; right; auto).
    + intros H. bind_inv H. destruct x as [db1 t1]. injection H as <- <-.
      left. split; [reflexivity|]. exists user. auto.
    + intros H. bind_inv H. destruct x as [db1 t1]. injection H as <- <-.
      left. split; [reflexivity|]. exists user. auto.
Qed.

Lemma cancel_guard_witness :
  exists db' row,
    perform_destroy Sample.now Sample.as_investor
      (Sample.database [Sample.holding 1 1 ACTIVE 5000000 5000000]
         (Sample.transfer PARTIAL 1000000 PENDING))
      (Sample.transfer PARTIAL 1000000 PENDING) = Ok (None, db')
    /\ get_by_pk OwnershipTransfer.id 1 (ownership_transfers db') = Ok row
    /\ OwnershipTransfer.status row = CANCELLED
    /\ map OwnershipTransfer.id (ownership_transfers db') = [1].
Proof.
  refine (proj1 (cancel_guard Sample.now Sample.as_investor _
                   (Sample.transfer PARTIAL 1000000 PENDING))
            Sample.investor _ _ _ _ _).
  - repeat split; simpl; repeat constructor; simpl; try tauto;
      try (rewrite pow10_15; simpl; lia); simpl; lia.
  - reflexivity.
  - left. reflexivity.
  - reflexivity.
  - right. reflexivity.
Defined.

(** A step along the lifecycle leaves a transfer that has reached
    COMPLETED, CANCELLED or REJECTED where it is, and brings none to
    REJECTED. *)
Lemma status_step_terminal db db' pk :
  status_step db db' pk ->
  forall pk',
    (forall s, status_of db pk' = Some s ->
               s = COMPLETED \/ s = CANCELLED \/ s = REJECTED ->
               status_of db' pk' = Some s)
    /\ (status_of db' pk' = Some REJECTED -> status_of db pk' = Some REJECTED).
Proof.
  intros Hstep pk'.
  destruct (Hstep pk') as [Heq|(-> & s0 & s1 & H0 & H1 & Ht)].
  - rewrite Heq. auto.
  - split.
    + intros s Hs Hterm. rewrite H0 in Hs. injection Hs as ->.
      destruct Hterm as [->|[->| ->]]; inversion Ht.
    + intros Hr. rewrite H1 in Hr. injection Hr as ->. inversion Ht.
Qed.

Lemma save_status_step now db x db' x' s :
  NoDup (map OwnershipTransfer.id (ownership_transfers db)) ->
  status_of db (OwnershipTransfer.id x) = Some s ->
  transition s (OwnershipTransfer.status x) ->
  OwnershipTransfer_save now db x = Ok (db', x') ->
  status_step db db' (OwnershipTransfer.id x).
Proof.
  intros Hnd Hold Ht Hsave pk'.
  rewrite (save_status_of _ _ _ _ _ Hnd Hsave pk').
  destruct (_ =? _)%Z eqn:E; [|now left].
  apply Z.eqb_eq in E. subst pk'. right. split; [reflexivity|].
  exists s, (OwnershipTransfer.status x). split; [exact Hold|].
  split; [|exact Ht].
  rewrite (save_status_of _ _ _ _ _ Hnd Hsave). now rewrite Z.eqb_refl.
Qed.

Lemma status_step_refl db pk : status_step db db pk.
Proof. intros pk'. now left. Qed.

(** X4. The four status operations move a transfer only along DRAFT ->
    PENDING -> APPROVED -> COMPLETED, or from DRAFT or PENDING to
    CANCELLED, one step per call, and leave the status of every other
    transfer alone.  So a transfer that is COMPLETED, CANCELLED or
    REJECTED keeps its status under all four, and none of them ever
    produces REJECTED. *)
Theorem status_changes_follow_the_lifecycle now request db pk :
  NoDup (map OwnershipTransfer.id (ownership_transfers db)) ->
  ((forall resp db',
      submit now request db pk = Ok (resp, db') -> status_step db db' pk)
   /\ (forall resp db',
         approve now request db pk = Ok (resp, db') -> status_step db db' pk)
   /\ (forall resp db',
         complete now request db pk = Ok (resp, db') -> status_step db db' pk)
   /\ (forall instance r db',
         get_by_pk OwnershipTransfer.id pk (ownership_transfers db)
         = Ok instance ->
         perform_destroy now request db instance = Ok (r, db') ->
         status_step db db' pk))
  /\ (forall db',
        status_step db db' pk ->
        forall pk',
          (forall s, status_of db pk' = Some s ->
                     s = COMPLETED \/ s = CANCELLED \/ s = REJECTED ->
                     status_of db' pk' = Some s)
          /\ (status_of db' pk' = Some REJECTED ->
              status_of db pk' = Some REJECTED)).
Proof.
  intros Hnd. split; [|intros db'; apply status_step_terminal].
  assert (Hfetched : forall transfer,
             get_object request db pk = Ok transfer ->
             OwnershipTransfer.id transfer = pk
             /\ status_of db pk = Some (OwnershipTransfer.status transfer)).
  { intros transfer Hobj.
    destruct (get_object_row _ _ _ _ Hnd Hobj) as (_ & Hpk & Hrow).
    split; [exact Hpk|]. unfold status_of. now rewrite Hrow. }
  repeat split.
  - intros resp db'. unfold submit.
    destruct (request_user request) as [user|].
    2: { intros H. injection H as _ <-. apply status_step_refl. }
    destruct (get_object request db pk) as [transfer|e] eqn:Hobj.
    2: { destruct e; try discriminate.
         intros H. injection H as _ <-. apply status_step_refl. }
    destruct (Hfetched _ eq_refl) as (Hpk & Hold).
    destruct (negb _).
    { intros H. injection H as _ <-. apply status_step_refl. }
    destruct (TransferStatus_eqb (OwnershipTransfer.status transfer) DRAFT)
      eqn:E; cbn [negb].
    2: { intros H. injection H as _ <-. apply status_step_refl. }
    apply TransferStatus_eqb_eq in E. rewrite E in Hold.
    intros H. bind_inv H. destruct x as [db1 t1]. injection H as _ <-.
    rewrite <- Hpk in Hold |- *.
    match type of H0 with
    | OwnershipTransfer_save _ _ ?x = _ =>
        exact (save_status_step now db x db1 t1 DRAFT Hnd Hold
                 ltac:(constructor) H0)
    end.
  - intros resp db'. unfold approve.
    destruct (negb (IsAdminUser request)).
    { intros H. injection H as _ <-. apply status_step_refl. }
    destruct (get_object request db pk) as [transfer|e] eqn:Hobj.
    2: { destruct e; try discriminate.
         intros H. injection H as _ <-. apply status_step_refl. }
    destruct (Hfetched _ eq_refl) as (Hpk & Hold).
    destruct (TransferStatus_eqb (OwnershipTransfer.status transfer) PENDING)
      eqn:E; cbn [negb].
    2: { intros H. injection H as _ <-. apply status_step_refl. }
    apply TransferStatus_eqb_eq in E. rewrite E in Hold.
    intros H. bind_inv H. destruct x as [db1 t1]. injection H as _ <-.
    rewrite <- Hpk in Hold |- *.
    match type of H0 with
    | OwnershipTransfer_save _ _ ?x = _ =>
        exact (save_status_step now db x db1 t1 PENDING Hnd Hold
                 ltac:(constructor) H0)
    end.
  - intros resp db'. unfold complete.
    destruct (negb (IsAdminUser request)).
    { intros H. injection H as _ <-. apply status_step_refl. }
    destruct (get_object request db pk) as [transfer|e] eqn:Hobj.
    2: { destruct e; try discriminate.
         intros H. injection H as _ <-. apply status_step_refl. }
    destruct (Hfetched _ eq_refl) as (Hpk & Hold).
    destruct (TransferStatus_eqb (OwnershipTransfer.status transfer) APPROVED)
      eqn:E; cbn [negb].
    2: { intros H. injection H as _ <-. apply status_step_refl. }
    apply TransferStatus_eqb_eq in E. rewrite E in Hold.
    intros H. bind_inv H. destruct x as [db1 t1]. injection H as _ <-.
    rewrite <- Hpk in Hold |- *.
    match type of H0 with
    | OwnershipTransfer_save _ _ ?x = _ =>
        exact (save_status_step now db x db1 t1 APPROVED Hnd Hold
                 ltac:(constructor) H0)
    end.
  - intros instance r db' Hrow. unfold perform_destroy.
    pose proof (get_by_pk_in _ _ _ _ Hrow) as (_ & Hpk).
    assert (Hold : status_of db pk = Some (OwnershipTransfer.status instance))
      by (unfold status_of; now rewrite Hrow).
    destruct (request_user request) as [user|].
    2: { intros H. injection H as _ <-. apply status_step_refl. }
    destruct (negb _).
    { intros H. injection H as _ <-. apply status_step_refl. }
    rewrite <- Hpk in Hold |- *.
    destruct (OwnershipTransfer.status instance) eqn:Est;
      try (intros H; injection H as _ <-; apply status_step_refl).
    + intros H. bind_inv H. destruct x as [db1 t1]. injection H as _ <-.
      match type of H0 with
      | OwnershipTransfer_save _ _ ?x = _ =>
          exact (save_status_step now db x db1 t1 DRAFT Hnd Hold
                   ltac:(constructor) H0)
      end.
    + intros H. bind_inv H. destruct x as [db1 t1]. injection H as _ <-.
      match type of H0 with
      | OwnershipTransfer_save _ _ ?x = _ =>
          exact (save_status_step now db x db1 t1 PENDING Hnd Hold
                   ltac:(constructor) H0)
      end.
Qed.

Lemma status_changes_follow_the_lifecycle_witness :
  exists resp db',
    complete Sample.now Sample.as_admin Sample.db_approved 1 = Ok (resp, db')
    /\ status_step Sample.db_approved db' 1.
Proof.
  destruct (complete Sample.now Sample.as_admin Sample.db_approved 1)
    as [[resp db']|e] eqn:E.
  - exists resp, db'. split; [reflexivity|].
    refine (proj1 (proj2 (proj2 (proj1
              (status_changes_follow_the_lifecycle Sample.now Sample.as_admin
                 Sample.db_approved 1 _)))) resp db' E).
    simpl. repeat constructor. simpl. tauto.
  - vm_compute in E. discriminate E.
Defined.

Lemma save_same_ledger now db x db' x' :
  OwnershipTransfer.status x <> COMPLETED ->
  OwnershipTransfer_save now db x = Ok (db', x') ->
  same_ledger db db'.
Proof.
  intros Hst Hsave. rewrite save_skips in Hsave by exact Hst.
  bind_inv Hsave. injection Hsave as <- _. repeat split.
Qed.

(** Without a registered recipient the receiver returns before it has
    read anything. *)
Lemma handler_no_recipient now db t :
  OwnershipTransfer.to_user t = None ->
  exists o, handle_transfer_completion now db t = Ok (o, db, t).
Proof.
  intros Hto. unfold handle_transfer_completion. rewrite Hto.
  destruct (_ || _); eauto.
Qed.

(** X5. Only [complete] moves money: [submit], [approve] and cancelling
    leave the investments, the capital activities, the performance
    snapshots and the audit trail exactly as they were, whatever they
    answer; and so does [complete] for a transfer without a registered
    recipient, which it marks COMPLETED all the same. *)
Theorem only_complete_moves_money now request db :
  (forall pk resp db',
     submit now request db pk = Ok (resp, db') -> same_ledger db db')
  /\ (forall pk resp db',
        approve now request db pk = Ok (resp, db') -> same_ledger db db')
  /\ (forall instance r db',
        perform_destroy now request db instance = Ok (r, db') ->
        same_ledger db db')
  /\ (forall pk transfer resp db',
        get_object request db pk = Ok transfer ->
        OwnershipTransfer.to_user transfer = None ->
        complete now request db pk = Ok (resp, db') ->
        same_ledger db db').
Proof.
  assert (Hrefl : same_ledger db db) by (repeat split).
  split; [|split; [|split]].
  - intros pk resp db'. unfold submit.
    destruct (request_user request) as [user|];
      [|intros H; injection H as _ <-; exact Hrefl].
    destruct (get_object request db pk) as [transfer|e].
    2: { destruct e; try discriminate.
         intros H. injection H as _ <-. exact Hrefl. }
    destruct (negb _); [intros H; injection H as _ <-; exact Hrefl|].
    destruct (negb _); [intros H; injection H as _ <-; exact Hrefl|].
    intros H. bind_inv H. destruct x as [db1 t1]. injection H as _ <-.
    apply save_same_ledger in H0; [exact H0|discriminate].
  - intros pk resp db'. unfold approve.
    destruct (negb _); [intros H; injection H as _ <-; exact Hrefl|].
    destruct (get_object request db pk) as [transfer|e].
    2: { destruct e; try discriminate.
         intros H. injection H as _ <-. exact Hrefl. }
    destruct (negb _); [intros H; injection H as _ <-; exact Hrefl|].
    intros H. bind_inv H. destruct x as [db1 t1]. injection H as _ <-.
    apply save_same_ledger in H0; [exact H0|discriminate].
  - intros instance r db'. unfold perform_destroy.
    destruct (request_user request) as [user|];
      [|intros H; injection H as _ <-; exact Hrefl].
    destruct (negb _); [intros H; injection H as _ <-; exact Hrefl|].
    destruct (OwnershipTransfer.status instance);
      try (intros H; injection H as _ <-; exact Hrefl);
      intros H; bind_inv H; destruct x as [db1 t1]; injection H as _ <-;
      (apply save_same_ledger in H0; [exact H0|discriminate]).
  - intros pk transfer resp db' Hobj Hto. unfold complete. rewrite Hobj.
    destruct (negb _); [intros H; injection H as _ <-; exact Hrefl|].
    destruct (negb _); [intros H; injection H as _ <-; exact Hrefl|].
    intros H. bind_inv H. destruct x as [db1 t1]. injection H as _ <-.
    unfold OwnershipTransfer_save in H0. bind_inv H0.
    match type of H0 with
    | context [handle_transfer_completion ?n ?d ?t] =>
        destruct (handler_no_recipient n d t) as (o & Hh)
    end.
    { pose proof (OwnershipTransfer_pre_save_fields now
                    (OwnershipTransfer.set_status COMPLETED transfer)) as F.
      cbv zeta in F. destruct F as (_ & _ & _ & _ & _ & Fto & _).
      rewrite Fto. exact Hto. }
    rewrite Hh in H0. cbn [bind] in H0. injection H0 as <- _.
    repeat split.
Qed.

Lemma only_complete_moves_money_witness :
  exists resp db',
    approve Sample.now Sample.as_admin
      (Sample.database [Sample.holding 1 1 ACTIVE 5000000 5000000]
         (Sample.transfer PARTIAL 1000000 PENDING)) 1 = Ok (resp, db')
    /\ same_ledger
         (Sample.database [Sample.holding 1 1 ACTIVE 5000000 5000000]
            (Sample.transfer PARTIAL 1000000 PENDING)) db'.
Proof.
  destruct (approve Sample.now Sample.as_admin
              (Sample.database [Sample.holding 1 1 ACTIVE 5000000 5000000]
                 (Sample.transfer PARTIAL 1000000 PENDING)) 1)
    as [[resp db']|e] eqn:E.
  - exists resp, db'. split; [reflexivity|].
    exact (proj1 (proj2 (only_complete_moves_money Sample.now Sample.as_admin _))
             1 resp db' E).
  - vm_compute in E. discriminate E.
Defined.

(** ** Listings *)

Section OrderBy.

Context {A : Type} (before : A -> A -> bool).

Lemma insert_sorted_perm (a : A) (l : list A) :
  Permutation (insert_sorted before a l) (a :: l).
Proof.
  induction l as [|b rest IH]; simpl; [reflexivity|].
  destruct (before a b); [reflexivity|].
  rewrite IH. apply perm_swap.
Qed.

Lemma order_by_perm (l : list A) : Permutation (order_by before l) l.
Proof.
  unfold order_by.
  assert (H : forall acc, Permutation
                            (fold_left (fun acc a => insert_sorted before a acc) l acc)
                            (acc ++ l)%list).
  { induction l as [|a rest IH]; intros acc; simpl.
    - now rewrite app_nil_r.
    - rewrite IH, insert_sorted_perm. simpl. apply Permutation_middle. }
  apply (H []).
Qed.

Lemma order_by_in (l : list A) (x : A) : In x (order_by before l) <-> In x l.
Proof.
  split; apply Permutation_in; [|symmetry]; apply order_by_perm.
Qed.

Lemma order_by_length (l : list A) :
  List.length (order_by before l) = List.length l.
Proof. apply Permutation_length, order_by_perm. Qed.

(** In the sorted list no row comes strictly before its predecessor. *)
Lemma insert_sorted_sorted (a : A) (l : list A) :
  (forall x y, before x y = true -> before y x = false) ->
  Sorted (fun x y => before y x = false) l ->
  Sorted (fun x y => before y x = false) (insert_sorted before a l).
Proof.
  intros Hasym Hs. induction Hs as [|b rest Hs IH Hhd]; simpl.
  - repeat constructor.
  - destruct (before a b) eqn:E.
    + constructor; [now constructor|]. constructor. now apply Hasym.
    + constructor; [exact IH|].
      destruct rest as [|c rest']; simpl.
      * constructor. exact E.
      * destruct (before a c); constructor; [exact E|].
        now inversion Hhd.
Qed.

Lemma order_by_sorted (l : list A) :
  (forall x y, before x y = true -> before y x = false) ->
  Sorted (fun x y => before y x = false) (order_by before l).
Proof.
  intros Hasym. unfold order_by.
  assert (H : forall acc,
             Sorted (fun x y => before y x = false) acc ->
             Sorted (fun x y => before y x = false)
               (fold_left (fun acc a => insert_sorted before a acc) l acc)).
  { induction l as [|a rest IH]; intros acc Hacc; simpl; [exact Hacc|].
    apply IH. now apply insert_sorted_sorted. }
  apply H. constructor.
Qed.

End OrderBy.

Lemma Sorted_weaken {A} (R S : A -> A -> Prop) (l : list A) :
  (forall x y, R x y -> S x y) -> Sorted R l -> Sorted S l.
Proof.
  intros HRS Hs. induction Hs as [|a l Hs IH Hhd]; constructor; [exact IH|].
  destruct Hhd; constructor. now apply HRS.
Qed.

Lemma get_queryset_party request db user x :
  request_user request = Some user ->
  In x (get_queryset request db) -> is_party user x = true.
Proof.
  unfold get_queryset. intros ->.
  set (q0 := filter _ (ownership_transfers db)).
  set (q1 := match param_status request with
             | Some s => _
             | None => q0
             end).
  intros H.
  assert (H1 : In x q1).
  { destruct (param_direction request) as [d|]; [|exact H].
    revert H. destruct (String.eqb d "outgoing");
      [intros H; now apply filter_In in H|].
    destruct (String.eqb d "incoming");
      [intros H; now apply filter_In in H|auto]. }
  assert (H0 : In x q0).
  { subst q1. destruct (param_status request) as [s|]; [|exact H1].
    revert H1. destruct (String.eqb s ""); [auto|].
    intros H1. now apply filter_In in H1. }
  subst q0. apply filter_In in H0. destruct H0 as [_ Hp].
  apply andb_true_iff in Hp. exact (proj1 Hp).
Qed.

Lemma transfers_with_status_in user statuses db x :
  In x (transfers_with_status user statuses db)
  <-> In x (get_queryset (mkRequest (Some user) None None) db)
      /\ In (OwnershipTransfer.status x) statuses.
Proof.
  unfold transfers_with_status, get_queryset. cbn [request_user param_status
    param_direction]. rewrite !filter_In.
  fold (is_party user x).
  assert (Hex : existsb (TransferStatus_eqb (OwnershipTransfer.status x)) statuses
                = true <-> In (OwnershipTransfer.status x) statuses).
  { rewrite existsb_exists. split.
    - intros (s & Hin & Hs). apply TransferStatus_eqb_eq in Hs. now subst.
    - intros Hin. exists (OwnershipTransfer.status x). split; [exact Hin|].
      now apply TransferStatus_eqb_eq. }
  rewrite !andb_true_iff, Hex. tauto.
Qed.

(** X6. The transfer listings show a caller nothing but transfers the
    caller sends or receives, whatever the query parameters.  [pending]
    is the caller's list restricted to PENDING and APPROVED, newest
    first; [history] is the same list restricted to COMPLETED, CANCELLED
    and REJECTED, latest completion first; [total_count] is the number
    of rows listed; and a DRAFT is in neither. *)
Theorem listings_show_only_own request db user :
  request_user request = Some user ->
  (forall x, In x (get_queryset request db) ->
             In x (ownership_transfers db) /\ is_party user x = true)
  /\ (forall x,
        In x (listed (pending request db))
        <-> In x (get_queryset (mkRequest (Some user) None None) db)
            /\ (OwnershipTransfer.status x = PENDING
                \/ OwnershipTransfer.status x = APPROVED))
  /\ (forall x,
        In x (listed (history request db))
        <-> In x (get_queryset (mkRequest (Some user) None None) db)
            /\ (OwnershipTransfer.status x = COMPLETED
                \/ OwnershipTransfer.status x = CANCELLED
                \/ OwnershipTransfer.status x = REJECTED))
  /\ StronglySorted
       (fun a b => OwnershipTransfer.created_at b <= OwnershipTransfer.created_at a)
       (listed (pending request db))
  /\ StronglySorted completion_not_after (listed (history request db))
  /\ pending request db
     = Listing_ok (listed (pending request db))
         (Z.of_nat (List.length (listed (pending request db))))
  /\ history request db
     = Listing_ok (listed (history request db))
         (Z.of_nat (List.length (listed (history request db)))).
Proof.
  intros Hu. split; [|split; [|split; [|split; [|split; [|split]]]]].
  - intros x Hin. split; [now apply get_queryset_in in Hin|].
    now apply (get_queryset_party request db).
  - intros x. unfold pending. rewrite Hu. cbn [listed].
    rewrite order_by_in, transfers_with_status_in. cbn [In].
    intuition (auto; congruence).
  - intros x. unfold history. rewrite Hu. cbn [listed].
    rewrite order_by_in, transfers_with_status_in. cbn [In].
    intuition (auto; congruence).
  - unfold pending. rewrite Hu. cbn [listed].
    apply Sorted_StronglySorted; [intros a b c; lia|].
    eapply Sorted_weaken; [|apply order_by_sorted].
    + intros a b. unfold newest_first. intros H. apply Z.ltb_ge in H. exact H.
    + intros a b. unfold newest_first. rewrite Z.ltb_lt, Z.ltb_ge. lia.
  - unfold history. rewrite Hu. cbn [listed].
    apply Sorted_StronglySorted.
    { intros a b c. unfold completion_not_after.
      destruct (OwnershipTransfer.completion_date a),
               (OwnershipTransfer.completion_date b),
               (OwnershipTransfer.completion_date c); try tauto; lia. }
    eapply Sorted_weaken; [|apply order_by_sorted].
    + intros a b. unfold latest_completion_first, completion_not_after, newest_first.
      destruct (OwnershipTransfer.completion_date a) as [x|],
               (OwnershipTransfer.completion_date b) as [y|];
        try tauto; try discriminate.
      intros H. apply orb_false_iff in H. destruct H as [H _].
      apply Z.ltb_ge in H. exact H.
    + intros a b. unfold latest_completion_first, newest_first.
      destruct (OwnershipTransfer.completion_date a) as [x|],
               (OwnershipTransfer.completion_date b) as [y|];
        try tauto; try discriminate.
      * rewrite orb_true_iff, orb_false_iff, andb_true_iff, andb_false_iff,
          !Z.ltb_lt, !Z.ltb_ge, !Z.eqb_eq, Z.eqb_neq. lia.
      * rewrite Z.ltb_lt, Z.ltb_ge. lia.
  - unfold pending. rewrite Hu. reflexivity.
  - unfold history. rewrite Hu. reflexivity.
Qed.

Lemma listings_show_only_own_witness :
  listed (pending Sample.as_investor Sample.db_approved) = [Sample.approved]
  /\ listed (history Sample.as_investor Sample.db_approved) = []
  /\ forall x,
       In x (get_queryset Sample.as_auditor Sample.db_approved) ->
       In x (ownership_transfers Sample.db_approved)
       /\ is_party Sample.auditor x = true.
Proof.
  split; [reflexivity|]. split; [reflexivity|].
  exact (proj1 (listings_show_only_own Sample.as_auditor Sample.db_approved
                  Sample.auditor eq_refl)).
Defined.

(** ** More on what a settlement writes *)

Lemma settle_ledger_user_activities now db t buyer seller dbL :
  settle_ledger now db t buyer seller = Ok dbL ->
  user_activities dbL = user_activities db.
Proof.
  intros HL. apply settle_ledger_inv in HL.
  destruct HL as (s & dbA & dbB & b & created & dbC & dbD
                  & _ & HA & HB & HC & HD & HE).
  apply Investment_save_frame in HA. destruct HA as (_ & _ & _ & _ & _ & HA).
  apply CapitalActivity_create_frame in HB.
  destruct HB as (_ & _ & _ & _ & _ & HB).
  apply Investment_save_frame in HD. destruct HD as (_ & _ & _ & _ & _ & HD).
  apply CapitalActivity_create_frame in HE.
  destruct HE as (_ & _ & _ & _ & _ & HE).
  assert (HCc : user_activities dbC = user_activities dbB).
  { apply Investment_get_or_create_cases in HC.
    destruct HC as [(_ & -> & _)|(_ & _ & _ & _ & _ & _ & _ & _ & Hsave)];
      [reflexivity|].
    apply Investment_save_frame in Hsave.
    now destruct Hsave as (_ & _ & _ & _ & _ & Hsave). }
  congruence.
Qed.

(** X7. The audit trail of a settlement: a run that commits appends
    exactly two user activities, both of type PORTFOLIO_UPDATE and
    stamped with the time of the run - "Transfer of $<amount> completed"
    for the sender and "Received $<amount> via transfer" for the
    recipient, each carrying the transfer's key - and any other run
    appends none. *)
Theorem settlement_audit_trail now db t o db1 t1 :
  handle_transfer_completion now db t = Ok (o, db1, t1) ->
  (o = Processed ->
   exists buyer,
     OwnershipTransfer.to_user t = Some buyer
     /\ user_activities db1
        = (user_activities db ++
           [UserActivity.mk (User.id (OwnershipTransfer.from_user t))
              "PORTFOLIO_UPDATE"
              ("Transfer of $"
               ++ str_decimal (OwnershipTransfer.transfer_amount t)
               ++ " completed")
              [("transfer_id", JInt (OwnershipTransfer.id t));
               ("type", JStr "seller")] now;
            UserActivity.mk (User.id buyer) "PORTFOLIO_UPDATE"
              ("Received $"
               ++ str_decimal (OwnershipTransfer.transfer_amount t)
               ++ " via transfer")
              [("transfer_id", JInt (OwnershipTransfer.id t));
               ("type", JStr "buyer")] now])%list)
  /\ (o <> Processed -> user_activities db1 = user_activities db).
Proof.
  intros H. split.
  - intros ->. apply handler_processed_inv in H.
    destruct H as (_ & _ & buyer & seller & dbL & Hb & _ & _ & HL & Hm).
    exists buyer. split; [exact Hb|].
    apply settle_ledger_user_activities in HL. rewrite <- HL.
    unfold mark_processed, OwnershipTransfer_save_processed in Hm.
    set (x := OwnershipTransfer.set_processed true _ t) in Hm.
    pose proof (OwnershipTransfer_pre_save_fields now x) as F.
    cbv zeta in F. destruct F as (Fid & _ & _ & _ & _ & _ & _ & Fam & _).
    pose proof (OwnershipTransfer_pre_save_from now x) as Ffrom.
    destruct (has_pk _ _ _); [|discriminate].
    cbn [bind] in Hm. injection Hm as _ <-.
    unfold log_activity. cbn [user_activities set_user_activities].
    rewrite Fid, Fam, Ffrom. subst x. simpl.
    rewrite <- app_assoc. reflexivity.
  - intros Hne. now rewrite (handler_db_unchanged _ _ _ _ _ _ H Hne).
Qed.

Lemma settlement_audit_trail_witness :
  map UserActivity.description
    (user_activities (fst (Sample.settled Sample.db_partial Sample.partial)))
  = ["Transfer of $10000.00 completed"; "Received $10000.00 via transfer"].
Proof.
  destruct (handle_transfer_completion Sample.now Sample.db_partial
              Sample.partial) as [[[o db1] t1]|e] eqn:E.
  - assert (Ho : o = Processed) by (vm_compute in E; congruence).
    destruct (proj1 (settlement_audit_trail _ _ _ _ _ _ E) Ho)
      as (buyer & Hb & Hlog).
    unfold Sample.settled. rewrite E. cbn [fst]. rewrite Hlog.
    injection Hb as <-. vm_compute. reflexivity.
  - vm_compute in E. discriminate E.
Defined.

(** ** Performance snapshots *)

(** What the snapshot receiver does to the snapshots table. *)
Lemma create_performance_snapshot_rows now db i db' :
  create_performance_snapshot now db i = Ok db' ->
  performance_snapshots db' = performance_snapshots db
  \/ (Dec.ltb (Dec.of_Z 0) (Investment.current_value i) = true
      /\ existsb (fun s =>
                    (PerformanceSnapshot.investment s =? Investment.id i)%Z
                    && (PerformanceSnapshot.date_ s =? date_of now)%Z)
                 (performance_snapshots db) = false
      /\ exists v,
           to_column 15 (Investment.current_value i) = Ok v
           /\ performance_snapshots db'
              = (performance_snapshots db ++
                 [PerformanceSnapshot.mk
                    (next_id (map PerformanceSnapshot.id
                                (performance_snapshots db)))
                    (Investment.id i) (date_of now) v now])%list).
Proof.
  unfold create_performance_snapshot.
  destruct (Dec.truthy _); cbn [andb]; [|intros H; injection H as <-; now left].
  destruct (Dec.ltb _ _) eqn:Elt; [|intros H; injection H as <-; now left].
  destruct (existsb _ _) eqn:Eex; cbn [negb];
    [intros H; injection H as <-; now left|].
  intros H. bind_inv H. injection H as <-. right.
  split; [reflexivity|]. split; [reflexivity|]. exists x. split; [exact H0|].
  reflexivity.
Qed.

Lemma Investment_save_snapshots now db i db' :
  Investment_save now db i = Ok db' ->
  performance_snapshots db' = performance_snapshots db
  \/ (Dec.ltb (Dec.of_Z 0) (Investment.current_value i) = true
      /\ existsb (fun s =>
                    (PerformanceSnapshot.investment s =? Investment.id i)%Z
                    && (PerformanceSnapshot.date_ s =? date_of now)%Z)
                 (performance_snapshots db) = false
      /\ exists v,
           to_column 15 (Investment.current_value i) = Ok v
           /\ performance_snapshots db'
              = (performance_snapshots db ++
                 [PerformanceSnapshot.mk
                    (next_id (map PerformanceSnapshot.id
                                (performance_snapshots db)))
                    (Investment.id i) (date_of now) v now])%list).
Proof.
  unfold Investment_save. intros H. bind_inv H.
  apply create_performance_snapshot_rows in H. exact H.
Qed.

Lemma snapshots_extended_refl now n db : snapshots_extended now n db db.
Proof.
  exists []. rewrite app_nil_r. repeat split; [simpl; lia|constructor].
Qed.

Lemma snapshots_extended_eq now n db db' :
  performance_snapshots db' = performance_snapshots db ->
  snapshots_extended now n db db'.
Proof.
  intros H. exists []. rewrite app_nil_r.
  repeat split; [exact H|simpl; lia|constructor].
Qed.

Lemma snapshots_extended_trans now n m db db' db'' :
  snapshots_extended now n db db' ->
  snapshots_extended now m db' db'' ->
  snapshots_extended now (n + m) db db''.
Proof.
  intros (new1 & H1 & L1 & F1) (new2 & H2 & L2 & F2).
  exists (new1 ++ new2)%list. split; [|split].
  - now rewrite H2, H1, app_assoc.
  - rewrite length_app. lia.
  - apply Forall_app. now split.
Qed.

Lemma Investment_save_extends now db i db' :
  Investment_save now db i = Ok db' ->
  snapshots_extended now 1 db db'
  /\ (snapshots_unique db -> snapshots_unique db').
Proof.
  intros H. apply Investment_save_snapshots in H.
  destruct H as [H|(_ & Hex & v & _ & H)].
  - split; [now apply snapshots_extended_eq|].
    unfold snapshots_unique. now rewrite H.
  - split.
    + eexists. split; [exact H|]. split; [simpl; lia|].
      repeat constructor.
    + unfold snapshots_unique. rewrite H, map_app. cbn [map].
      intros Hnd. apply NoDup_app; [exact Hnd|repeat constructor; auto|].
      intros k Hk [<-|[]]. apply in_map_iff in Hk.
      destruct Hk as (s & Hs & Hin).
      assert (Ht : existsb (fun s =>
                    (PerformanceSnapshot.investment s =? Investment.id i)%Z
                    && (PerformanceSnapshot.date_ s =? date_of now)%Z)
                 (performance_snapshots db) = true).
      { apply existsb_exists. exists s. split; [exact Hin|].
        unfold snapshot_key in Hs. cbn [PerformanceSnapshot.investment
          PerformanceSnapshot.date_] in Hs. injection Hs as -> ->.
        now rewrite !Z.eqb_refl. }
      congruence.
Qed.

Lemma CapitalActivity_create_snapshots now db inv ty amount d details db' :
  CapitalActivity_create now db inv ty amount d details = Ok db' ->
  performance_snapshots db' = performance_snapshots db.
Proof.
  unfold CapitalActivity_create. intros H. bind_inv H. now injection H as <-.
Qed.

Lemma mark_processed_snapshots now db t buyer t1 db1 :
  mark_processed now db t buyer = (t1, Ok db1) ->
  performance_snapshots db1 = performance_snapshots db.
Proof.
  unfold mark_processed, OwnershipTransfer_save_processed.
  destruct (has_pk _ _ _); [|discriminate].
  cbn [bind]. intros H. now injection H as _ <-.
Qed.

Lemma settle_ledger_snapshots now db t buyer seller dbL :
  settle_ledger now db t buyer seller = Ok dbL ->
  snapshots_extended now 2 db dbL
  /\ (snapshots_unique db -> snapshots_unique dbL).
Proof.
  intros HL. apply settle_ledger_inv in HL.
  destruct HL as (s & dbA & dbB & b & created & dbC & dbD
                  & _ & HA & HB & HC & HD & HE).
  apply Investment_save_extends in HA. destruct HA as (EA & UA).
  apply CapitalActivity_create_snapshots in HB.
  apply Investment_save_extends in HD. destruct HD as (ED & UD).
  apply CapitalActivity_create_snapshots in HE.
  assert (HCc : performance_snapshots dbC = performance_snapshots dbB).
  { apply Investment_get_or_create_cases in HC.
    destruct HC as [(_ & -> & _)|(_ & _ & _ & _ & _ & _ & _ & Hcv & Hsave)];
      [reflexivity|].
    apply Investment_save_snapshots in Hsave.
    destruct Hsave as [Hsave|(Hlt & _)]; [exact Hsave|].
    rewrite Hcv in Hlt. discriminate Hlt. }
  split.
  - destruct EA as (n1 & H1 & L1 & F1). destruct ED as (n2 & H2 & L2 & F2).
    exists (n1 ++ n2)%list. split; [|split].
    + now rewrite HE, H2, HCc, HB, H1, app_assoc.
    + rewrite length_app. lia.
    + apply Forall_app. now split.
  - unfold snapshots_unique in *. rewrite HE. intros Hu. apply UD.
    rewrite HCc, HB. now apply UA.
Qed.

(** X8. One snapshot per investment per day.  Saving an investment adds
    at most one snapshot, never alters or removes one, and keeps the
    (investment, date) pairs of the table distinct: a snapshot is added
    only for a positive current value and only if the investment has
    none for the day, so a second revaluation on the same day leaves the
    day's snapshot at its first value.  A run of the settlement receiver
    adds at most two, both dated the day of the run, and keeps the pairs
    distinct as well. *)
Theorem one_snapshot_per_investment_per_day now db :
  (forall i db',
     Investment_save now db i = Ok db' ->
     (snapshots_unique db -> snapshots_unique db')
     /\ exists new,
          performance_snapshots db' = (performance_snapshots db ++ new)%list
          /\ (new = []
              \/ exists v,
                   to_column 15 (Investment.current_value i) = Ok v
                   /\ new = [PerformanceSnapshot.mk
                               (next_id (map PerformanceSnapshot.id
                                           (performance_snapshots db)))
                               (Investment.id i) (date_of now) v now])
          /\ (Dec.ltb (Dec.of_Z 0) (Investment.current_value i) = false ->
              new = [])
          /\ (forall s,
                In s (performance_snapshots db) ->
                PerformanceSnapshot.investment s = Investment.id i ->
                PerformanceSnapshot.date_ s = date_of now ->
                new = []))
  /\ (forall t o db1 t1,
        handle_transfer_completion now db t = Ok (o, db1, t1) ->
        (snapshots_unique db -> snapshots_unique db1)
        /\ snapshots_extended now 2 db db1).
Proof.
  split.
  - intros i db' H.
    split; [exact (proj2 (Investment_save_extends _ _ _ _ H))|].
    apply Investment_save_snapshots in H.
    destruct H as [H|(Hlt & Hex & v & Hv & H)].
    + exists []. rewrite app_nil_r. auto.
    + eexists. split; [exact H|]. split; [right; eauto|].
      split; [congruence|].
      intros s Hin Hinv Hdate. exfalso.
      assert (Ht : existsb (fun s =>
                    (PerformanceSnapshot.investment s =? Investment.id i)%Z
                    && (PerformanceSnapshot.date_ s =? date_of now)%Z)
                 (performance_snapshots db) = true).
      { apply existsb_exists. exists s. split; [exact Hin|].
        now rewrite Hinv, Hdate, !Z.eqb_refl. }
      congruence.
  - intros t o db1 t1 H.
    assert (Hcases : o = Processed \/ o <> Processed)
      by (destruct o; auto; right; discriminate).
    destruct Hcases as [->|Hq].
    + apply handler_processed_inv in H.
      destruct H as (_ & _ & buyer & seller & dbL & _ & _ & _ & HL & Hm).
      apply settle_ledger_snapshots in HL. destruct HL as (EL & UL).
      apply mark_processed_snapshots in Hm.
      unfold snapshots_unique, snapshots_extended in *. rewrite Hm.
      split; assumption.
    + rewrite (handler_db_unchanged _ _ _ _ _ _ H Hq).
      split; [auto|apply snapshots_extended_refl].
Qed.

Lemma one_snapshot_per_investment_per_day_witness :
  snapshots_unique (fst (Sample.settled Sample.db_partial Sample.partial))
  /\ snapshots_extended Sample.now 2 Sample.db_partial
       (fst (Sample.settled Sample.db_partial Sample.partial)).
Proof.
  destruct (handle_transfer_completion Sample.now Sample.db_partial
              Sample.partial) as [[[o db1] t1]|e] eqn:E.
  - destruct (proj2 (one_snapshot_per_investment_per_day Sample.now
                       Sample.db_partial) _ _ _ _ E) as (Hu & He).
    unfold Sample.settled. rewrite E. cbn [fst].
    split; [apply Hu; constructor|exact He].
  - vm_compute in E. discriminate E.
Defined.

(** ** The buyer's row *)

Lemma to_column_cents_bound (m c : Z) (q : Decimal) :
  to_column m (Dec.of_cents c) = Ok q ->
  q = Dec.of_cents c /\ Z.abs c < 10 ^ m.
Proof.
  intros H. pose proof (to_column_cents_inv _ _ _ H) as Hq.
  split; [exact Hq|].
  apply to_column_ok, quantize2_shape in H. destruct H as (_ & H).
  now rewrite Hq in H.
Qed.

(** Both balances of the buyer's row after a committed settlement whose
    recipient is not the owner of the transferred investment: what the
    buyer held plus the amount, each within the column's range. *)
Lemma buyer_balances_after now db t db1 t1 buyer seller :
  handle_transfer_completion now db t = Ok (Processed, db1, t1) ->
  OwnershipTransfer.to_user t = Some buyer ->
  get_by_pk Investment.id (OwnershipTransfer.investment t) (investments db)
    = Ok seller ->
  User.id buyer <> Investment.user seller ->
  NoDup (map Investment.id (investments db)) ->
  Forall investment_columns (investments db) ->
  is_money (OwnershipTransfer.transfer_amount t) ->
  exists rowB,
    holdings db1 (User.id buyer) (Investment.name seller) = [rowB]
    /\ Investment.current_value rowB
       = Dec.of_cents (held_before db (User.id buyer) (Investment.name seller)
                       + cents (OwnershipTransfer.transfer_amount t))
    /\ Investment.total_invested rowB
       = Dec.of_cents (cost_before db (User.id buyer) (Investment.name seller)
                       + cents (OwnershipTransfer.transfer_amount t))
    /\ Z.abs (held_before db (User.id buyer) (Investment.name seller)
              + cents (OwnershipTransfer.transfer_amount t)) < 10 ^ 15
    /\ Z.abs (cost_before db (User.id buyer) (Investment.name seller)
              + cents (OwnershipTransfer.transfer_amount t)) < 10 ^ 15.
Proof.
  intros H Hb Hs Hne Hnd Hcols Hamt.
  destruct (settlement_investments _ _ _ _ _ _ _ H Hb Hs)
    as (s & rowS & b & rowB & I1 & I2 & Hsa & HrowS & HI1 & Hcase & HrowB & Hdb1).
  pose proof (seller_after_transfer_fields _ _ _ Hsa) as (Hsid & Hsu & Hsn & _).
  pose proof (Investment_to_row_fields _ _ _ HrowS) as (HSid & HSu & HSn & _).
  pose proof (Investment_to_row_fields _ _ _ HrowB)
    as (HBid & HBu & HBn & _ & HBti & HBcv).
  unfold buyer_after_transfer in HBid, HBu, HBn, HBcv, HBti.
  simpl in HBid, HBu, HBn, HBcv, HBti.
  pose proof (get_by_pk_in _ _ _ _ Hs) as (Hin & Hpk).
  rewrite (is_money_eq _ Hamt) in HBcv, HBti. destruct Hamt as [_ Hamt].
  set (a := cents (OwnershipTransfer.transfer_amount t)) in *.
  set (p := fun i => (Investment.user i =? User.id buyer)%Z
                     && String.eqb (Investment.name i) (Investment.name s)).
  assert (HpS : p rowS = false).
  { unfold p. destruct (Z.eqb_spec (Investment.user rowS) (User.id buyer));
      [congruence|reflexivity]. }
  assert (Hpseller : p seller = false).
  { unfold p. destruct (Z.eqb_spec (Investment.user seller) (User.id buyer));
      [congruence|reflexivity]. }
  assert (Hf1 : filter p I1 = filter p (investments db)).
  { rewrite HI1. apply filter_write_row_other; [exact HpS|].
    intros r Hr Hrpk.
    rewrite (NoDup_pk_eq Investment.id _ r seller Hnd Hr Hin); [exact Hpseller|].
    congruence. }
  assert (Hnd1 : NoDup (map Investment.id I1))
    by (rewrite HI1; now apply NoDup_write_row).
  assert (Hhold : forall d, holdings d (User.id buyer) (Investment.name seller)
                            = filter p (investments d)).
  { intros d. unfold holdings, p. now rewrite Hsn. }
  unfold held_before, cost_before. rewrite !Hhold. rewrite <- Hf1.
  exists rowB.
  destruct Hcase as [(Hf & ->)
                    |(Hf & Hid & Hu & Hn & _ & Hti & Hcv & rowN & HrowN & ->)].
  - (* the buyer already held the fund *)
    change (filter p I1 = [b]) in Hf.
    assert (Hbin : In b (filter p I1)) by (rewrite Hf; now left).
    apply filter_In in Hbin. destruct Hbin as [Hbin Hpb].
    assert (Hbdb : In b (filter p (investments db)))
      by (rewrite <- Hf1, Hf; now left).
    apply filter_In in Hbdb. destruct Hbdb as [Hbdb _].
    rewrite Forall_forall in Hcols.
    destruct (Hcols b Hbdb) as [Hmt Hmb].
    rewrite (is_money_eq _ Hmb) in HBcv. destruct Hmb as [_ Hmb].
    rewrite (is_money_eq _ Hmt) in HBti. destruct Hmt as [_ Hmt].
    rewrite add_cents in HBcv by assumption.
    rewrite add_cents in HBti by assumption.
    apply to_column_cents_bound in HBcv. destruct HBcv as (HBcv & Bcv).
    apply to_column_cents_bound in HBti. destruct HBti as (HBti & Bti).
    rewrite Hf. split; [|auto].
    rewrite Hdb1, filter_write_row_same.
    + rewrite (proj2 (has_pk_in Investment.id _ _)).
      * rewrite Hf. unfold update_row. simpl.
        rewrite HBid, Z.eqb_refl. reflexivity.
      * rewrite HBid. now apply in_map.
    + unfold p in *. now rewrite HBu, HBn.
    + intros r Hr Hrpk.
      rewrite (NoDup_pk_eq Investment.id _ r b Hnd1 Hr Hbin); [exact Hpb|].
      congruence.
  - (* the buyer's row is created *)
    change (filter p I1 = []) in Hf.
    pose proof (Investment_to_row_fields _ _ _ HrowN) as (HNid & HNu & HNn & _).
    rewrite Hcv in HBcv. change Dec.zero2 with (Dec.of_cents 0) in HBcv.
    rewrite Hti in HBti. change Dec.zero2 with (Dec.of_cents 0) in HBti.
    rewrite add_cents in HBcv by (try assumption; reflexivity).
    rewrite add_cents in HBti by (try assumption; reflexivity).
    apply to_column_cents_bound in HBcv. destruct HBcv as (HBcv & Bcv).
    apply to_column_cents_bound in HBti. destruct HBti as (HBti & Bti).
    rewrite Hf. split; [|auto].
    assert (Hfresh : has_pk Investment.id (Investment.id rowN) I1 = false).
    { destruct (has_pk Investment.id (Investment.id rowN) I1) eqn:E;
        [|reflexivity].
      apply has_pk_in in E. apply next_id_above in E. lia. }
    assert (HI2 : write_row Investment.id rowN I1 = (I1 ++ [rowN])%list)
      by (unfold write_row; now rewrite Hfresh).
    assert (HpN : p rowN = true).
    { unfold p. rewrite HNu, HNn, Hu, Hn, Z.eqb_refl. simpl.
      apply String.eqb_refl. }
    rewrite Hdb1, HI2, filter_write_row_same.
    + rewrite (proj2 (has_pk_in Investment.id _ _)).
      * rewrite filter_app, Hf. simpl. rewrite HpN.
        unfold update_row. simpl.
        replace (Investment.id rowN =? Investment.id rowB)%Z with true
          by (symmetry; apply Z.eqb_eq; congruence).
        reflexivity.
      * rewrite map_app. apply in_or_app. right. left. congruence.
    + unfold p in *. rewrite HBu, HBn, Hu, Hn, Z.eqb_refl. simpl.
      apply String.eqb_refl.
    + intros r Hr Hrpk. apply in_app_or in Hr. destruct Hr as [Hr|[<-|[]]].
      * exfalso.
        assert (Hlt : Investment.id r < next_id (map Investment.id I1))
          by (apply next_id_above; now apply in_map).
        lia.
      * exact HpN.
Qed.

(** X9. The buyer takes the transfer over at cost: after a committed
    settlement to a recipient other than the investment's owner, the
    buyer's single row for the fund has its total invested raised by
    exactly the transfer amount, as its current value is, so the
    transfer leaves the buyer's unrealized gain on the fund where it
    was (zero for a newly created row) whatever cost basis the seller
    gave up. *)
Theorem buyer_takes_over_at_cost now db t db1 t1 buyer seller :
  handle_transfer_completion now db t = Ok (Processed, db1, t1) ->
  OwnershipTransfer.to_user t = Some buyer ->
  get_by_pk Investment.id (OwnershipTransfer.investment t) (investments db)
    = Ok seller ->
  User.id buyer <> Investment.user seller ->
  schema_ok db ->
  is_money (OwnershipTransfer.transfer_amount t) ->
  exists rowB,
    holdings db1 (User.id buyer) (Investment.name seller) = [rowB]
    /\ cents (Investment.total_invested rowB)
       = cost_before db (User.id buyer) (Investment.name seller)
         + cents (OwnershipTransfer.transfer_amount t)
    /\ cents (Investment.current_value rowB)
       - cents (Investment.total_invested rowB)
       = held_before db (User.id buyer) (Investment.name seller)
         - cost_before db (User.id buyer) (Investment.name seller)
    /\ investment_columns rowB.
Proof.
  intros H Hb Hs Hne (Hnd & _ & Hcols & _) Hamt.
  destruct (buyer_balances_after _ _ _ _ _ _ _ H Hb Hs Hne Hnd Hcols Hamt)
    as (rowB & Hh & Hcv & Hti & Bcv & Bti).
  exists rowB. split; [exact Hh|].
  assert (Hcol : investment_columns rowB).
  { unfold investment_columns. rewrite Hcv, Hti.
    split; now apply is_money_of_cents. }
  rewrite Hcv, Hti. unfold cents. cbn [Dec.coef Dec.of_cents].
  split; [reflexivity|]. split; [lia|exact Hcol].
Qed.

Lemma buyer_takes_over_at_cost_witness :
  exists rowB,
    holdings (fst (Sample.settled Sample.db_partial Sample.partial)) 2 "Inv1"
    = [rowB]
    /\ cents (Investment.total_invested rowB) = 0 + 1000000
    /\ cents (Investment.current_value rowB)
       - cents (Investment.total_invested rowB) = 0 - 0
    /\ investment_columns rowB.
Proof.
  apply (buyer_takes_over_at_cost Sample.now Sample.db_partial Sample.partial
           (fst (Sample.settled Sample.db_partial Sample.partial))
           (snd (Sample.settled Sample.db_partial Sample.partial))
           Sample.buyer (Sample.holding 1 1 ACTIVE 5000000 5000000)).
  - vm_compute. reflexivity.
  - reflexivity.
  - reflexivity.
  - simpl. lia.
  - repeat split; simpl; repeat constructor; simpl; try tauto;
      try (rewrite pow10_15; simpl; lia); simpl; lia.
  - split; [reflexivity|]. rewrite pow10_15. simpl. lia.
Defined.

(** X10. A credit that does not fit the column never commits: for a
    transfer to a recipient other than the owner of the transferred
    investment, over tables that meet their schema, when the current
    value of the recipient's holding in the fund plus the transfer
    amount reaches the limit of the fifteen-digit column, the receiver
    still returns without raising, the run is not a committed one and
    the database is left exactly as it was - the seller's debit and its
    ledger row included. *)
Theorem oversized_credit_never_commits now db t buyer seller :
  schema_ok db ->
  is_money (OwnershipTransfer.transfer_amount t) ->
  OwnershipTransfer.to_user t = Some buyer ->
  get_by_pk Investment.id (OwnershipTransfer.investment t) (investments db)
    = Ok seller ->
  User.id buyer <> Investment.user seller ->
  10 ^ 15 <= held_before db (User.id buyer) (Investment.name seller)
             + cents (OwnershipTransfer.transfer_amount t) ->
  exists o t',
    handle_transfer_completion now db t = Ok (o, db, t')
    /\ o <> Processed.
Proof.
  intros (Hnd & _ & Hcols & _) Hamt Hb Hs Hne Hbig.
  destruct (handler_total now db t Hnd) as (o & db1 & t1 & H).
  { now apply get_by_pk_has_pk in Hs. }
  assert (Hq : o <> Processed).
  { intros ->.
    destruct (buyer_balances_after _ _ _ _ _ _ _ H Hb Hs Hne Hnd Hcols Hamt)
      as (rowB & _ & _ & _ & Bcv & _).
    lia. }
  exists o, t1. split; [|exact Hq].
  now rewrite <- (handler_db_unchanged _ _ _ _ _ _ H Hq) at 2.
Qed.

Lemma oversized_credit_never_commits_witness :
  let db :=
    Sample.database [Sample.holding 1 1 ACTIVE 5000000 5000000;
                     Sample.holding 2 2 ACTIVE 1 999999999999999]
      Sample.partial in
  exists o t',
    handle_transfer_completion Sample.now db Sample.partial = Ok (o, db, t')
    /\ o <> Processed.
Proof.
  apply (oversized_credit_never_commits Sample.now _ Sample.partial
           Sample.buyer (Sample.holding 1 1 ACTIVE 5000000 5000000)).
  - repeat split; simpl; repeat constructor; simpl; try tauto;
      try (rewrite pow10_15; simpl; lia); simpl; try lia.
    all: intros [H|H]; try discriminate H; try contradiction.
  - split; [reflexivity|]. rewrite pow10_15. simpl. lia.
  - reflexivity.
  - reflexivity.
  - simpl. lia.
  - rewrite pow10_15. vm_compute. discriminate.
Defined.

(** ** The sign convention of stored amounts *)

Lemma ltb_zero_left (c : Z) :
  Dec.ltb (Dec.of_Z 0) (Dec.of_cents c) = (0 <? c)%Z.
Proof.
  unfold Dec.ltb, Dec.align, Dec.of_Z, Dec.of_cents. cbn [Dec.coef Dec.expo].
  change (Z.min 0 (-2)) with (-2). change (10 ^ (-2 - -2)) with 1.
  now rewrite Z.mul_0_l, Z.mul_1_r.
Qed.

Lemma ltb_zero_right (c : Z) :
  Dec.ltb (Dec.of_cents c) (Dec.of_Z 0) = (c <? 0)%Z.
Proof.
  unfold Dec.ltb, Dec.align, Dec.of_Z, Dec.of_cents. cbn [Dec.coef Dec.expo].
  change (Z.min (-2) 0) with (-2). change (10 ^ (-2 - -2)) with 1.
  now rewrite Z.mul_0_l, Z.mul_1_r.
Qed.

Lemma abs_cents (c : Z) :
  Z.abs c < 10 ^ 15 ->
  Dec.fix_ (Dec.abs (Dec.of_cents c)) = Dec.of_cents (Z.abs c).
Proof.
  intros Hc. unfold Dec.abs, Dec.of_cents. cbn [Dec.coef Dec.expo].
  apply fix_small. rewrite pow10_15 in *. change (10 ^ 4) with 10000. lia.
Qed.

Lemma neg_cents (c : Z) :
  Z.abs c < 10 ^ 15 ->
  Dec.fix_ (Dec.neg (Dec.of_cents c)) = Dec.of_cents (- c).
Proof.
  intros Hc. unfold Dec.neg, Dec.of_cents. cbn [Dec.coef Dec.expo].
  apply fix_small. rewrite pow10_15 in *. change (10 ^ 4) with 10000. lia.
Qed.

(** The validated amount of a column value, by activity type. *)
Lemma validate_amount_cents (a : ActivityType) (c : Z) :
  Z.abs c < 10 ^ 15 ->
  validate_amount (Some (ActivityType_name a)) (Dec.of_cents c)
  = Dec.of_cents
      match a with
      | INITIAL_INVESTMENT | CAPITAL_CALL => - Z.abs c
      | DISTRIBUTION | PARTIAL_EXIT => Z.abs c
      end.
Proof.
  intros Hc. unfold validate_amount.
  destruct a; cbn [ActivityType_name existsb String.eqb Ascii.eqb Bool.eqb
                   orb andb];
    rewrite ?ltb_zero_left, ?ltb_zero_right.
  - destruct (Z.ltb_spec 0 c).
    + rewrite abs_cents by exact Hc. rewrite neg_cents by lia. reflexivity.
    + f_equal. lia.
  - destruct (Z.ltb_spec 0 c).
    + rewrite abs_cents by exact Hc. rewrite neg_cents by lia. reflexivity.
    + f_equal. lia.
  - destruct (Z.ltb_spec c 0).
    + now rewrite abs_cents.
    + f_equal. lia.
  - destruct (Z.ltb_spec c 0).
    + now rewrite abs_cents.
    + f_equal. lia.
Qed.

(** X11. The sign convention of the ledger at the write side: for an
    amount that is a column value, [validate_amount] returns the amount
    with its magnitude kept and its sign set by the activity type of the
    request - not positive for INITIAL_INVESTMENT and CAPITAL_CALL, not
    negative for DISTRIBUTION and PARTIAL_EXIT.  Validating twice is
    validating once, a request with any other activity type (or none)
    has its amount returned untouched, and the cash flow the IRR derives
    from the activity is the same for the validated as for the submitted
    amount. *)
Theorem validated_amount_follows_sign_convention (value : Decimal) :
  is_money value ->
  (forall a,
     let r := validate_amount (Some (ActivityType_name a)) value in
     is_money r
     /\ Z.abs (cents r) = Z.abs (cents value)
     /\ match a with
        | INITIAL_INVESTMENT | CAPITAL_CALL => cents r <= 0
        | DISTRIBUTION | PARTIAL_EXIT => 0 <= cents r
        end
     /\ validate_amount (Some (ActivityType_name a)) r = r
     /\ forall (N : Numeric) (x : CapitalActivity.t),
          CapitalActivity.activity_type x = a ->
          cash_flow_of (with_amount r x) = cash_flow_of (with_amount value x))
  /\ (forall s,
        (forall a, s <> ActivityType_name a) ->
        validate_amount (Some s) value = value)
  /\ validate_amount None value = value.
Proof.
  intros Hm. pose proof (is_money_eq _ Hm) as Hv. destruct Hm as (_ & Hc).
  change (Dec.coef value) with (cents value) in Hc.
  set (c := cents value) in *. clearbody c. subst value.
  split; [|split].
  - intros a. cbv zeta. rewrite validate_amount_cents by exact Hc.
    set (c' := match a with
               | INITIAL_INVESTMENT | CAPITAL_CALL => - Z.abs c
               | DISTRIBUTION | PARTIAL_EXIT => Z.abs c
               end).
    assert (Hc' : Z.abs c' = Z.abs c) by (subst c'; destruct a; lia).
    split; [apply is_money_of_cents; lia|].
    split; [exact Hc'|].
    split; [subst c'; destruct a; simpl; lia|].
    split.
    + rewrite validate_amount_cents by lia. f_equal.
      subst c'. destruct a; lia.
    + intros N x Hx. unfold cash_flow_of, with_amount.
      cbn [CapitalActivity.activity_type CapitalActivity.amount].
      rewrite !abs_cents by lia. now rewrite Hc'.
  - intros s Hs. unfold validate_amount. cbn [existsb].
    assert (H1 : String.eqb s "INITIAL_INVESTMENT" = false)
      by (apply String.eqb_neq; exact (Hs INITIAL_INVESTMENT)).
    assert (H2 : String.eqb s "CAPITAL_CALL" = false)
      by (apply String.eqb_neq; exact (Hs CAPITAL_CALL)).
    assert (H3 : String.eqb s "DISTRIBUTION" = false)
      by (apply String.eqb_neq; exact (Hs DISTRIBUTION)).
    assert (H4 : String.eqb s "PARTIAL_EXIT" = false)
      by (apply String.eqb_neq; exact (Hs PARTIAL_EXIT)).
    now rewrite H1, H2, H3, H4.
  - reflexivity.
Qed.

Lemma validated_amount_follows_sign_convention_witness :
  validate_amount (Some "CAPITAL_CALL") (Dec.of_cents 250000)
  = Dec.of_cents (-250000)
  /\ validate_amount (Some "CAPITAL_CALL")
       (validate_amount (Some "CAPITAL_CALL") (Dec.of_cents 250000))
     = validate_amount (Some "CAPITAL_CALL") (Dec.of_cents 250000).
Proof.
  split; [reflexivity|].
  refine (proj1 (proj2 (proj2 (proj2
            (proj1 (validated_amount_follows_sign_convention
                      (Dec.of_cents 250000) _) CAPITAL_CALL))))).
  split; [reflexivity|]. rewrite pow10_15. simpl. lia.
Defined.

(** ** Creating a transfer *)

(** The transfers table after a save: the instance's row written, and at
    most the processed flag and the completion date of rows changed
    besides. *)
Lemma save_table now db x db' x' :
  OwnershipTransfer_save now db x = Ok (db', x') ->
  exists row g,
    OwnershipTransfer_to_row now (OwnershipTransfer_pre_save now x) = Ok row
    /\ ownership_transfers db'
       = map g (write_row OwnershipTransfer.id row (ownership_transfers db))
    /\ (forall r,
          g r = r
          \/ exists p c, g r = OwnershipTransfer.set_processed p c r)
    /\ (OwnershipTransfer.status x <> COMPLETED ->
        (forall r, g r = r) /\ same_ledger db db').
Proof.
  intros Hsave.
  destruct (TransferStatus_eqb (OwnershipTransfer.status x) COMPLETED) eqn:Est.
  - unfold OwnershipTransfer_save in Hsave.
    bind_inv Hsave. rename x0 into row. rename H into Hrow.
    bind_inv Hsave. destruct x0 as [[o dbh] th]. injection Hsave as <- <-.
    apply handler_transfers in H.
    cbn [ownership_transfers set_ownership_transfers] in H.
    apply TransferStatus_eqb_eq in Est.
    destruct H as [->|(c & ->)].
    + exists row, (fun r => r). split; [exact Hrow|].
      split; [now rewrite map_id|]. split; [now left|]. contradiction.
    + exists row. eexists. split; [exact Hrow|].
      split; [reflexivity|]. split; [|contradiction].
      intros r. cbv beta. destruct (_ =? _)%Z; eauto.
  - assert (Hst : OwnershipTransfer.status x <> COMPLETED).
    { intros E. apply TransferStatus_eqb_eq in E. congruence. }
    pose proof (save_same_ledger _ _ _ _ _ Hst Hsave) as Hledger.
    rewrite save_skips in Hsave by exact Hst.
    bind_inv Hsave. injection Hsave as <- _.
    exists x0, (fun r => r). split; [exact H|].
    split; [now rewrite map_id|]. split; [now left|]. auto.
Qed.

Lemma open_for_processed investment user p c r :
  open_for investment user (OwnershipTransfer.set_processed p c r)
  = open_for investment user r.
Proof. reflexivity. Qed.

Lemma filter_map_length_le {A} (p : A -> bool) (f : A -> A) (l : list A) :
  (forall r, In r l -> p (f r) = true -> p r = true) ->
  (List.length (filter p (map f l)) <= List.length (filter p l))%nat.
Proof.
  induction l as [|a l IH]; intros H; simpl; [lia|].
  assert (IH' : (List.length (filter p (map f l)) <= List.length (filter p l))%nat).
  { apply IH. intros r Hr. apply H. now right. }
  destruct (p (f a)) eqn:E.
  - rewrite (H a (or_introl eq_refl) E). simpl. lia.
  - destruct (p a); simpl; lia.
Qed.

Lemma filter_map_same {A} (p : A -> bool) (f : A -> A) (l : list A) :
  (forall r, p (f r) = p r) ->
  List.length (filter p (map f l)) = List.length (filter p l).
Proof.
  intros H. induction l as [|a l IH]; simpl; [reflexivity|].
  rewrite H. destruct (p a); simpl; now rewrite IH.
Qed.

(** Saving a row of the table again, under a status that is under way
    only if the row's was, adds no transfer under way to any sender and
    investment. *)
Lemma save_keeps_open_count now db transfer x db' x' :
  NoDup (map OwnershipTransfer.id (ownership_transfers db)) ->
  In transfer (ownership_transfers db) ->
  OwnershipTransfer.id x = OwnershipTransfer.id transfer ->
  OwnershipTransfer.investment x = OwnershipTransfer.investment transfer ->
  OwnershipTransfer.from_user x = OwnershipTransfer.from_user transfer ->
  (is_open (OwnershipTransfer.status x) = true ->
   is_open (OwnershipTransfer.status transfer) = true) ->
  OwnershipTransfer_save now db x = Ok (db', x') ->
  forall investment user,
    (List.length (open_transfers db' investment user)
     <= List.length (open_transfers db investment user))%nat.
Proof.
  intros Hnd Hin Hid Hinv Hfrom Hopen Hsave investment user.
  destruct (save_table _ _ _ _ _ Hsave) as (row & g & Hrow & Htab & Hg & _).
  apply OwnershipTransfer_to_row_fields in Hrow.
  destruct Hrow as (Rid & Rinv & Rfrom & _ & Rst & _).
  pose proof (OwnershipTransfer_pre_save_fields now x) as F.
  cbv zeta in F. destruct F as (Fid & Finv & Fst & _).
  rewrite Fid in Rid. rewrite Finv in Rinv. rewrite Fst in Rst.
  rewrite OwnershipTransfer_pre_save_from in Rfrom.
  assert (Hpg : forall r, open_for investment user (g r)
                          = open_for investment user r).
  { intros r. destruct (Hg r) as [->|(p & c & ->)]; reflexivity. }
  unfold open_transfers. rewrite Htab, filter_map_same by exact Hpg.
  unfold write_row.
  replace (has_pk OwnershipTransfer.id (OwnershipTransfer.id row)
             (ownership_transfers db)) with true.
  2: { symmetry. apply has_pk_in. rewrite Rid, Hid. now apply in_map. }
  unfold update_row. apply filter_map_length_le.
  intros r Hr. destruct (Z.eqb_spec (OwnershipTransfer.id r)
                           (OwnershipTransfer.id row)) as [E|E]; [|auto].
  assert (r = transfer).
  { apply (NoDup_pk_eq OwnershipTransfer.id _ r transfer Hnd Hr Hin).
    congruence. }
  subst r. unfold open_for.
  rewrite Rinv, Rfrom, Rst, Hinv, Hfrom, !andb_true_iff.
  intros ((H1 & H2) & H3). auto.
Qed.

Lemma at_most_one_open_le db db' :
  (forall investment user,
     (List.length (open_transfers db' investment user)
      <= List.length (open_transfers db investment user))%nat) ->
  at_most_one_open db -> at_most_one_open db'.
Proof.
  intros Hle H investment user.
  specialize (Hle investment user). specialize (H investment user). lia.
Qed.

(** What an accepted request for a new transfer guarantees. *)
Lemma validate_transfer_inv request_user db attrs validated_data :
  OwnershipTransferCreateSerializer_validate request_user db attrs
  = Valid validated_data ->
  validated_data = attrs
  /\ Investment.user (tattr_investment attrs) = User.id request_user
  /\ Investment.status (tattr_investment attrs) <> EXITED
  /\ (tattr_to_user attrs = None ->
      exists e, tattr_to_email attrs = Some e /\ e <> "")
  /\ (forall u, tattr_to_user attrs = Some u ->
                User.id u <> User.id request_user)
  /\ (tattr_transfer_type attrs = PARTIAL ->
      exists p,
        tattr_percentage attrs = Some p
        /\ Dec.ltb (Dec.of_Z 0) p = true
        /\ Dec.leb p (Dec.of_Z 100) = true)
  /\ Dec.leb (tattr_transfer_amount attrs) (Dec.of_Z 0) = false
  /\ open_transfers db (Investment.id (tattr_investment attrs))
       (User.id request_user) = [].
Proof.
  unfold OwnershipTransferCreateSerializer_validate.
  destruct (Z.eqb_spec (Investment.user (tattr_investment attrs))
              (User.id request_user)) as [Hown|]; cbn [negb]; [|discriminate].
  destruct (Investment.status (tattr_investment attrs)) eqn:Est;
    cbn [InvestmentStatus_eqb orb negb]; try discriminate.
  all: destruct (tattr_to_user attrs) as [u|] eqn:Hto.
  all: try (destruct (tattr_to_email attrs) as [e|] eqn:Hmail;
            [destruct (String.eqb_spec e "") as [|Hne]|]; try discriminate).
  all: try (destruct (is_user u request_user) eqn:Hself; [discriminate|]).
  all: destruct (tattr_transfer_type attrs) eqn:Hty;
         cbn [TransferType_eqb andb].
  all: try (destruct (tattr_percentage attrs) as [p|] eqn:Hp;
            cbn [given negb or_old]; [|discriminate];
            destruct (Dec.truthy p); cbn [negb]; [|discriminate];
            destruct (Dec.ltb (Dec.of_Z 0) p) eqn:Hp0;
              cbn [andb negb]; [|discriminate];
            destruct (Dec.leb p (Dec.of_Z 100)) eqn:Hp100;
              cbn [negb]; [|discriminate]).
  all: destruct (Dec.leb (tattr_transfer_amount attrs) (Dec.of_Z 0)) eqn:Hamt;
         [discriminate|].
  all: destruct (open_transfers db _ _) eqn:Hopen; cbn [negb];
         [|discriminate].
  all: intros H; injection H as <-.
  all: repeat split; try discriminate; try reflexivity; try assumption.
  all: try (intros _; eauto; fail).
  all: try (intros u' Hu'; injection Hu' as <-; unfold is_user in Hself;
            apply Z.eqb_neq in Hself; exact Hself).
  all: try (intros _; exists p; auto; fail).
Qed.

(** X12. What creating a transfer leaves behind.  A request that passes
    validation and is saved adds exactly one row to the transfers table,
    under a new key, and changes no other row's key.  The row's sender
    is the caller, who owns the investment; the investment is not
    EXITED; a registered recipient is never the owner of the investment
    (which is what the settlement theorems assume), and a transfer
    without one carries a recipient e-mail; the requested amount is
    above zero; the status is the requested one, DRAFT when none was
    given.  Unless the request itself asked for status COMPLETED, the
    creation leaves the ledger tables as they were and the row
    unprocessed. *)
Theorem created_transfer_is_well_formed now request_user db attrs db' t' :
  OwnershipTransferViewSet_perform_create now request_user db attrs
  = Valid (Ok (db', t')) ->
  exists row,
    In row (ownership_transfers db')
    /\ map OwnershipTransfer.id (ownership_transfers db')
       = (map OwnershipTransfer.id (ownership_transfers db)
          ++ [OwnershipTransfer.id row])%list
    /\ ~ In (OwnershipTransfer.id row)
           (map OwnershipTransfer.id (ownership_transfers db))
    /\ OwnershipTransfer.from_user row = request_user
    /\ OwnershipTransfer.investment row = Investment.id (tattr_investment attrs)
    /\ Investment.user (tattr_investment attrs) = User.id request_user
    /\ Investment.status (tattr_investment attrs) <> EXITED
    /\ OwnershipTransfer.to_user row = tattr_to_user attrs
    /\ (forall u, OwnershipTransfer.to_user row = Some u ->
                  User.id u <> Investment.user (tattr_investment attrs))
    /\ (OwnershipTransfer.to_user row = None ->
        exists e, tattr_to_email attrs = Some e /\ e <> "")
    /\ Dec.leb (tattr_transfer_amount attrs) (Dec.of_Z 0) = false
    /\ OwnershipTransfer.status row = or_old (tattr_status attrs) DRAFT
    /\ (OwnershipTransfer.status row <> COMPLETED ->
        same_ledger db db' /\ OwnershipTransfer.is_processed row = false).
Proof.
  unfold OwnershipTransferViewSet_perform_create.
  destruct (OwnershipTransferCreateSerializer_validate request_user db attrs)
    as [validated_data|f m] eqn:Hv; [|discriminate].
  apply validate_transfer_inv in Hv.
  destruct Hv as (-> & Hown & Hact & Hmail & Hself & _ & Hamt & _).
  intros H. injection H as H. unfold OwnershipTransferCreateSerializer_create in H.
  set (x := OwnershipTransfer.mk _ _ _ _ _ _ _ _ _ _ _ _ _ _ _ _ _ _ _) in H.
  destruct (save_table _ _ _ _ _ H) as (row & g & Hrow & Htab & Hg & Hquiet).
  apply OwnershipTransfer_to_row_fields in Hrow.
  destruct Hrow as (Rid & Rinv & Rfrom & Rto & Rst & Rp & _).
  pose proof (OwnershipTransfer_pre_save_fields now x) as F.
  cbv zeta in F. destruct F as (Fid & Finv & Fst & Fp & _ & Fto & _).
  rewrite Fid in Rid. rewrite Finv in Rinv. rewrite Fst in Rst.
  rewrite Fp in Rp. rewrite Fto in Rto.
  rewrite OwnershipTransfer_pre_save_from in Rfrom.
  subst x. cbn [OwnershipTransfer.id OwnershipTransfer.investment
    OwnershipTransfer.from_user OwnershipTransfer.to_user
    OwnershipTransfer.status OwnershipTransfer.is_processed] in *.
  assert (Hfresh : ~ In (OwnershipTransfer.id row)
                     (map OwnershipTransfer.id (ownership_transfers db))).
  { rewrite Rid. intros Hin. apply next_id_above in Hin. lia. }
  assert (Hno : has_pk OwnershipTransfer.id (OwnershipTransfer.id row)
                  (ownership_transfers db) = false).
  { destruct (has_pk _ _ _) eqn:E; [|reflexivity].
    apply has_pk_in in E. contradiction. }
  unfold write_row in Htab. rewrite Hno, map_app in Htab. cbn [map] in Htab.
  assert (Hgid : forall r, OwnershipTransfer.id (g r) = OwnershipTransfer.id r).
  { intros r. destruct (Hg r) as [->|(p & c & ->)]; reflexivity. }
  exists (g row). rewrite Htab.
  split; [apply in_or_app; right; now left|].
  split.
  { rewrite map_app, map_map. cbn [map]. rewrite Hgid. f_equal.
    apply map_ext. exact Hgid. }
  rewrite Hgid. split; [exact Hfresh|].
  assert (Hfields :
            OwnershipTransfer.from_user (g row) = OwnershipTransfer.from_user row
            /\ OwnershipTransfer.investment (g row)
               = OwnershipTransfer.investment row
            /\ OwnershipTransfer.to_user (g row) = OwnershipTransfer.to_user row
            /\ OwnershipTransfer.status (g row) = OwnershipTransfer.status row).
  { destruct (Hg row) as [->|(p & c & ->)]; repeat split. }
  destruct Hfields as (Gfrom & Ginv & Gto & Gst).
  rewrite Gfrom, Ginv, Gto, Gst, Rfrom, Rinv, Rto, Rst.
  repeat match goal with |- _ /\ _ => split end;
    try assumption; try reflexivity.
  - intros u Hu. rewrite Hown. now apply Hself.
  - intros Hst. destruct (Hquiet Hst) as (Hgid' & Hledger).
    split; [exact Hledger|]. rewrite Hgid'. exact Rp.
Qed.

Lemma created_transfer_is_well_formed_witness :
  let db := mkDatabase [Sample.holding 1 1 ACTIVE 5000000 5000000] [] [] [] [] in
  let attrs :=
    mkTransferAttrs (Sample.holding 1 1 ACTIVE 5000000 5000000)
      (Some Sample.buyer) None None PARTIAL (Some (Dec.of_cents 2000))
      (Dec.of_cents 1000000) "Deal" None in
  exists db' t' row,
    OwnershipTransferViewSet_perform_create Sample.now Sample.investor db attrs
    = Valid (Ok (db', t'))
    /\ ownership_transfers db' = [row]
    /\ OwnershipTransfer.status row = DRAFT
    /\ OwnershipTransfer.from_user row = Sample.investor.
Proof.
  intros db attrs.
  destruct (OwnershipTransferViewSet_perform_create Sample.now Sample.investor
              db attrs) as [[[db' t']|e]|f m] eqn:E.
  - destruct (created_transfer_is_well_formed _ _ _ _ _ _ E)
      as (row & Hin & Hids & _ & Hfrom & _ & _ & _ & _ & _ & _ & _ & Hst & _).
    exists db', t', row. split; [reflexivity|].
    split; [|split; [exact Hst|exact Hfrom]].
    destruct (ownership_transfers db') as [|r [|r' l]]; simpl in Hids;
      try discriminate Hids.
    destruct Hin as [<-|[]]. reflexivity.
  - vm_compute in E. discriminate E.
  - vm_compute in E. discriminate E.
Defined.

(** X13. No sender ever has two transfers under way out of one
    investment: if every sender has at most one DRAFT, PENDING or
    APPROVED transfer per investment, that is still so after a transfer
    is created through the serializer, and after [submit], [approve],
    [complete] or a cancellation, whatever they answer. *)
Theorem one_open_transfer_per_investment now request db :
  NoDup (map OwnershipTransfer.id (ownership_transfers db)) ->
  at_most_one_open db ->
  (forall user attrs db' t',
     OwnershipTransferViewSet_perform_create now user db attrs
     = Valid (Ok (db', t')) ->
     at_most_one_open db')
  /\ (forall pk resp db',
        submit now request db pk = Ok (resp, db') -> at_most_one_open db')
  /\ (forall pk resp db',
        approve now request db pk = Ok (resp, db') -> at_most_one_open db')
  /\ (forall pk resp db',
        complete now request db pk = Ok (resp, db') -> at_most_one_open db')
  /\ (forall instance r db',
        In instance (ownership_transfers db) ->
        perform_destroy now request db instance = Ok (r, db') ->
        at_most_one_open db').
Proof.
  intros Hnd Hinv.
  assert (Hop : forall transfer x db' x',
             In transfer (ownership_transfers db) ->
             OwnershipTransfer.id x = OwnershipTransfer.id transfer ->
             OwnershipTransfer.investment x = OwnershipTransfer.investment transfer ->
             OwnershipTransfer.from_user x = OwnershipTransfer.from_user transfer ->
             (is_open (OwnershipTransfer.status x) = true ->
              is_open (OwnershipTransfer.status transfer) = true) ->
             OwnershipTransfer_save now db x = Ok (db', x') ->
             at_most_one_open db').
  { intros transfer x db' x' Hin H1 H2 H3 H4 Hsave.
    apply (at_most_one_open_le db db'); [|exact Hinv].
    exact (save_keeps_open_count _ _ _ _ _ _ Hnd Hin H1 H2 H3 H4 Hsave). }
  split; [|split; [|split; [|split]]].
  - intros user attrs db' t'.
    unfold OwnershipTransferViewSet_perform_create.
    destruct (OwnershipTransferCreateSerializer_validate user db attrs)
      as [validated_data|f m] eqn:Hv; [|discriminate].
    apply validate_transfer_inv in Hv.
    destruct Hv as (-> & _ & _ & _ & _ & _ & _ & Hnone).
    intros H. injection H as H.
    unfold OwnershipTransferCreateSerializer_create in H.
    set (x := OwnershipTransfer.mk _ _ _ _ _ _ _ _ _ _ _ _ _ _ _ _ _ _ _) in H.
    destruct (save_table _ _ _ _ _ H) as (row & g & Hrow & Htab & Hg & _).
    apply OwnershipTransfer_to_row_fields in Hrow.
    destruct Hrow as (Rid & Rinv & Rfrom & _ & Rst & _).
    pose proof (OwnershipTransfer_pre_save_fields now x) as F.
    cbv zeta in F. destruct F as (Fid & Finv & Fst & _).
    rewrite Fid in Rid. rewrite Finv in Rinv. rewrite Fst in Rst.
    rewrite OwnershipTransfer_pre_save_from in Rfrom.
    subst x. cbn [OwnershipTransfer.id OwnershipTransfer.investment
      OwnershipTransfer.from_user OwnershipTransfer.status] in *.
    assert (Hno : has_pk OwnershipTransfer.id (OwnershipTransfer.id row)
                    (ownership_transfers db) = false).
    { destruct (has_pk _ _ _) eqn:E; [|reflexivity].
      apply has_pk_in in E. rewrite Rid in E. apply next_id_above in E. lia. }
    unfold write_row in Htab. rewrite Hno in Htab.
    intros investment u. unfold open_transfers.
    rewrite Htab, filter_map_same.
    2: { intros r. destruct (Hg r) as [->|(p & c & ->)]; reflexivity. }
    rewrite filter_app, length_app. cbn [filter].
    specialize (Hinv investment u). unfold open_transfers in Hinv, Hnone.
    destruct (open_for investment u row) eqn:E; [|simpl; lia].
    unfold open_for in E. rewrite Rinv, Rfrom, !andb_true_iff in E.
    destruct E as ((E1 & E2) & _).
    apply Z.eqb_eq in E1. apply Z.eqb_eq in E2. subst investment u.
    rewrite Hnone. simpl. lia.
  - intros pk resp db'. unfold submit.
    destruct (request_user request) as [user|];
      [|intros H; injection H as _ <-; exact Hinv].
    destruct (get_object request db pk) as [transfer|e] eqn:Hobj.
    2: { destruct e; try discriminate.
         intros H. injection H as _ <-. exact Hinv. }
    destruct (get_object_row _ _ _ _ Hnd Hobj) as (Hin & _).
    destruct (negb _); [intros H; injection H as _ <-; exact Hinv|].
    destruct (TransferStatus_eqb (OwnershipTransfer.status transfer) DRAFT)
      eqn:E; cbn [negb]; [|intros H; injection H as _ <-; exact Hinv].
    apply TransferStatus_eqb_eq in E.
    intros H. bind_inv H. destruct x as [db1 t1]. injection H as _ <-.
    apply (Hop transfer _ _ _ Hin) in H0; try reflexivity; [exact H0|].
    intros _. now rewrite E.
  - intros pk resp db'. unfold approve.
    destruct (negb _); [intros H; injection H as _ <-; exact Hinv|].
    destruct (get_object request db pk) as [transfer|e] eqn:Hobj.
    2: { destruct e; try discriminate.
         intros H. injection H as _ <-. exact Hinv. }
    destruct (get_object_row _ _ _ _ Hnd Hobj) as (Hin & _).
    destruct (TransferStatus_eqb (OwnershipTransfer.status transfer) PENDING)
      eqn:E; cbn [negb]; [|intros H; injection H as _ <-; exact Hinv].
    apply TransferStatus_eqb_eq in E.
    intros H. bind_inv H. destruct x as [db1 t1]. injection H as _ <-.
    apply (Hop transfer _ _ _ Hin) in H0; try reflexivity; [exact H0|].
    intros _. now rewrite E.
  - intros pk resp db'. unfold complete.
    destruct (negb _); [intros H; injection H as _ <-; exact Hinv|].
    destruct (get_object request db pk) as [transfer|e] eqn:Hobj.
    2: { destruct e; try discriminate.
         intros H. injection H as _ <-. exact Hinv. }
    destruct (get_object_row _ _ _ _ Hnd Hobj) as (Hin & _).
    destruct (negb _); [intros H; injection H as _ <-; exact Hinv|].
    intros H. bind_inv H. destruct x as [db1 t1]. injection H as _ <-.
    apply (Hop transfer _ _ _ Hin) in H0; try reflexivity; [exact H0|].
    discriminate.
  - intros instance r db' Hin. unfold perform_destroy.
    destruct (request_user request) as [user|];
      [|intros H; injection H as _ <-; exact Hinv].
    destruct (negb _); [intros H; injection H as _ <-; exact Hinv|].
    destruct (OwnershipTransfer.status instance);
      try (intros H; injection H as _ <-; exact Hinv);
      intros H; bind_inv H; destruct x as [db1 t1]; injection H as _ <-;
      (apply (Hop instance _ _ _ Hin) in H0; try reflexivity;
       [exact H0|discriminate]).
Qed.

Lemma one_open_transfer_per_investment_witness :
  exists resp db',
    complete Sample.now Sample.as_admin Sample.db_approved 1 = Ok (resp, db')
    /\ at_most_one_open db'.
Proof.
  destruct (complete Sample.now Sample.as_admin Sample.db_approved 1)
    as [[resp db']|e] eqn:E.
  - exists resp, db'. split; [reflexivity|].
    refine (proj1 (proj2 (proj2 (proj2
              (one_open_transfer_per_investment Sample.now Sample.as_admin
                 Sample.db_approved _ _)))) 1 resp db' E).
    + simpl. repeat constructor. simpl. tauto.
    + intros investment user. unfold open_transfers, Sample.db_approved.
      cbn [ownership_transfers Sample.database filter].
      destruct (open_for _ _ _); simpl; lia.
  - vm_compute in E. discriminate E.
Defined.

(** The status of a new transfer is a writable field: a request that
    asks for COMPLETED is settled by the very save that creates it. *)
Example transfer_created_as_completed :
  match
    OwnershipTransferViewSet_perform_create Sample.now Sample.investor
      (mkDatabase [Sample.holding 1 1 ACTIVE 5000000 5000000] [] [] [] [])
      (mkTransferAttrs (Sample.holding 1 1 ACTIVE 5000000 5000000)
         (Some Sample.buyer) None None PARTIAL (Some (Dec.of_cents 2000))
         (Dec.of_cents 1000000) "Deal" (Some COMPLETED))
  with
  | Valid (Ok (db, transfer)) =>
      map (fun i => (Investment.user i, Investment.current_value i))
          (investments db)
      = [(1, Dec.of_cents 4000000); (2, Dec.of_cents 1000000)]
      /\ OwnershipTransfer.is_processed transfer = true
  | _ => False
  end.
Proof. vm_compute. split; reflexivity. Qed.

(** ** Decimal division *)

Lemma digits_fuel_spec (fuel : nat) :
  forall n, 0 < n -> n < 2 ^ Z.of_nat fuel ->
            10 ^ (Dec.digits_fuel fuel n - 1) <= n < 10 ^ Dec.digits_fuel fuel n
            /\ 1 <= Dec.digits_fuel fuel n.
Proof.
  induction fuel as [|f IH]; intros n Hpos Hlt.
  - simpl in Hlt. lia.
  - cbn [Dec.digits_fuel]. destruct (Z.ltb_spec n 10) as [H10|H10].
    + change (10 ^ (1 - 1)) with 1. change (10 ^ 1) with 10. lia.
    + assert (Hq : 0 < n / 10) by (apply Z.div_str_pos; lia).
      assert (Hql : n / 10 < 2 ^ Z.of_nat f).
      { rewrite Nat2Z.inj_succ, Z.pow_succ_r in Hlt by lia.
        apply Z.div_lt_upper_bound; lia. }
      destruct (IH _ Hq Hql) as ((Hlo & Hhi) & Hd).
      set (d := Dec.digits_fuel f (n / 10)) in *.
      replace (1 + d - 1) with (Z.succ (d - 1)) by lia.
      replace (1 + d) with (Z.succ d) by lia.
      rewrite !Z.pow_succ_r by lia.
      pose proof (Z.div_mod n 10 ltac:(lia)) as Hdm.
      pose proof (Z.mod_pos_bound n 10 ltac:(lia)) as Hm.
      lia.
Qed.

Lemma digits_spec (n : Z) :
  n <> 0 ->
  10 ^ (Dec.digits n - 1) <= Z.abs n < 10 ^ Dec.digits n /\ 1 <= Dec.digits n.
Proof.
  intros Hn. unfold Dec.digits. apply digits_fuel_spec; [lia|].
  rewrite Nat2Z.inj_succ, Z2Nat.id by apply Z.log2_nonneg.
  apply Z.log2_spec. lia.
Qed.

Lemma div_half_even_pos (n d : Z) :
  0 < d -> d <= n -> 0 < Dec.div_half_even n d.
Proof.
  intros Hd Hn. unfold Dec.div_half_even.
  assert (1 <= n / d) by (apply Z.div_le_lower_bound; lia).
  destruct (2 * (n mod d) ?= d)%Z; [destruct (Z.even _)| |]; lia.
Qed.

Lemma div_half_even_neg (n d : Z) :
  0 < d -> n <= - (2 * d) -> Dec.div_half_even n d < 0.
Proof.
  intros Hd Hn. unfold Dec.div_half_even.
  assert (n / d <= -2).
  { assert (n / d < -1); [|lia]. apply Z.div_lt_upper_bound; lia. }
  destruct (2 * (n mod d) ?= d)%Z; [destruct (Z.even _)| |]; lia.
Qed.

(** Rounding to the context precision keeps the sign. *)
Lemma fix_sgn (d : Decimal) :
  Z.sgn (Dec.coef (Dec.fix_ d)) = Z.sgn (Dec.coef d).
Proof.
  destruct d as [c e]. unfold Dec.fix_. cbn [Dec.coef Dec.expo].
  destruct (Z.ltb_spec (Z.abs c) (10 ^ Dec.prec)) as [Hs|Hs]; [reflexivity|].
  rewrite pow10_28 in *.
  assert (Hc : c <> 0) by lia.
  destruct (digits_spec c Hc) as ((Hlo & Hhi) & Hd1).
  set (dg := Dec.digits c) in *.
  assert (Hdg : 29 <= dg).
  { destruct (Z.le_gt_cases 29 dg) as [|Hlt]; [assumption|exfalso].
    assert (10 ^ dg <= 10 ^ 28) by (apply Z.pow_le_mono_r; lia).
    change (10 ^ 28) with 10000000000000000000000000000 in *. lia. }
  unfold Dec.prec in *.
  set (k := dg - 28) in *.
  assert (Hk : 1 <= k) by (unfold k; lia).
  assert (Hpk : 0 < 10 ^ k) by (apply Z.pow_pos_nonneg; lia).
  assert (Hsplit : 10 ^ (dg - 1) = 10 ^ 27 * 10 ^ k).
  { rewrite <- Z.pow_add_r by lia. f_equal. unfold k. lia. }
  change (10 ^ 27) with 1000000000000000000000000000 in Hsplit.
  set (c' := Dec.div_half_even c (10 ^ k)).
  assert (Hc' : (0 < c -> 1000000000000000000000000000 <= c')
                /\ (c < 0 -> c' <= -1000000000000000000000000000 + 1)).
  { unfold c', Dec.div_half_even. split; intros Hsign.
    - assert (1000000000000000000000000000 <= c / 10 ^ k)
        by (apply Z.div_le_lower_bound; lia).
      destruct (2 * (c mod 10 ^ k) ?= 10 ^ k)%Z; [destruct (Z.even _)| |]; lia.
    - assert (c / 10 ^ k < -1000000000000000000000000000 + 1).
      { apply Z.div_lt_upper_bound; [lia|]. nia. }
      destruct (2 * (c mod 10 ^ k) ?= 10 ^ k)%Z; [destruct (Z.even _)| |]; lia. }
  destruct Hc' as (Hp & Hn).
  destruct (Z.ltb_spec (Z.abs c') 10000000000000000000000000000) as [Hs'|Hs'];
    cbn [Dec.coef].
  - destruct (Z.lt_trichotomy c 0) as [H|[H|H]]; [|lia|].
    + specialize (Hn H). rewrite !Z.sgn_neg; lia.
    + specialize (Hp H). rewrite !Z.sgn_pos; lia.
  - destruct (Z.lt_trichotomy c 0) as [H|[H|H]]; [|lia|].
    + specialize (Hn H).
      assert (c' / 10 < 0) by (apply Z.div_lt_upper_bound; lia).
      rewrite !Z.sgn_neg; lia.
    + specialize (Hp H).
      assert (0 < c' / 10) by (apply Z.div_str_pos; lia).
      rewrite !Z.sgn_pos; lia.
Qed.

Lemma strip_pos (fuel : nat) :
  forall c e ideal, 0 < c -> 0 < fst (Dec.strip fuel c e ideal).
Proof.
  induction fuel as [|f IH]; intros c e ideal Hc; cbn [Dec.strip fst];
    [exact Hc|].
  destruct (e <? ideal)%Z; cbn [andb]; [|exact Hc].
  destruct (Z.eqb_spec (c mod 10) 0) as [Hm|]; [|exact Hc].
  apply IH. apply Z.div_str_pos.
  pose proof (Z.div_mod c 10 ltac:(lia)). lia.
Qed.

(** The quotient of two non-zero decimals exists and has the sign of the
    exact quotient. *)
Lemma div_sgn (a b : Decimal) :
  Dec.coef a <> 0 -> Dec.coef b <> 0 ->
  exists r,
    Dec.div a b = Some r
    /\ Z.sgn (Dec.coef r) = Z.sgn (Dec.coef a) * Z.sgn (Dec.coef b).
Proof.
  intros Ha Hb. unfold Dec.div.
  destruct (Z.eqb_spec (Dec.coef b) 0) as [|_]; [contradiction|].
  destruct (Z.eqb_spec (Dec.coef a) 0) as [|_]; [contradiction|].
  cbv zeta.
  set (n1 := Z.abs (Dec.coef a)). set (n2 := Z.abs (Dec.coef b)).
  assert (Hn1 : 0 < n1) by (unfold n1; lia).
  assert (Hn2 : 0 < n2) by (unfold n2; lia).
  destruct (digits_spec n1 ltac:(lia)) as ((L1 & U1) & D1).
  destruct (digits_spec n2 ltac:(lia)) as ((L2 & U2) & D2).
  rewrite Z.abs_eq in L1, U1, L2, U2 by lia.
  set (d1 := Dec.digits n1) in *. set (d2 := Dec.digits n2) in *.
  unfold Dec.prec.
  set (shift := d2 - d1 + 28 + 1).
  set (qr := if (0 <=? shift)%Z then Z.div_eucl (n1 * 10 ^ shift) n2
             else Z.div_eucl n1 (n2 * 10 ^ (- shift))).
  assert (Hq : 0 < fst qr).
  { unfold qr. destruct (Z.leb_spec 0 shift) as [Hs|Hs].
    - change (fst (Z.div_eucl (n1 * 10 ^ shift) n2))
        with ((n1 * 10 ^ shift) / n2).
      apply Z.div_str_pos. split; [lia|].
      assert (10 ^ d2 <= 10 ^ (d1 - 1) * 10 ^ shift).
      { rewrite <- Z.pow_add_r by lia. apply Z.pow_le_mono_r; unfold shift; lia. }
      assert (0 < 10 ^ shift) by (apply Z.pow_pos_nonneg; lia).
      nia.
    - change (fst (Z.div_eucl n1 (n2 * 10 ^ (- shift))))
        with (n1 / (n2 * 10 ^ (- shift))).
      assert (0 < 10 ^ (- shift)) by (apply Z.pow_pos_nonneg; lia).
      apply Z.div_str_pos. split; [nia|].
      assert (10 ^ d2 * 10 ^ (- shift) <= 10 ^ (d1 - 1)).
      { rewrite <- Z.pow_add_r by lia. apply Z.pow_le_mono_r; unfold shift; lia. }
      nia. }
  destruct qr as [q r]. cbn [fst] in Hq.
  set (ce := if (r =? 0)%Z
             then Dec.strip (Z.to_nat shift) q
                    (Dec.expo a - Dec.expo b - shift)
                    (Dec.expo a - Dec.expo b)
             else (if (q mod 5 =? 0)%Z then q + 1 else q,
                   Dec.expo a - Dec.expo b - shift)).
  assert (Hc : 0 < fst ce).
  { unfold ce. destruct (r =? 0)%Z; [now apply strip_pos|].
    cbn [fst]. destruct (q mod 5 =? 0)%Z; lia. }
  destruct ce as [c e']. cbn [fst] in Hc.
  eexists. split; [reflexivity|].
  rewrite fix_sgn. cbn [Dec.coef].
  rewrite Z.sgn_mul, (Z.sgn_pos c) by exact Hc.
  rewrite Z.sgn_mul, !Z.sgn_sgn. lia.
Qed.

Lemma mul_sgn (a b : Decimal) :
  Z.sgn (Dec.coef (Dec.mul a b)) = Z.sgn (Dec.coef a) * Z.sgn (Dec.coef b).
Proof.
  unfold Dec.mul. rewrite fix_sgn. cbn [Dec.coef]. apply Z.sgn_mul.
Qed.

Lemma div_sgn_any (a b : Decimal) :
  Dec.coef b <> 0 ->
  exists r,
    Dec.div a b = Some r
    /\ Z.sgn (Dec.coef r) = Z.sgn (Dec.coef a) * Z.sgn (Dec.coef b).
Proof.
  intros Hb. destruct (Z.eq_dec (Dec.coef a) 0) as [Ha|Ha].
  - unfold Dec.div.
    destruct (Z.eqb_spec (Dec.coef b) 0) as [|_]; [contradiction|].
    rewrite Ha. cbn [Z.eqb]. eexists. split; [reflexivity|].
    rewrite fix_sgn. reflexivity.
  - now apply div_sgn.
Qed.

(** A non-zero value divided by itself is exactly 1. *)
Lemma div_self (a : Decimal) :
  Dec.coef a <> 0 -> Dec.div a a = Some (Dec.of_Z 1).
Proof.
  intros Ha. unfold Dec.div.
  destruct (Z.eqb_spec (Dec.coef a) 0) as [|_]; [contradiction|].
  cbv zeta. set (n := Z.abs (Dec.coef a)).
  assert (Hn : 0 < n) by (unfold n; lia).
  replace (Dec.digits n - Dec.digits n + Dec.prec + 1) with 29
    by (unfold Dec.prec; lia).
  change (0 <=? 29)%Z with true. cbv iota.
  assert (Hqr : Z.div_eucl (n * 10 ^ 29) n = (10 ^ 29, 0)).
  { rewrite (surjective_pairing (Z.div_eucl (n * 10 ^ 29) n)).
    change (fst (Z.div_eucl (n * 10 ^ 29) n)) with ((n * 10 ^ 29) / n).
    change (snd (Z.div_eucl (n * 10 ^ 29) n)) with ((n * 10 ^ 29) mod n).
    rewrite Z.mul_comm, Z.div_mul, Z.mod_mul by lia. reflexivity. }
  rewrite Hqr. change (0 =? 0)%Z with true. cbv iota.
  rewrite Z.sub_diag.
  change (Dec.strip (Z.to_nat 29) (10 ^ 29) (0 - 29) 0) with (1, 0).
  cbv iota beta.
  replace (Z.sgn (Dec.coef a) * Z.sgn (Dec.coef a) * 1) with 1.
  - reflexivity.
  - destruct (Z.lt_trichotomy (Dec.coef a) 0) as [H|[H|H]]; [|lia|].
    + rewrite Z.sgn_neg by lia. reflexivity.
    + rewrite Z.sgn_pos by lia. reflexivity.
Qed.

(** ** Derived figures of an investment *)

(** X14. Gain percentage and MOIC of a stored investment never raise:
    with a cost basis of zero (or below) both are 0.00, the division
    being skipped; with a positive cost basis both exist, the gain
    percentage is negative, zero or positive as the current value is
    below, at or above cost, the multiple is zero exactly for a current
    value of zero and positive otherwise, and a position valued at cost
    has a multiple of exactly 1. *)
Theorem gain_percentage_and_moic (self : Investment.t) :
  investment_columns self ->
  (cents (Investment.total_invested self) <= 0 ->
   Investment_unrealized_gain_percentage self = Ok Dec.zero2
   /\ Investment_moic self = Ok Dec.zero2)
  /\ (0 < cents (Investment.total_invested self) ->
      exists p m,
        Investment_unrealized_gain_percentage self = Ok p
        /\ Investment_moic self = Ok m
        /\ Z.sgn (Dec.coef p)
           = Z.sgn (cents (Investment.current_value self)
                    - cents (Investment.total_invested self))
        /\ Z.sgn (Dec.coef m) = Z.sgn (cents (Investment.current_value self))
        /\ (Investment.current_value self = Investment.total_invested self ->
            m = Dec.of_Z 1)).
Proof.
  intros (Hti & Hcv).
  pose proof (is_money_eq _ Hti) as Eti. pose proof (is_money_eq _ Hcv) as Ecv.
  destruct Hti as (_ & Bti). destruct Hcv as (_ & Bcv).
  change (Dec.coef (Investment.total_invested self))
    with (cents (Investment.total_invested self)) in Bti.
  change (Dec.coef (Investment.current_value self))
    with (cents (Investment.current_value self)) in Bcv.
  set (ti := cents (Investment.total_invested self)) in *.
  set (cv := cents (Investment.current_value self)) in *.
  unfold Investment_unrealized_gain_percentage, Investment_moic,
    Investment_unrealized_gain.
  rewrite Eti, Ecv, ltb_zero_left.
  unfold Dec.truthy. cbn [Dec.coef Dec.of_cents].
  split.
  - intros Hle. destruct (Z.ltb_spec 0 ti) as [|_]; [lia|].
    rewrite andb_false_r. auto.
  - intros Hpos. destruct (Z.ltb_spec 0 ti) as [_|]; [|lia].
    destruct (Z.eqb_spec ti 0) as [|_]; [lia|]. cbn [negb andb].
    rewrite sub_cents by assumption.
    destruct (div_sgn_any (Dec.of_cents (cv - ti)) (Dec.of_cents ti))
      as (q & Hq & Sq); [cbn; lia|].
    destruct (div_sgn_any (Dec.of_cents cv) (Dec.of_cents ti))
      as (m & Hm & Sm); [cbn; lia|].
    cbn [Dec.coef Dec.of_cents] in Sq, Sm.
    rewrite (Z.sgn_pos ti) in Sq, Sm by exact Hpos.
    rewrite Hq, Hm. exists (Dec.mul q (Dec.of_Z 100)), m.
    split; [reflexivity|]. split; [reflexivity|].
    split; [|split].
    + rewrite mul_sgn, Sq. cbn. lia.
    + lia.
    + intros Heq. injection Heq as Heq. rewrite Heq in Hm.
      rewrite div_self in Hm by (cbn; lia). now injection Hm as <-.
Qed.

Lemma gain_percentage_and_moic_witness :
  exists p m,
    Investment_unrealized_gain_percentage
      (Sample.holding 1 1 ACTIVE 1000000 1250000) = Ok p
    /\ Investment_moic (Sample.holding 1 1 ACTIVE 1000000 1250000) = Ok m
    /\ Z.sgn (Dec.coef p) = 1
    /\ Z.sgn (Dec.coef m) = 1.
Proof.
  assert (Hcols : investment_columns
                    (Sample.holding 1 1 ACTIVE 1000000 1250000)).
  { split; (split; [reflexivity|rewrite pow10_15; simpl; lia]). }
  destruct (proj2 (gain_percentage_and_moic _ Hcols))
    as (p & m & Hp & Hm & Sp & Sm & _).
  - simpl. lia.
  - exists p, m. auto.
Defined.

Lemma ltb_zero_truthy (d : Decimal) :
  Dec.ltb (Dec.of_Z 0) d = true -> Dec.truthy d = true.
Proof.
  unfold Dec.ltb, Dec.align, Dec.truthy, Dec.of_Z. cbn [Dec.coef Dec.expo].
  rewrite Z.mul_0_l. intros H. apply Z.ltb_lt in H.
  destruct (Z.eqb_spec (Dec.coef d) 0) as [E|]; [|reflexivity].
  rewrite E in H. lia.
Qed.

(** X15. A saved value shows in the performance history: after an
    investment with a positive current value has been saved, its history
    over any window of [days >= 0] holds a snapshot dated the day of the
    save - the value just written if the investment had no snapshot for
    the day, the one already there otherwise.  The history lists
    snapshots of this investment only, none older than the window, in
    order of date. *)
Theorem saved_value_shows_in_history now db i db' days :
  Investment_save now db i = Ok db' ->
  Dec.ltb (Dec.of_Z 0) (Investment.current_value i) = true ->
  0 <= days ->
  (exists s,
     In s (Investment_get_performance_history now db' i days)
     /\ PerformanceSnapshot.date_ s = date_of now
     /\ ((forall s0, In s0 (performance_snapshots db) ->
                     PerformanceSnapshot.investment s0 = Investment.id i ->
                     PerformanceSnapshot.date_ s0 <> date_of now) ->
         to_column 15 (Investment.current_value i)
         = Ok (PerformanceSnapshot.value s))
     /\ ((exists s0, In s0 (performance_snapshots db)
                     /\ PerformanceSnapshot.investment s0 = Investment.id i
                     /\ PerformanceSnapshot.date_ s0 = date_of now) ->
         In s (performance_snapshots db)))
  /\ (forall s,
        In s (Investment_get_performance_history now db' i days) ->
        In s (performance_snapshots db')
        /\ PerformanceSnapshot.investment s = Investment.id i
        /\ date_of now - days <= PerformanceSnapshot.date_ s)
  /\ StronglySorted
       (fun a b => PerformanceSnapshot.date_ a <= PerformanceSnapshot.date_ b)
       (Investment_get_performance_history now db' i days).
Proof.
  intros Hsave Hpos Hdays.
  assert (Hin_hist : forall s,
             In s (Investment_get_performance_history now db' i days)
             <-> In s (performance_snapshots db')
                 /\ PerformanceSnapshot.investment s = Investment.id i
                 /\ date_of now - days <= PerformanceSnapshot.date_ s).
  { intros s. unfold Investment_get_performance_history.
    rewrite order_by_in, filter_In, andb_true_iff, Z.eqb_eq, Z.leb_le.
    tauto. }
  split; [|split].
  - unfold Investment_save in Hsave. bind_inv Hsave.
    unfold create_performance_snapshot in Hsave.
    rewrite Hpos, (ltb_zero_truthy _ Hpos) in Hsave. cbn [andb] in Hsave.
    cbn [performance_snapshots set_investments] in Hsave.
    destruct (existsb _ (performance_snapshots db)) eqn:Eex;
      cbn [negb] in Hsave.
    + injection Hsave as <-.
      apply existsb_exists in Eex. destruct Eex as (s & Hs & Hk).
      apply andb_true_iff in Hk. destruct Hk as (K1 & K2).
      apply Z.eqb_eq in K1. apply Z.eqb_eq in K2.
      exists s. split; [|split; [exact K2|split]].
      * apply Hin_hist. cbn [performance_snapshots set_investments].
        split; [exact Hs|]. split; [exact K1|]. lia.
      * intros Hnone. exfalso. exact (Hnone s Hs K1 K2).
      * intros _. exact Hs.
    + bind_inv Hsave. injection Hsave as <-.
      eexists. split; [|split; [|split]].
      * apply Hin_hist.
        cbn [performance_snapshots set_performance_snapshots set_investments].
        split; [apply in_or_app; right; left; reflexivity|].
        cbn [PerformanceSnapshot.investment PerformanceSnapshot.date_].
        split; [reflexivity|lia].
      * reflexivity.
      * intros _. exact H0.
      * intros (s0 & Hs0 & K1 & K2). exfalso.
        assert (Ht : existsb (fun s =>
                      (PerformanceSnapshot.investment s =? Investment.id i)%Z
                      && (PerformanceSnapshot.date_ s =? date_of now)%Z)
                   (performance_snapshots db) = true).
        { apply existsb_exists. exists s0. split; [exact Hs0|].
          now rewrite K1, K2, !Z.eqb_refl. }
        congruence.
  - intros s Hs. now apply Hin_hist.
  - unfold Investment_get_performance_history.
    apply Sorted_StronglySorted; [intros a b c; lia|].
    eapply Sorted_weaken; [|apply order_by_sorted].
    + intros a b H. apply Z.ltb_ge in H. exact H.
    + intros a b. rewrite Z.ltb_lt, Z.ltb_ge. lia.
Qed.

Lemma saved_value_shows_in_history_witness :
  exists db' s,
    Investment_save Sample.now (mkDatabase [] [] [] [] [])
      (Sample.holding 1 1 ACTIVE 5000000 5000000) = Ok db'
    /\ In s (Investment_get_performance_history Sample.now db'
               (Sample.holding 1 1 ACTIVE 5000000 5000000) 365)
    /\ PerformanceSnapshot.date_ s = date_of Sample.now
    /\ PerformanceSnapshot.value s = Dec.of_cents 5000000.
Proof.
  destruct (Investment_save Sample.now (mkDatabase [] [] [] [] [])
              (Sample.holding 1 1 ACTIVE 5000000 5000000)) as [db'|e] eqn:E.
  - destruct (proj1 (saved_value_shows_in_history Sample.now _ _ db' 365 E
                       eq_refl ltac:(lia)))
      as (s & Hin & Hd & Hv & _).
    exists db', s. split; [reflexivity|]. split; [exact Hin|].
    split; [exact Hd|].
    assert (Hnone : forall s0 : PerformanceSnapshot.t,
               In s0 (performance_snapshots (mkDatabase [] [] [] [] [])) ->
               PerformanceSnapshot.investment s0
               = Investment.id (Sample.holding 1 1 ACTIVE 5000000 5000000) ->
               PerformanceSnapshot.date_ s0 <> date_of Sample.now)
      by (intros s0 []).
    specialize (Hv Hnone).
    change (Ok (Dec.of_cents 5000000) = Ok (PerformanceSnapshot.value s)) in Hv.
    injection Hv as Hv. symmetry. exact Hv.
  - vm_compute in E. discriminate E.
Defined.

(** A horizon is counted in years of 365 days, and a horizon of zero
    years is no horizon. *)
Example expected_end_date_of_five_years :
  let self years :=
    Investment.mk 1 1 "Inv1" ACTIVE TECHNOLOGY Dec.zero2 Dec.zero2 None
      Dec.zero2 "" 20000 years None Dec.zero2 0 0 in
  Investment_expected_end_date (self (Some 5)) = Some 21825
  /\ Investment_expected_end_date (self (Some 0)) = None
  /\ Investment_expected_end_date (self None) = None.
Proof. repeat split. Qed.

(** ** What a settlement does to the holdings' keys *)

Section KeyedWrites.

Context {A K : Type} (pk_of : A -> Z) (key : A -> K).

Lemma map_key_update_row (row : A) (rows : list A) :
  (forall r, In r rows -> pk_of r = pk_of row -> key r = key row) ->
  map key (update_row pk_of (pk_of row) (fun _ => row) rows) = map key rows.
Proof.
  intros H. unfold update_row. rewrite map_map. apply map_ext_in.
  intros r Hr. destruct (Z.eqb_spec (pk_of r) (pk_of row)); [|reflexivity].
  symmetry. now apply H.
Qed.

Lemma map_key_write_row (row : A) (rows : list A) :
  (forall r, In r rows -> pk_of r = pk_of row -> key r = key row) ->
  map key (write_row pk_of row rows)
  = if has_pk pk_of (pk_of row) rows then map key rows
    else (map key rows ++ [key row])%list.
Proof.
  intros H. unfold write_row. destruct (has_pk pk_of (pk_of row) rows).
  - now apply map_key_update_row.
  - now rewrite map_app.
Qed.

End KeyedWrites.

Lemma Investment_to_row_key now i row :
  Investment_to_row now i = Ok row -> holding_key row = holding_key i.
Proof.
  intros H. apply Investment_to_row_fields in H.
  destruct H as (H1 & H2 & H3 & _). unfold holding_key. congruence.
Qed.

(** A committed settlement keeps key, owner and fund name of every
    holding, and adds at most one holding: the buyer's, under a new
    key. *)
Lemma settlement_keys now db t db1 t1 buyer seller :
  handle_transfer_completion now db t = Ok (Processed, db1, t1) ->
  OwnershipTransfer.to_user t = Some buyer ->
  get_by_pk Investment.id (OwnershipTransfer.investment t) (investments db)
    = Ok seller ->
  NoDup (map Investment.id (investments db)) ->
  map holding_key (investments db1) = map holding_key (investments db)
  \/ map holding_key (investments db1)
     = (map holding_key (investments db)
        ++ [(next_id (map Investment.id (investments db)), User.id buyer,
             Investment.name seller)])%list.
Proof.
  intros H Hb Hs Hnd.
  destruct (settlement_investments _ _ _ _ _ _ _ H Hb Hs)
    as (s & rowS & b & rowB & I1 & I2 & Hsa & HrowS & HI1 & Hcase & HrowB & Hdb1).
  pose proof (seller_after_transfer_fields _ _ _ Hsa) as (Hsid & Hsu & Hsn & _).
  pose proof (Investment_to_row_key _ _ _ HrowS) as KS.
  pose proof (Investment_to_row_key _ _ _ HrowB) as KB.
  pose proof (Investment_to_row_fields _ _ _ HrowS) as (HSid & _).
  pose proof (Investment_to_row_fields _ _ _ HrowB) as (HBid & _).
  pose proof (get_by_pk_in _ _ _ _ Hs) as (Hin & Hpk).
  assert (Ks : holding_key s = holding_key seller)
    by (unfold holding_key; congruence).
  change (holding_key (buyer_after_transfer t b)) with (holding_key b) in KB.
  change (Investment.id (buyer_after_transfer t b)) with (Investment.id b)
    in HBid.
  assert (HK1 : map holding_key I1 = map holding_key (investments db)).
  { rewrite HI1, (map_key_write_row Investment.id holding_key).
    - rewrite (proj2 (has_pk_in Investment.id _ _)); [reflexivity|].
      rewrite HSid, Hsid. now apply in_map.
    - intros r Hr Hrpk.
      rewrite (NoDup_pk_eq Investment.id _ r seller Hnd Hr Hin) by congruence.
      congruence. }
  assert (Hid1 : map Investment.id I1 = map Investment.id (investments db)).
  { apply (f_equal (map (fun k => fst (fst k)))) in HK1.
    rewrite !map_map in HK1. exact HK1. }
  assert (Hnd1 : NoDup (map Investment.id I1)) by (now rewrite Hid1).
  destruct Hcase as [(Hf & ->)
                    |(Hf & Hid & Hu & Hn & _ & _ & _ & rowN & HrowN & ->)].
  - left. rewrite Hdb1, (map_key_write_row Investment.id holding_key).
    + assert (Hbin : In b I1).
      { assert (Hb' : In b [b]) by now left.
        rewrite <- Hf in Hb'. now apply filter_In in Hb'. }
      rewrite (proj2 (has_pk_in Investment.id _ _)); [exact HK1|].
      rewrite HBid. now apply in_map.
    + intros r Hr Hrpk.
      assert (Hbin : In b I1).
      { assert (Hb' : In b [b]) by now left.
        rewrite <- Hf in Hb'. now apply filter_In in Hb'. }
      rewrite (NoDup_pk_eq Investment.id _ r b Hnd1 Hr Hbin) by congruence.
      now rewrite KB.
  - right.
    pose proof (Investment_to_row_key _ _ _ HrowN) as KN.
    pose proof (Investment_to_row_fields _ _ _ HrowN) as (HNid & _).
    assert (Hfresh : has_pk Investment.id (Investment.id rowN) I1 = false).
    { destruct (has_pk Investment.id (Investment.id rowN) I1) eqn:E;
        [|reflexivity].
      apply has_pk_in in E. apply next_id_above in E. lia. }
    assert (HI2 : write_row Investment.id rowN I1 = (I1 ++ [rowN])%list)
      by (unfold write_row; now rewrite Hfresh).
    rewrite Hdb1, HI2, (map_key_write_row Investment.id holding_key).
    + rewrite (proj2 (has_pk_in Investment.id _ _)).
      * rewrite map_app, HK1. cbn [map]. rewrite KN. unfold holding_key.
        rewrite Hid, Hu, Hn, Hsn, Hid1. reflexivity.
      * rewrite map_app. apply in_or_app. right. left. congruence.
    + intros r Hr Hrpk. apply in_app_or in Hr. destruct Hr as [Hr|[<-|[]]].
      * exfalso.
        assert (Hlt : Investment.id r < next_id (map Investment.id I1))
          by (apply next_id_above; now apply in_map).
        lia.
      * congruence.
Qed.

(** ** Distribution history *)

Lemma StronglySorted_map {A B} (R : B -> B -> Prop) (g : A -> B) (l : list A) :
  StronglySorted (fun a b => R (g a) (g b)) l -> StronglySorted R (map g l).
Proof.
  induction 1 as [|a l Hs IH Hall]; cbn [map]; constructor; [exact IH|].
  apply Forall_forall. intros b Hb. apply in_map_iff in Hb.
  destruct Hb as (x & <- & Hx). rewrite Forall_forall in Hall. now apply Hall.
Qed.

Lemma distributions_of_user_in db user a i :
  In (a, i) (distributions_of_user db user)
  <-> In a (capital_activities db)
      /\ In i (investments db)
      /\ Investment.id i = CapitalActivity.investment a
      /\ Investment.user i = User.id user
      /\ is_distribution a = true.
Proof.
  unfold distributions_of_user, activities_of_user, joined_rows.
  rewrite filter_In, in_flat_map. cbn [fst]. split.
  - intros ((a' & Ha & Hp) & Hd). apply in_map_iff in Hp.
    destruct Hp as (i' & Heq & Hi). injection Heq as -> ->.
    apply filter_In in Hi. destruct Hi as (Hi & Hk).
    apply andb_true_iff in Hk. destruct Hk as (K1 & K2).
    apply Z.eqb_eq in K1. apply Z.eqb_eq in K2. auto.
  - intros (Ha & Hi & K1 & K2 & Hd). split; [|exact Hd].
    exists a. split; [exact Ha|]. apply in_map. apply filter_In.
    split; [exact Hi|]. now rewrite K1, K2, !Z.eqb_refl.
Qed.

Lemma distribution_history_in db user e :
  In e (get_distribution_history db user)
  <-> exists a i,
        In a (capital_activities db)
        /\ In i (investments db)
        /\ Investment.id i = CapitalActivity.investment a
        /\ Investment.user i = User.id user
        /\ is_distribution a = true
        /\ e = distribution_entry a i.
Proof.
  unfold get_distribution_history. rewrite in_map_iff. split.
  - intros ((a & i) & <- & Hp). apply order_by_in in Hp.
    apply distributions_of_user_in in Hp. exists a, i. tauto.
  - intros (a & i & Ha & Hi & K1 & K2 & Hd & ->). exists (a, i).
    split; [reflexivity|]. apply order_by_in.
    apply distributions_of_user_in. tauto.
Qed.

(** X19. The distribution history of a user lists distributions and
    partial exits only, each on a holding of the user, latest first;
    and a settled transfer shows in the seller's history: after a
    committed settlement the history of the investment's owner holds an
    entry on the transferred investment, dated the day of the run, for
    the transfer amount (PARTIAL_EXIT for a partial, DISTRIBUTION for a
    full transfer), and every entry it held before. *)
Theorem distribution_history_lists_settlements db user :
  (forall e,
     In e (get_distribution_history db user) ->
     (Distribution.activity_type e = DISTRIBUTION
      \/ Distribution.activity_type e = PARTIAL_EXIT)
     /\ exists i, In i (investments db)
                  /\ Investment.user i = User.id user
                  /\ Investment.id i = Distribution.investment_id e
                  /\ Investment.name i = Distribution.investment_name e)
  /\ StronglySorted
       (fun a b => Distribution.date_ b <= Distribution.date_ a)
       (get_distribution_history db user)
  /\ (forall now t db1 t1 buyer seller,
        handle_transfer_completion now db t = Ok (Processed, db1, t1) ->
        OwnershipTransfer.to_user t = Some buyer ->
        get_by_pk Investment.id (OwnershipTransfer.investment t)
          (investments db) = Ok seller ->
        NoDup (map Investment.id (investments db)) ->
        Investment.user seller = User.id user ->
        is_money (OwnershipTransfer.transfer_amount t) ->
        (exists e,
           In e (get_distribution_history db1 user)
           /\ Distribution.investment_id e = Investment.id seller
           /\ Distribution.investment_name e = Investment.name seller
           /\ Distribution.amount e = OwnershipTransfer.transfer_amount t
           /\ Distribution.date_ e = date_of now
           /\ Distribution.activity_type e
              = (if TransferType_eqb (OwnershipTransfer.transfer_type t) PARTIAL
                 then PARTIAL_EXIT else DISTRIBUTION))
        /\ (forall e, In e (get_distribution_history db user) ->
                      In e (get_distribution_history db1 user))).
Proof.
  split; [|split].
  - intros e He. apply distribution_history_in in He.
    destruct He as (a & i & Ha & Hi & K1 & K2 & Hd & ->).
    cbn [distribution_entry Distribution.activity_type
         Distribution.investment_id Distribution.investment_name].
    split; [|exists i; auto].
    unfold is_distribution in Hd.
    destruct (CapitalActivity.activity_type a); try discriminate; auto.
  - unfold get_distribution_history.
    apply StronglySorted_map. cbn [distribution_entry Distribution.date_].
    apply Sorted_StronglySorted; [intros a b c; lia|].
    eapply Sorted_weaken; [|apply order_by_sorted].
    + intros a b H. apply Z.ltb_ge in H. exact H.
    + intros a b. rewrite Z.ltb_lt, Z.ltb_ge. lia.
  - intros now t db1 t1 buyer seller H Hb Hs Hnd Hu Hamt.
    destruct (settlement_activities _ _ _ _ _ _ _ H Hb Hs)
      as (sa & ba & Hacts & Hsinv & Hsty & Hsam & _).
    rewrite (is_money_eq _ Hamt) in Hsam. apply to_column_cents_inv in Hsam.
    rewrite <- (is_money_eq _ Hamt) in Hsam.
    pose proof (get_by_pk_in _ _ _ _ Hs) as (Hin & Hpk).
    assert (Hkeys := settlement_keys _ _ _ _ _ _ _ H Hb Hs Hnd).
    assert (Hkept : forall i, In i (investments db) ->
                              exists i1, In i1 (investments db1)
                                         /\ holding_key i1 = holding_key i).
    { intros i Hi.
      assert (Hk : In (holding_key i) (map holding_key (investments db1))).
      { destruct Hkeys as [->| ->]; [|apply in_or_app; left]; now apply in_map. }
      apply in_map_iff in Hk. destruct Hk as (i1 & Hk & Hi1). eauto. }
    assert (Hdate : CapitalActivity.date_ sa = date_of now).
    { clear -H Hb Hs Hacts.
      apply handler_processed_inv in H.
      destruct H as (_ & _ & buyer' & seller' & dbL & Hb' & Hs' & _ & HL & Hm).
      apply mark_processed_frame in Hm. destruct Hm as (_ & Hm & _).
      apply settle_ledger_inv in HL.
      destruct HL as (s & dbA & dbB & b & created & dbC & dbD
                      & _ & HA & HB & HC & HD & HE).
      apply Investment_save_frame in HA. destruct HA as (_ & _ & _ & HA & _).
      apply CapitalActivity_create_frame in HB.
      destruct HB as (a1 & _ & HB & _).
      apply Investment_save_frame in HD. destruct HD as (_ & _ & _ & HD & _).
      apply CapitalActivity_create_frame in HE.
      destruct HE as (a2 & _ & HE & _).
      assert (HCc : capital_activities dbC = capital_activities dbB).
      { apply Investment_get_or_create_cases in HC.
        destruct HC as [(_ & -> & _)|(_ & _ & _ & _ & _ & _ & _ & _ & Hsave)];
          [reflexivity|].
        apply Investment_save_frame in Hsave.
        now destruct Hsave as (_ & _ & _ & Hsave & _). }
      rewrite Hm, HE, HD, HCc, HB, HA, <- app_assoc in Hacts.
      apply app_inv_head in Hacts. cbn [app] in Hacts.
      injection Hacts as <- _. reflexivity. }
    split.
    + destruct (Hkept seller Hin) as (i1 & Hi1 & Hk1).
      unfold holding_key in Hk1. injection Hk1 as K1 K2 K3.
      exists (distribution_entry sa i1). split.
      * apply distribution_history_in. exists sa, i1.
        split; [rewrite Hacts; apply in_or_app; right; now left|].
        split; [exact Hi1|]. split; [congruence|]. split; [congruence|].
        split; [|reflexivity].
        unfold is_distribution. rewrite Hsty.
        destruct (TransferType_eqb _ _); reflexivity.
      * cbn [distribution_entry Distribution.investment_id
             Distribution.investment_name Distribution.amount
             Distribution.date_ Distribution.activity_type].
        auto.
    + intros e He. apply distribution_history_in in He.
      destruct He as (a & i & Ha & Hi & K1 & K2 & Hd & ->).
      destruct (Hkept i Hi) as (i1 & Hi1 & Hk1).
      unfold holding_key in Hk1. injection Hk1 as J1 J2 J3.
      apply distribution_history_in. exists a, i1.
      split; [rewrite Hacts; apply in_or_app; now left|].
      split; [exact Hi1|]. split; [congruence|]. split; [congruence|].
      split; [exact Hd|]. unfold distribution_entry. now rewrite J1, J3.
Qed.

Lemma distribution_history_lists_settlements_witness :
  exists e,
    In e (get_distribution_history
            (fst (Sample.settled Sample.db_partial Sample.partial))
            Sample.investor)
    /\ Distribution.investment_id e = 1
    /\ Distribution.amount e = Dec.of_cents 1000000
    /\ Distribution.activity_type e = PARTIAL_EXIT.
Proof.
  destruct (proj1
              (proj2 (proj2 (distribution_history_lists_settlements
                               Sample.db_partial Sample.investor))
                 Sample.now Sample.partial
                 (fst (Sample.settled Sample.db_partial Sample.partial))
                 (snd (Sample.settled Sample.db_partial Sample.partial))
                 Sample.buyer (Sample.holding 1 1 ACTIVE 5000000 5000000)
                 ltac:(vm_compute; reflexivity) eq_refl eq_refl
                 ltac:(simpl; repeat constructor; simpl; tauto) eq_refl
                 ltac:(split; [reflexivity|rewrite pow10_15; simpl; lia])))
    as (e & Hin & Hid & _ & Ham & _ & Hty).
  exists e.
  split; [exact Hin|]. split; [exact Hid|]. split; [exact Ham|exact Hty].
Defined.

(** ** Bounds that rounding keeps *)

(** Rounding to the context precision does not pass a bound that has
    fewer than 28 digits at its own exponent. *)
Lemma fix_bound (c e B f : Z) :
  0 <= B < 10 ^ 28 -> e <= f -> Z.abs c <= B * 10 ^ (f - e) ->
  Dec.expo (Dec.fix_ (Dec.mk c e)) <= f
  /\ Z.abs (Dec.coef (Dec.fix_ (Dec.mk c e)))
     <= B * 10 ^ (f - Dec.expo (Dec.fix_ (Dec.mk c e))).
Proof.
  intros HB Hef Hc. unfold Dec.fix_. cbn [Dec.coef Dec.expo].
  destruct (Z.ltb_spec (Z.abs c) (10 ^ Dec.prec)) as [Hs|Hs];
    [cbn [Dec.coef Dec.expo]; split; assumption|].
  rewrite pow10_28 in Hs.
  assert (Hc0 : c <> 0) by lia.
  destruct (digits_spec c Hc0) as ((Hlo & Hhi) & Hd1).
  set (dg := Dec.digits c) in *.
  assert (Hdg : 29 <= dg).
  { destruct (Z.le_gt_cases 29 dg) as [|Hlt]; [assumption|exfalso].
    assert (10 ^ dg <= 10 ^ 28) by (apply Z.pow_le_mono_r; lia).
    change (10 ^ 28) with 10000000000000000000000000000 in *. lia. }
  unfold Dec.prec.
  set (k := dg - 28) in *.
  assert (Hk : 1 <= k) by (unfold k; lia).
  assert (Hpk : 0 < 10 ^ k) by (apply Z.pow_pos_nonneg; lia).
  (* the bound lies on the grid the coefficient is rounded to *)
  assert (Hkf : k <= f - e).
  { destruct (Z.le_gt_cases k (f - e)) as [|Hlt]; [assumption|exfalso].
    assert (H1 : 10 ^ (f - e) <= 10 ^ (k - 1))
      by (apply Z.pow_le_mono_r; lia).
    assert (H2 : 10 ^ (dg - 1) = 10 ^ 28 * 10 ^ (k - 1)).
    { rewrite <- Z.pow_add_r by lia. f_equal. unfold k. lia. }
    assert (0 < 10 ^ (k - 1)) by (apply Z.pow_pos_nonneg; lia).
    assert (0 < 10 ^ (f - e)) by (apply Z.pow_pos_nonneg; lia).
    nia. }
  set (j := f - e - k).
  assert (Hj : 0 <= j) by (unfold j; lia).
  assert (Hsplit : 10 ^ (f - e) = 10 ^ k * 10 ^ j).
  { rewrite <- Z.pow_add_r by lia. f_equal. unfold j. lia. }
  set (c' := Dec.div_half_even c (10 ^ k)).
  assert (Hc' : Z.abs c' <= B * 10 ^ j).
  { apply div_half_even_bound; [exact Hpk|]. rewrite Hsplit in Hc. lia. }
  assert (Hc28 : Z.abs c' <= 10 ^ 28).
  { apply div_half_even_bound; [exact Hpk|].
    rewrite <- Z.pow_add_r by lia.
    replace (k + 28) with dg by (unfold k; lia). lia. }
  destruct (Z.ltb_spec (Z.abs c') (10 ^ 28)) as [Hs'|Hs'];
    cbn [Dec.coef Dec.expo].
  - split; [lia|]. replace (f - (e + k)) with j by (unfold j; lia). exact Hc'.
  - assert (Hj1 : 1 <= j).
    { destruct (Z.le_gt_cases 1 j) as [|Hlt]; [assumption|exfalso].
      replace j with 0 in Hc' by lia. change (10 ^ 0) with 1 in Hc'. lia. }
    assert (Hsplit' : 10 ^ j = 10 * 10 ^ (j - 1)).
    { replace j with (Z.succ (j - 1)) at 1 by lia.
      rewrite Z.pow_succ_r by lia. reflexivity. }
    assert (0 < 10 ^ (j - 1)) by (apply Z.pow_pos_nonneg; lia).
    split; [lia|].
    replace (f - (e + k + 1)) with (j - 1) by (unfold j; lia).
    change (10 ^ 28) with (10 * 10 ^ 27) in Hs', Hc28.
    assert (Habs : Z.abs c' = 10 * 10 ^ 27) by lia.
    assert (Hdiv : Z.abs (c' / 10) = 10 ^ 27).
    { destruct (Z.abs_eq_or_opp c') as [E|E]; rewrite E in Habs.
      - rewrite Habs, Z.mul_comm, Z.div_mul by lia. reflexivity.
      - assert (c' = (- 10 ^ 27) * 10) by lia.
        subst c'. rewrite H0, Z.div_mul by lia. reflexivity. }
    rewrite Hdiv. change (10 ^ 27) with 1000000000000000000000000000 in *.
    nia.
Qed.

(** What [strip] returns has the value it was given. *)
Lemma strip_value (fuel : nat) :
  forall c e ideal,
    e <= ideal ->
    let r := Dec.strip fuel c e ideal in
    e <= snd r <= ideal /\ c = fst r * 10 ^ (snd r - e).
Proof.
  induction fuel as [|n IH]; intros c e ideal He; cbn [Dec.strip].
  - cbn [fst snd]. rewrite Z.sub_diag. split; lia.
  - destruct (Z.ltb_spec e ideal) as [Hlt|Hge]; cbn [andb].
    + destruct (Z.eqb_spec (c mod 10) 0) as [Hm|Hm].
      * destruct (IH (c / 10) (e + 1) ideal ltac:(lia)) as (Hr & Hv).
        split; [lia|].
        pose proof (Z.div_mod c 10 ltac:(lia)) as Hdm.
        replace (snd (Dec.strip n (c / 10) (e + 1) ideal) - e)
          with (Z.succ (snd (Dec.strip n (c / 10) (e + 1) ideal) - (e + 1)))
          by lia.
        rewrite Z.pow_succ_r by lia. lia.
      * cbn [fst snd]. rewrite Z.sub_diag. split; lia.
    + cbn [fst snd]. rewrite Z.sub_diag. split; lia.
Qed.

Lemma digits_mono (a b : Z) :
  0 < a <= b -> Dec.digits a <= Dec.digits b.
Proof.
  intros H.
  destruct (digits_spec a ltac:(lia)) as ((La & Ua) & Da).
  destruct (digits_spec b ltac:(lia)) as ((Lb & Ub) & Db).
  rewrite Z.abs_eq in La, Ua, Lb, Ub by lia.
  destruct (Z.le_gt_cases (Dec.digits a) (Dec.digits b)) as [|Hgt];
    [assumption|exfalso].
  assert (10 ^ Dec.digits b <= 10 ^ (Dec.digits a - 1))
    by (apply Z.pow_le_mono_r; lia).
  lia.
Qed.

(** The ratio of a part to the whole is between 0 and 1. *)
Lemma div_part_of_whole (a b : Z) :
  0 < a <= b ->
  exists r,
    Dec.div (Dec.of_cents a) (Dec.of_cents b) = Some r
    /\ 0 <= Dec.coef r
    /\ Dec.expo r <= 0
    /\ Dec.coef r <= 10 ^ (- Dec.expo r).
Proof.
  intros Hab. unfold Dec.div, Dec.of_cents. cbn [Dec.coef Dec.expo].
  destruct (Z.eqb_spec b 0) as [|_]; [lia|].
  destruct (Z.eqb_spec a 0) as [|_]; [lia|].
  cbv zeta. rewrite (Z.abs_eq a), (Z.abs_eq b) by lia.
  rewrite (Z.sgn_pos a), (Z.sgn_pos b) by lia.
  pose proof (digits_mono a b Hab) as Hd.
  destruct (digits_spec a ltac:(lia)) as (_ & Da).
  set (d1 := Dec.digits a) in *. set (d2 := Dec.digits b) in *.
  unfold Dec.prec. set (shift := d2 - d1 + 28 + 1).
  assert (Hsh : 29 <= shift) by (unfold shift; lia).
  destruct (Z.leb_spec 0 shift) as [_|]; [|lia].
  pose proof (Z.div_eucl_eq (a * 10 ^ shift) b ltac:(lia)) as Heq.
  pose proof (Z.mod_pos_bound (a * 10 ^ shift) b ltac:(lia)) as Hr.
  unfold Z.modulo in Hr.
  destruct (Z.div_eucl (a * 10 ^ shift) b) as [q r].
  assert (Hp : 0 < 10 ^ shift) by (apply Z.pow_pos_nonneg; lia).
  assert (Hq0 : 0 <= q) by nia.
  assert (Hq : q <= 10 ^ shift) by nia.
  replace (-2 - -2 - shift) with (- shift) by lia.
  replace (-2 - -2) with 0 by lia.
  set (ce := if (r =? 0)%Z
             then Dec.strip (Z.to_nat shift) q (- shift) 0
             else (if (q mod 5 =? 0)%Z then q + 1 else q, - shift)).
  assert (Hce : 0 <= fst ce /\ - shift <= snd ce <= 0
                /\ fst ce <= 10 ^ (- snd ce)).
  { unfold ce. destruct (Z.eqb_spec r 0) as [Hr0|Hr0].
    - destruct (strip_value (Z.to_nat shift) q (- shift) 0 ltac:(lia))
        as (He & Hv).
      set (s := Dec.strip (Z.to_nat shift) q (- shift) 0) in *.
      assert (Hp' : 0 < 10 ^ (snd s - - shift))
        by (apply Z.pow_pos_nonneg; lia).
      assert (Hp'' : 0 < 10 ^ (- snd s)) by (apply Z.pow_pos_nonneg; lia).
      assert (Hsplit : 10 ^ shift = 10 ^ (- snd s) * 10 ^ (snd s - - shift)).
      { rewrite <- Z.pow_add_r by lia. f_equal. lia. }
      split; [nia|]. split; [exact He|]. nia.
    - cbn [fst snd]. rewrite Z.opp_involutive.
      assert (q < 10 ^ shift) by nia.
      destruct (q mod 5 =? 0)%Z; repeat split; lia. }
  destruct ce as [c e']. cbn [fst snd] in Hce.
  destruct Hce as (Hc0 & He & Hc).
  eexists. split; [reflexivity|].
  replace (1 * 1 * c) with c by lia.
  destruct (fix_bound c e' 1 0) as (F1 & F2).
  - change (10 ^ 28) with 10000000000000000000000000000. lia.
  - lia.
  - rewrite Z.abs_eq, Z.mul_1_l by lia. replace (0 - e') with (- e') by lia.
    exact Hc.
  - split; [apply fix_nonneg; exact Hc0|]. split; [exact F1|].
    rewrite Z.mul_1_l in F2.
    replace (0 - Dec.expo (Dec.fix_ {| Dec.coef := c; Dec.expo := e' |}))
      with (- Dec.expo (Dec.fix_ {| Dec.coef := c; Dec.expo := e' |})) in F2
      by lia.
    pose proof (fix_nonneg (Dec.mk c e') Hc0). lia.
Qed.

(** A cost basis less a share of it between nothing and all still fits
    its column. *)
Lemma cost_basis_less_share_fits (t : Z) (r : Decimal) :
  Z.abs t < 10 ^ 15 ->
  0 <= Dec.coef r -> Dec.expo r <= 0 -> Dec.coef r <= 10 ^ (- Dec.expo r) ->
  exists q,
    to_column 15 (Dec.sub (Dec.of_cents t) (Dec.mul (Dec.of_cents t) r)) = Ok q.
Proof.
  intros Ht Hr0 Hre Hr1. destruct r as [cr er]. cbn [Dec.coef Dec.expo] in *.
  rewrite pow10_15 in Ht.
  assert (HB : 0 <= Z.abs t < 10 ^ 28).
  { change (10 ^ 28) with 10000000000000000000000000000. lia. }
  assert (Hper : 0 < 10 ^ (- er)) by (apply Z.pow_pos_nonneg; lia).
  unfold Dec.sub, Dec.add, Dec.neg, Dec.align, Dec.mul, Dec.of_cents.
  cbn [Dec.coef Dec.expo].
  destruct (fix_bound (t * cr) (-2 + er) (Z.abs t) (-2) HB ltac:(lia))
    as (D1 & D2).
  { rewrite Z.abs_mul, (Z.abs_eq cr) by lia.
    replace (-2 - (-2 + er)) with (- er) by lia. nia. }
  pose proof (fix_sgn (Dec.mk (t * cr) (-2 + er))) as Dsgn.
  cbn [Dec.coef] in Dsgn.
  destruct (Dec.fix_ {| Dec.coef := t * cr; Dec.expo := -2 + er |})
    as [cd ed] eqn:Ed.
  cbn [Dec.coef Dec.expo] in *.
  rewrite (Z.min_r (-2) ed) by lia.
  rewrite Z.sub_diag. change (10 ^ 0) with 1. rewrite Z.mul_1_r.
  assert (Hp : 0 < 10 ^ (-2 - ed)) by (apply Z.pow_pos_nonneg; lia).
  assert (Hsum : Z.abs (t * 10 ^ (-2 - ed) + - cd)
                 <= Z.abs t * 10 ^ (-2 - ed)).
  { rewrite Z.sgn_mul in Dsgn.
    destruct (Z.lt_trichotomy t 0) as [Hn|[Hz|Hpz]].
    - rewrite (Z.sgn_neg t) in Dsgn by lia.
      assert (cd <= 0).
      { destruct (Z.lt_trichotomy cr 0) as [|[->|Hcp]]; [lia| |].
        - change (Z.sgn 0) with 0 in Dsgn. rewrite Z.mul_0_r in Dsgn.
          apply Z.sgn_null_iff in Dsgn. lia.
        - rewrite (Z.sgn_pos cr) in Dsgn by lia.
          assert (Z.sgn cd = -1) by lia. apply Z.sgn_neg_iff in H. lia. }
      lia.
    - subst t.
      assert (Hcd : cd = 0) by (apply Z.sgn_null_iff; exact Dsgn).
      rewrite Hcd. cbn. lia.
    - rewrite (Z.sgn_pos t) in Dsgn by lia.
      assert (0 <= cd).
      { destruct (Z.lt_trichotomy cr 0) as [|[->|Hcp]]; [lia| |].
        - change (Z.sgn 0) with 0 in Dsgn. rewrite Z.mul_0_r in Dsgn.
          apply Z.sgn_null_iff in Dsgn. lia.
        - rewrite (Z.sgn_pos cr) in Dsgn by lia.
          assert (Z.sgn cd = 1) by lia. apply Z.sgn_pos_iff in H. lia. }
      lia. }
  destruct (fix_bound (t * 10 ^ (-2 - ed) + - cd) ed (Z.abs t) (-2) HB D1 Hsum)
    as (S1 & S2).
  destruct (Dec.fix_ {| Dec.coef := t * 10 ^ (-2 - ed) + - cd; Dec.expo := ed |})
    as [cs es].
  cbn [Dec.coef Dec.expo] in *.
  unfold to_column, Dec.quantize2. cbn [Dec.coef Dec.expo].
  destruct (Z.leb_spec (-2) es) as [Hes|Hes].
  - assert (es = -2) by lia. subst es.
    change (10 ^ (-2 + 2)) with 1. rewrite Z.mul_1_r.
    change (10 ^ (-2 - -2)) with 1 in S2. rewrite Z.mul_1_r in S2.
    rewrite pow10_15.
    destruct (Z.ltb_spec (Z.abs cs) 1000000000000000); [eauto|lia].
  - assert (Hq : Z.abs (Dec.div_half_even cs (10 ^ (-2 - es))) <= Z.abs t).
    { apply div_half_even_bound; [apply Z.pow_pos_nonneg; lia|lia]. }
    rewrite pow10_15.
    destruct (Z.ltb_spec (Z.abs (Dec.div_half_even cs (10 ^ (-2 - es))))
                1000000000000000); [eauto|lia].
Qed.
(** ** When a settlement commits *)

Ltac investment_fields :=
  cbn [Investment.set_status Investment.set_total_invested
       Investment.set_current_value Investment.id Investment.user
       Investment.name Investment.status Investment.sector
       Investment.total_invested Investment.current_value
       Investment.fund_size Investment.unfunded_commitment
       Investment.manager Investment.investment_date
       Investment.expected_horizon_years Investment.fund_vintage
       Investment.progress_percentage].

Lemma to_column_money (d : Decimal) : is_money d -> to_column 15 d = Ok d.
Proof.
  intros H. rewrite (is_money_eq _ H). apply to_column_cents. apply H.
Qed.

(** A row whose columns can be written can be saved. *)
Lemma Investment_to_row_ok now i ti cv :
  to_column 15 (Investment.total_invested i) = Ok ti ->
  to_column 15 (Investment.current_value i) = Ok cv ->
  match Investment.fund_size i with Some v => is_money v | None => True end ->
  is_money (Investment.unfunded_commitment i) ->
  is_percentage (Some (Investment.progress_percentage i)) ->
  exists row, Investment_to_row now i = Ok row.
Proof.
  intros Hti Hcv Hfs Huc Hpp. unfold Investment_to_row.
  rewrite Hti, Hcv. cbn [bind].
  assert (Hfs' : exists fs, to_column_opt 15 (Investment.fund_size i) = Ok fs).
  { destruct (Investment.fund_size i) as [v|]; cbn [to_column_opt].
    - rewrite (to_column_money _ Hfs). cbn [bind]. eauto.
    - eauto. }
  destruct Hfs' as (fs & ->). cbn [bind].
  rewrite (to_column_money _ Huc). cbn [bind].
  assert (Hpp' : to_column 5 (Investment.progress_percentage i)
                 = Ok (Investment.progress_percentage i)).
  { destruct (Investment.progress_percentage i) as [c e].
    cbn [is_percentage Dec.coef Dec.expo] in Hpp. destruct Hpp as [-> Hpp].
    apply (to_column_cents 5 c Hpp). }
  rewrite Hpp'. cbn [bind]. eauto.
Qed.

Lemma Investment_save_ok now db i row :
  Investment_to_row now i = Ok row ->
  exists db', Investment_save now db i = Ok db'.
Proof.
  intros H. unfold Investment_save. rewrite H. cbn [bind].
  apply Investment_to_row_fields in H.
  destruct H as (_ & _ & _ & _ & _ & Hcv).
  unfold create_performance_snapshot.
  destruct (_ && _); [|eauto].
  destruct (negb _); [|eauto].
  rewrite Hcv. cbn [bind]. eauto.
Qed.

Lemma CapitalActivity_create_ok now db inv ty amount d details a :
  to_column 15 amount = Ok a ->
  exists db', CapitalActivity_create now db inv ty amount d details = Ok db'.
Proof.
  intros H. unfold CapitalActivity_create. rewrite H. cbn [bind]. eauto.
Qed.

Lemma mark_processed_ok now db t buyer :
  has_pk OwnershipTransfer.id (OwnershipTransfer.id t) (ownership_transfers db)
  = true ->
  exists t1 db1, mark_processed now db t buyer = (t1, Ok db1).
Proof.
  intros H. unfold mark_processed, OwnershipTransfer_save_processed.
  set (t' := OwnershipTransfer.set_processed true _ t).
  pose proof (OwnershipTransfer_pre_save_fields now t') as F.
  cbv zeta in F. destruct F as (Fid & _).
  rewrite Fid. change (OwnershipTransfer.id t') with (OwnershipTransfer.id t).
  rewrite H. cbn [bind]. eauto.
Qed.

(** The seller's row after the debit can be written. *)
Lemma seller_after_transfer_ok t seller :
  investment_stored seller ->
  is_money (OwnershipTransfer.transfer_amount t) ->
  0 < cents (OwnershipTransfer.transfer_amount t)
    <= cents (Investment.current_value seller) ->
  exists s,
    seller_after_transfer t seller = Ok s
    /\ forall now, exists row, Investment_to_row now s = Ok row.
Proof.
  intros ((Hti & Hcv) & Hfs & Huc & Hpp) Hamt Hle.
  unfold seller_after_transfer. investment_fields.
  rewrite (is_money_eq _ Hcv), (is_money_eq _ Hamt), (is_money_eq _ Hti).
  destruct Hcv as [_ Hcv]. destruct Hamt as [_ Hamt]. destruct Hti as [_ Hti].
  set (a := cents (OwnershipTransfer.transfer_amount t)) in *.
  set (v := cents (Investment.current_value seller)) in *.
  set (c := cents (Investment.total_invested seller)) in *.
  rewrite ltb_zero_left.
  destruct (Z.ltb_spec 0 v) as [_|]; [|lia].
  destruct (div_part_of_whole a v Hle) as (r & Hr & R0 & R1 & R2).
  rewrite Hr. cbn [bind].
  eexists. split; [reflexivity|]. intros now.
  unfold cents in a, v, c.
  rewrite sub_cents by assumption.
  change Dec.one_cent with (Dec.of_cents 1). rewrite ltb_cents.
  destruct (TransferType_eqb (OwnershipTransfer.transfer_type t) FULL
            || (v - a <? 1)%Z).
  - eapply Investment_to_row_ok; investment_fields; try eassumption;
      reflexivity.
  - destruct (cost_basis_less_share_fits c r Hti R0 R1 R2) as (q & Hq).
    eapply Investment_to_row_ok; investment_fields; try eassumption.
    apply to_column_cents. rewrite pow10_15 in *. lia.
Qed.

(** A COMPLETED, unprocessed transfer of a positive amount within the
    seller's current value, to a recipient other than the owner who
    holds the fund at most once and whose balances leave room for the
    amount, is settled. *)
Lemma settlement_commits now db t buyer seller :
  NoDup (map Investment.id (investments db)) ->
  Forall investment_stored (investments db) ->
  has_pk OwnershipTransfer.id (OwnershipTransfer.id t) (ownership_transfers db)
  = true ->
  OwnershipTransfer.status t = COMPLETED ->
  OwnershipTransfer.is_processed t = false ->
  OwnershipTransfer.to_user t = Some buyer ->
  get_by_pk Investment.id (OwnershipTransfer.investment t) (investments db)
    = Ok seller ->
  User.id buyer <> Investment.user seller ->
  is_money (OwnershipTransfer.transfer_amount t) ->
  0 < cents (OwnershipTransfer.transfer_amount t)
    <= cents (Investment.current_value seller) ->
  (List.length (holdings db (User.id buyer) (Investment.name seller)) <= 1)%nat ->
  Z.abs (held_before db (User.id buyer) (Investment.name seller)
         + cents (OwnershipTransfer.transfer_amount t)) < 10 ^ 15 ->
  Z.abs (cost_before db (User.id buyer) (Investment.name seller)
         + cents (OwnershipTransfer.transfer_amount t)) < 10 ^ 15 ->
  exists db1 t1,
    handle_transfer_completion now db t = Ok (Processed, db1, t1).
Proof.
  intros Hnd Hst Hrow Hc Hp Hb Hs Hne Hamt Hle Hone Hroom_v Hroom_c.
  pose proof (get_by_pk_in _ _ _ _ Hs) as (Hin & Hpk).
  rewrite Forall_forall in Hst.
  pose proof (Hst seller Hin) as Hseller.
  assert (Hscv : is_money (Investment.current_value seller))
    by (exact (proj2 (proj1 Hseller))).
  (* the ledger writes *)
  assert (HL : exists dbL, settle_ledger now db t buyer seller = Ok dbL).
  { unfold settle_ledger.
    destruct (seller_after_transfer_ok t seller Hseller Hamt Hle)
      as (s & Hsa & HrowS).
    rewrite Hsa. cbn [bind].
    pose proof (seller_after_transfer_fields _ _ _ Hsa) as (Hsid & Hsu & Hsn & _).
    destruct (HrowS now) as (rowS & HrS).
    destruct (Investment_save_ok now db s rowS HrS) as (dbA & HA).
    rewrite HA. cbn [bind].
    destruct (CapitalActivity_create_ok now dbA (Investment.id s)
                (if TransferType_eqb (OwnershipTransfer.transfer_type t) PARTIAL
                 then PARTIAL_EXIT else DISTRIBUTION)
                (OwnershipTransfer.transfer_amount t) (date_of now)
                ("Ownership transfer to " ++ User.email buyer ++ " (Transfer #"
                 ++ str_int (OwnershipTransfer.id t) ++ ")")
                _ (to_column_money _ Hamt)) as (dbB & HB).
    rewrite HB. cbn [bind].
    (* the investments table when the buyer's row is looked up *)
    apply Investment_save_frame in HA.
    destruct HA as (rowS' & HrS' & HA & _).
    rewrite HrS in HrS'. injection HrS' as <-.
    apply CapitalActivity_create_frame in HB.
    destruct HB as (_ & _ & _ & HB & _).
    pose proof (Investment_to_row_fields _ _ _ HrS) as (HSid & HSu & HSn & _).
    assert (Hhold : holdings dbB (User.id buyer) (Investment.name s)
                    = holdings db (User.id buyer) (Investment.name seller)).
    { unfold holdings. rewrite HB, HA, Hsn.
      apply filter_write_row_other.
      - destruct (Z.eqb_spec (Investment.user rowS) (User.id buyer));
          [congruence|reflexivity].
      - intros r Hr Hrpk.
        rewrite (NoDup_pk_eq Investment.id _ r seller Hnd Hr Hin)
          by congruence.
        destruct (Z.eqb_spec (Investment.user seller) (User.id buyer));
          [congruence|reflexivity]. }
    rewrite <- Hsn in Hone.
    assert (HC : exists b created dbC,
               Investment_get_or_create now dbB (buyer_defaults now buyer s)
               = Ok (b, created, dbC)
               /\ (exists row,
                     Investment_to_row now (buyer_after_transfer t b) = Ok row)).
    { unfold Investment_get_or_create.
      change (filter _ (investments dbB))
        with (holdings dbB (User.id buyer) (Investment.name s)).
      rewrite Hhold.
      unfold held_before in Hroom_v. unfold cost_before in Hroom_c.
      rewrite <- Hsn in *.
      destruct (holdings db (User.id buyer) (Investment.name s))
        as [|b [|b' l]] eqn:Eh.
      - (* the buyer's row is created *)
        unfold buyer_defaults. investment_fields.
        match goal with
        | |- context [Investment_save now dbB ?o] => set (obj := o)
        end.
        assert (Hobj : exists row, Investment_to_row now obj = Ok row).
        { eapply Investment_to_row_ok; unfold obj; investment_fields;
            try reflexivity; try exact I.
          - split; [reflexivity|]. rewrite pow10_15. cbn. lia.
          - split; [reflexivity|]. cbn. lia. }
        destruct Hobj as (rowN & HrN).
        destruct (Investment_save_ok now dbB obj rowN HrN) as (dbC & HCs).
        rewrite HCs. cbn [bind].
        exists obj, true, dbC. split; [reflexivity|].
        unfold buyer_after_transfer, obj. investment_fields.
        rewrite (is_money_eq _ Hamt).
        change Dec.zero2 with (Dec.of_cents 0).
        rewrite add_cents by (try apply Hamt; rewrite pow10_15; cbn; lia).
        eapply Investment_to_row_ok; investment_fields;
          try (apply to_column_cents; assumption); try reflexivity;
          try exact I.
        + split; [reflexivity|]. rewrite pow10_15. cbn. lia.
        + split; [reflexivity|]. cbn. lia.
      - (* the buyer holds the fund already *)
        exists b, false, dbB. split; [reflexivity|].
        assert (Hbin : In b (investments db)).
        { assert (Hh : In b (holdings db (User.id buyer) (Investment.name s)))
            by (rewrite Eh; now left).
          now apply holdings_in in Hh. }
        destruct (Hst b Hbin) as ((Hbti & Hbcv) & Hbfs & Hbuc & Hbpp).
        unfold buyer_after_transfer. investment_fields.
        rewrite (is_money_eq _ Hamt), (is_money_eq _ Hbti), (is_money_eq _ Hbcv).
        rewrite !add_cents by (try apply Hamt; try apply Hbti; apply Hbcv).
        eapply Investment_to_row_ok; investment_fields;
          try (apply to_column_cents; assumption); assumption.
      - cbn [List.length] in Hone. lia. }
    destruct HC as (b & created & dbC & HC & rowB & HrB).
    rewrite HC. cbn [bind].
    destruct (Investment_save_ok now dbC _ rowB HrB) as (dbD & HD).
    rewrite HD. cbn [bind].
    eapply CapitalActivity_create_ok.
    rewrite (is_money_eq _ Hamt). unfold Dec.neg, Dec.of_cents.
    cbn [Dec.coef Dec.expo].
    rewrite fix_small.
    + apply (to_column_cents 15 (- cents (OwnershipTransfer.transfer_amount t))).
      rewrite Z.abs_opp. apply Hamt.
    + destruct Hamt as [_ Hamt]. rewrite pow10_15 in *. unfold cents in *.
      change (10 ^ 4) with 10000. lia. }
  destruct HL as (dbL & HL).
  pose proof (settle_ledger_transfers _ _ _ _ _ _ HL) as HT.
  destruct (mark_processed_ok now dbL t buyer) as (t1 & db1 & Hm);
    [now rewrite HT|].
  exists db1, t1.
  unfold handle_transfer_completion.
  rewrite Hc, Hp, Hb. cbn [TransferStatus_eqb negb orb]. rewrite Hs. cbn [bind].
  rewrite (is_money_eq _ Hscv), (is_money_eq _ Hamt), ltb_cents.
  destruct (Z.ltb_spec (cents (Investment.current_value seller))
              (cents (OwnershipTransfer.transfer_amount t))) as [|_]; [lia|].
  rewrite HL, Hm. reflexivity.
Qed.
(** The two ledger rows of a committed settlement and the rows of the
    investments table they belong to. *)
Lemma settlement_ledger_rows now db t db1 t1 buyer seller :
  handle_transfer_completion now db t = Ok (Processed, db1, t1) ->
  OwnershipTransfer.to_user t = Some buyer ->
  get_by_pk Investment.id (OwnershipTransfer.investment t) (investments db)
    = Ok seller ->
  User.id buyer <> Investment.user seller ->
  NoDup (map Investment.id (investments db)) ->
  Forall investment_columns (investments db) ->
  is_money (OwnershipTransfer.transfer_amount t) ->
  exists rowB seller_act buyer_act,
    holdings db1 (User.id buyer) (Investment.name seller) = [rowB]
    /\ capital_activities db1
       = (capital_activities db ++ [seller_act; buyer_act])%list
    /\ CapitalActivity.investment seller_act = OwnershipTransfer.investment t
    /\ CapitalActivity.activity_type seller_act
       = (if TransferType_eqb (OwnershipTransfer.transfer_type t) PARTIAL
          then PARTIAL_EXIT else DISTRIBUTION)
    /\ CapitalActivity.amount seller_act = OwnershipTransfer.transfer_amount t
    /\ CapitalActivity.investment buyer_act = Investment.id rowB
    /\ CapitalActivity.activity_type buyer_act = INITIAL_INVESTMENT
    /\ CapitalActivity.amount buyer_act
       = Dec.of_cents (- cents (OwnershipTransfer.transfer_amount t)).
Proof.
  intros H Hb Hs Hne Hnd Hcols Hamt.
  destruct (buyer_row_after _ _ _ _ _ _ _ H Hb Hs Hne Hnd Hcols Hamt)
    as (rowB' & Hhold & _).
  pose proof H as Hinv. apply handler_processed_inv in Hinv.
  destruct Hinv as (_ & _ & buyer' & seller' & dbL & Hb' & Hs' & _ & HL & Hm).
  rewrite Hb in Hb'. injection Hb' as <-.
  rewrite Hs in Hs'. injection Hs' as <-.
  apply mark_processed_frame in Hm. destruct Hm as (Hmi & Hmc & _).
  apply settle_ledger_inv in HL.
  destruct HL as (s & dbA & dbB & b & created & dbC & dbD
                  & Hsa & HA & HB & HC & HD & HE).
  pose proof (seller_after_transfer_fields _ _ _ Hsa) as (Hsid & _ & Hsn & _).
  pose proof (get_by_pk_in _ _ _ _ Hs) as (_ & Hpk).
  apply Investment_save_frame in HA. destruct HA as (_ & _ & _ & HA & _).
  apply CapitalActivity_create_frame in HB.
  destruct HB as (a1 & Ha1 & HB & _).
  apply Investment_save_frame in HD.
  destruct HD as (rowB & HrowB & HDi & HD & _).
  apply CapitalActivity_create_frame in HE.
  destruct HE as (a2 & Ha2 & HE & HEi & _).
  pose proof (Investment_to_row_fields _ _ _ HrowB) as (HBid & HBu & HBn & _).
  unfold buyer_after_transfer in HBid, HBu, HBn.
  cbn [Investment.set_current_value Investment.set_total_invested
       Investment.id Investment.user Investment.name] in HBid, HBu, HBn.
  assert (Hb_key : Investment.user b = User.id buyer
                   /\ Investment.name b = Investment.name seller
                   /\ capital_activities dbC = capital_activities dbB).
  { apply Investment_get_or_create_cases in HC.
    destruct HC as [(_ & -> & Hh)|(_ & _ & _ & Hu & Hn & _ & _ & _ & Hsave)].
    - assert (Hin : In b (holdings dbB (Investment.user (buyer_defaults now buyer s))
                            (Investment.name (buyer_defaults now buyer s))))
        by (rewrite Hh; now left).
      apply holdings_in in Hin. destruct Hin as (_ & Hu & Hn).
      cbn [buyer_defaults Investment.user Investment.name] in Hu, Hn.
      repeat split; congruence.
    - cbn [buyer_defaults Investment.user Investment.name] in Hu, Hn.
      apply Investment_save_frame in Hsave.
      destruct Hsave as (_ & _ & _ & Hsave & _).
      repeat split; congruence. }
  destruct Hb_key as (Hbu & Hbn & HCc).
  assert (HrowB_in : In rowB (holdings db1 (User.id buyer)
                                (Investment.name seller))).
  { unfold holdings. apply filter_In. split.
    - rewrite Hmi, HEi, HDi. apply in_write_row_self.
    - rewrite HBu, HBn, Hbu, Hbn, Z.eqb_refl. cbn [andb].
      apply String.eqb_refl. }
  rewrite Hhold in HrowB_in. destruct HrowB_in as [<-|[]].
  rewrite (to_column_money _ Hamt) in Ha1. injection Ha1 as <-.
  assert (Ha2' : a2 = Dec.of_cents (- cents (OwnershipTransfer.transfer_amount t))).
  { rewrite (is_money_eq _ Hamt) in Ha2 at 1.
    unfold Dec.neg, Dec.of_cents in Ha2. cbn [Dec.coef Dec.expo] in Ha2.
    rewrite fix_small in Ha2.
    - change (Dec.mk (- cents (OwnershipTransfer.transfer_amount t)) (-2))
        with (Dec.of_cents (- cents (OwnershipTransfer.transfer_amount t)))
        in Ha2.
      now apply to_column_cents_inv in Ha2.
    - destruct Hamt as [_ Hamt]. rewrite pow10_15 in *. unfold cents in *.
      change (10 ^ 4) with 10000. lia. }
  eexists rowB', _, _. split; [exact Hhold|]. split.
  - rewrite Hmc, HE, HD, HCc, HB, HA. rewrite <- app_assoc. reflexivity.
  - cbn [CapitalActivity.investment CapitalActivity.activity_type
         CapitalActivity.amount].
    repeat split; try reflexivity; try congruence.
    unfold buyer_after_transfer.
    cbn [Investment.set_current_value Investment.set_total_invested
         Investment.id].
    congruence.
Qed.

(** C1, amended.  A COMPLETED transfer that is not yet processed, asks
    for a positive amount within the seller investment's current value
    and goes to a registered recipient other than the investment's
    owner, who holds the fund at most once and whose balances leave
    room for the amount, is settled by one run of the receiver over
    tables that meet their schema: the run commits with [is_processed]
    set on the instance and on the stored row, one debit on the
    seller's investment (the amount for a PARTIAL transfer that leaves
    0.01 or more, the whole value otherwise), one credit of the amount
    on the buyer's holding in the fund, and exactly two new
    CapitalActivity rows, +amount on the seller's investment and
    -amount (INITIAL_INVESTMENT) on the buyer's holding.  Every further
    run returns at the guard without a write, so any number of runs
    leaves the state of the first. *)
Theorem settlement_is_idempotent now clock db t buyer seller :
  schema_ok db ->
  Forall investment_stored (investments db) ->
  has_pk OwnershipTransfer.id (OwnershipTransfer.id t) (ownership_transfers db)
  = true ->
  OwnershipTransfer.status t = COMPLETED ->
  OwnershipTransfer.is_processed t = false ->
  OwnershipTransfer.to_user t = Some buyer ->
  get_by_pk Investment.id (OwnershipTransfer.investment t) (investments db)
    = Ok seller ->
  User.id buyer <> Investment.user seller ->
  is_money (OwnershipTransfer.transfer_amount t) ->
  0 < cents (OwnershipTransfer.transfer_amount t)
    <= cents (Investment.current_value seller) ->
  (List.length (holdings db (User.id buyer) (Investment.name seller)) <= 1)%nat ->
  Z.abs (held_before db (User.id buyer) (Investment.name seller)
         + cents (OwnershipTransfer.transfer_amount t)) < 10 ^ 15 ->
  Z.abs (cost_before db (User.id buyer) (Investment.name seller)
         + cents (OwnershipTransfer.transfer_amount t)) < 10 ^ 15 ->
  exists db1 t1 row1 seller1 buyer1 seller_act buyer_act,
    handle_transfer_completion now db t = Ok (Processed, db1, t1)
    /\ run_handler (now :: clock) db t = Ok (db1, t1)
    /\ (forall now', handle_transfer_completion now' db1 t1
                     = Ok (Skipped, db1, t1))
    /\ OwnershipTransfer.is_processed t1 = true
    /\ get_by_pk OwnershipTransfer.id (OwnershipTransfer.id t)
         (ownership_transfers db1) = Ok row1
    /\ OwnershipTransfer.is_processed row1 = true
    /\ get_by_pk Investment.id (OwnershipTransfer.investment t)
         (investments db1) = Ok seller1
    /\ cents (Investment.current_value seller1)
       = (if TransferType_eqb (OwnershipTransfer.transfer_type t) FULL
             || (cents (Investment.current_value seller)
                 - cents (OwnershipTransfer.transfer_amount t) <? 1)%Z
          then 0
          else cents (Investment.current_value seller)
               - cents (OwnershipTransfer.transfer_amount t))
    /\ holdings db1 (User.id buyer) (Investment.name seller) = [buyer1]
    /\ cents (Investment.current_value buyer1)
       = held_before db (User.id buyer) (Investment.name seller)
         + cents (OwnershipTransfer.transfer_amount t)
    /\ capital_activities db1
       = (capital_activities db ++ [seller_act; buyer_act])%list
    /\ CapitalActivity.investment seller_act = OwnershipTransfer.investment t
    /\ CapitalActivity.activity_type seller_act
       = (if TransferType_eqb (OwnershipTransfer.transfer_type t) PARTIAL
          then PARTIAL_EXIT else DISTRIBUTION)
    /\ CapitalActivity.amount seller_act = OwnershipTransfer.transfer_amount t
    /\ CapitalActivity.investment buyer_act = Investment.id buyer1
    /\ CapitalActivity.activity_type buyer_act = INITIAL_INVESTMENT
    /\ CapitalActivity.amount buyer_act
       = Dec.of_cents (- cents (OwnershipTransfer.transfer_amount t)).
Proof.
  intros (Hnd & Hndt & Hcols & _) Hst Hrow Hc Hp Hb Hs Hne Hamt Hle Hone
         Hroom_v Hroom_c.
  destruct (settlement_commits now db t buyer seller Hnd Hst Hrow Hc Hp Hb Hs
              Hne Hamt Hle Hone Hroom_v Hroom_c) as (db1 & t1 & H).
  (* the flag *)
  pose proof H as Hinv. apply handler_processed_inv in Hinv.
  destruct Hinv as (_ & _ & buyer' & seller' & dbL & _ & _ & _ & HL & Hm).
  apply settle_ledger_transfers in HL.
  apply mark_processed_frame in Hm.
  destruct Hm as (_ & _ & Hflag & _ & _ & Htab).
  assert (Hskip : forall now', handle_transfer_completion now' db1 t1
                               = Ok (Skipped, db1, t1))
    by (intros now'; now apply handler_skips_processed).
  destruct (get_by_pk_present OwnershipTransfer.id (OwnershipTransfer.id t)
              _ Hndt Hrow) as (row0 & Hrow0).
  assert (Hrow1 : get_by_pk OwnershipTransfer.id (OwnershipTransfer.id t)
                    (ownership_transfers db1)
                  = Ok (OwnershipTransfer.set_processed true
                          (OwnershipTransfer.completion_date t1) row0)).
  { rewrite Htab, HL, get_by_pk_update_row by (intros r Hr; exact Hr).
    rewrite Hrow0. apply get_by_pk_in in Hrow0. destruct Hrow0 as [_ ->].
    now rewrite Z.eqb_refl. }
  (* the seller's row *)
  destruct (seller_row_after _ _ _ _ _ _ _ H Hb Hs Hne)
    as (s & rowS & Hsa & HrowS & Hget).
  assert (Hdebit :
            cents (Investment.current_value rowS)
            = (if TransferType_eqb (OwnershipTransfer.transfer_type t) FULL
                  || (cents (Investment.current_value seller)
                      - cents (OwnershipTransfer.transfer_amount t) <? 1)%Z
               then 0
               else cents (Investment.current_value seller)
                    - cents (OwnershipTransfer.transfer_amount t))).
  { pose proof (get_by_pk_in _ _ _ _ Hs) as (Hin & _).
    rewrite Forall_forall in Hcols. destruct (Hcols seller Hin) as [_ Hmc].
    apply Investment_to_row_fields in HrowS.
    destruct HrowS as (_ & _ & _ & _ & _ & Hcv').
    apply seller_after_transfer_fields in Hsa.
    rewrite (is_money_eq _ Hmc), (is_money_eq _ Hamt) in Hsa.
    destruct Hmc as [_ Hmc]. destruct Hamt as [_ Hamt'].
    rewrite sub_cents in Hsa by assumption.
    change Dec.one_cent with (Dec.of_cents 1) in Hsa.
    rewrite ltb_cents in Hsa.
    destruct Hsa as (_ & _ & _ & [(Hor & _ & Hcv & _)|((Hpt & Hl) & _ & Hcv)]);
      rewrite Hcv in Hcv'.
    - change (to_column 15 Dec.zero2) with (Ok Dec.zero2) in Hcv'.
      injection Hcv' as <-.
      destruct Hor as [-> | ->]; [reflexivity|].
      now rewrite orb_true_r.
    - apply to_column_cents_inv in Hcv'. rewrite Hcv', Hpt, Hl. reflexivity. }
  (* the buyer's row and the ledger *)
  destruct (buyer_balances_after _ _ _ _ _ _ _ H Hb Hs Hne Hnd Hcols Hamt)
    as (rowB & Hhold & Hcredit & _).
  destruct (settlement_ledger_rows _ _ _ _ _ _ _ H Hb Hs Hne Hnd Hcols Hamt)
    as (rowB' & seller_act & buyer_act & Hhold' & Hacts & A1 & A2 & A3
        & B1 & B2 & B3).
  rewrite Hhold in Hhold'. injection Hhold' as <-.
  exists db1, t1, (OwnershipTransfer.set_processed true
                     (OwnershipTransfer.completion_date t1) row0),
    rowS, rowB, seller_act, buyer_act.
  split; [exact H|]. split.
  { cbn [run_handler]. rewrite H. cbn [bind].
    apply run_handler_fixed. intros now'. exists Skipped. apply Hskip. }
  split; [exact Hskip|]. split; [exact Hflag|]. split; [exact Hrow1|].
  split; [reflexivity|]. split; [exact Hget|]. split; [exact Hdebit|].
  split; [exact Hhold|]. split; [now rewrite Hcredit|].
  split; [exact Hacts|]. auto 10.
Qed.

Lemma settlement_is_idempotent_witness :
  exists db1 t1 row1 seller1 buyer1 seller_act buyer_act,
    handle_transfer_completion Sample.now Sample.db_partial Sample.partial
    = Ok (Processed, db1, t1)
    /\ run_handler [Sample.now; Sample.now + 60; Sample.now + 86400]
         Sample.db_partial Sample.partial = Ok (db1, t1)
    /\ OwnershipTransfer.is_processed t1 = true
    /\ get_by_pk OwnershipTransfer.id 1 (ownership_transfers db1) = Ok row1
    /\ OwnershipTransfer.is_processed row1 = true
    /\ get_by_pk Investment.id 1 (investments db1) = Ok seller1
    /\ cents (Investment.current_value seller1) = 4000000
    /\ holdings db1 2 "Inv1" = [buyer1]
    /\ cents (Investment.current_value buyer1) = 1000000
    /\ capital_activities db1 = [seller_act; buyer_act]
    /\ CapitalActivity.investment seller_act = 1
    /\ CapitalActivity.activity_type seller_act = PARTIAL_EXIT
    /\ CapitalActivity.amount seller_act = Dec.of_cents 1000000
    /\ CapitalActivity.investment buyer_act = Investment.id buyer1
    /\ CapitalActivity.activity_type buyer_act = INITIAL_INVESTMENT
    /\ CapitalActivity.amount buyer_act = Dec.of_cents (-1000000).
Proof.
  destruct (settlement_is_idempotent Sample.now
              [Sample.now + 60; Sample.now + 86400]
              Sample.db_partial Sample.partial Sample.buyer
              (Sample.holding 1 1 ACTIVE 5000000 5000000))
    as (db1 & t1 & row1 & seller1 & buyer1 & seller_act & buyer_act
        & H1 & H2 & _ & H3 & H4 & H5 & H6 & H7 & H8 & H9 & H10 & H11 & H12
        & H13 & H14 & H15 & H16).
  - repeat split; simpl; repeat constructor; simpl; try tauto;
      rewrite pow10_15; simpl; lia.
  - repeat constructor; simpl; try (rewrite pow10_15; simpl; lia); lia.
  - reflexivity.
  - reflexivity.
  - reflexivity.
  - reflexivity.
  - reflexivity.
  - simpl. lia.
  - split; [reflexivity|rewrite pow10_15; simpl; lia].
  - simpl. lia.
  - simpl. lia.
  - rewrite pow10_15. simpl. lia.
  - rewrite pow10_15. simpl. lia.
  - exists db1, t1, row1, seller1, buyer1, seller_act, buyer_act.
    split; [exact H1|]. split; [exact H2|]. split; [exact H3|].
    split; [exact H4|]. split; [exact H5|]. split; [exact H6|].
    split; [exact H7|]. split; [exact H8|]. split; [exact H9|].
    split; [exact H10|]. split; [exact H11|]. split; [exact H12|].
    split; [exact H13|]. split; [exact H14|]. split; [exact H15|exact H16].
Defined.
